(** * repo-caravan: the client-side synchronisation layer

    A shallow embedding of the domain access layer ([lib/database.ts]) and of
    the exam-authoring screen ([pages/ExerciseForge.tsx]) together with the
    subscription effects of the report dashboard ([pages/Dashboard.tsx]).

    Asynchronous handlers are functions in a state-and-exception monad over
    the pair of the screen state and the outside world (remote tables, the
    trace of remote calls, the notifications shown).  A handler reads the
    values of the render it was created in (its snapshot) and writes through
    the state setters; functional updates ([setExams (prev => ...)]) read the
    live state.  A handler runs to completion before the next event is
    dispatched.

    A call of the store client always resolves to a [{ data, error }] pair,
    also when the request fails on the way; only the callers that look at
    [error] throw.  A text is the string of the bytes of its UTF-8 form;
    where the source counts the characters of a text ([ExamList]), the text
    is the list of its UTF-16 code units. *)

From Stdlib Require Import Lia Ascii.
From stdpp Require Import base option list gmap strings pretty sorting.

(** ** Rows of the remote tables *)

(** Modelled from the spec: the row types of [types/database.ts] (the file
    is not part of the sources); attributes are those of the data-model
    table.  Timestamps are instants, ordered as numbers. *)
Module Pupil.
Record t := mk { id : string; name : string; teacher_id : string;
                   created_at : nat }.
End Pupil.

Module Report.
Record t := mk { id : string; pupil_id : string; teacher_id : string;
                   report_title : string; requested_at : nat;
                   sections : list (string * string) }.
End Report.

Module Exam.
Record t := mk { id : string; title : string; content : string;
                   teacher_id : string; updated_at : nat }.
(** [{ ...exam, content }] and [{ ...exam, title }] *)
Definition with_content (c : string) (e : t) : t :=
    mk (id e) (title e) c (teacher_id e) (updated_at e).
Definition with_title (ti : string) (e : t) : t :=
    mk (id e) ti (content e) (teacher_id e) (updated_at e).
End Exam.

Module Correction.
Record t := mk { id : string; exam_id : string; content : string;
                   teacher_id : string }.
Definition with_content (c : string) (r : t) : t :=
    mk (id r) (exam_id r) c (teacher_id r).
End Correction.

Module User.
Record t := mk { id : string }.
End User.

#[global] Instance exam_eq_dec : EqDecision Exam.t.
Proof. solve_decision. Defined.
#[global] Instance correction_eq_dec : EqDecision Correction.t.
Proof. solve_decision. Defined.

(** ** Errors and responses of the remote store client *)

Record PgError := { code : string }.

Inductive Error :=
| StoreError (e : PgError)      (* an [error] object of the store, thrown *)
| TypeError (msg : string)      (* calling or reading through undefined *)
| JsError (msg : string)        (* [throw new Error(msg)] *)
| NetworkError.                 (* a [fetch] that rejects *)

(** The [{ data, error }] pair every store call resolves to. *)
Record Response (A : Type) := { data : option A; error : option PgError }.
Arguments data {A} _.
Arguments error {A} _.

Definition resolved {A} (a : A) : Response A :=
  {| data := Some a; error := None |}.
Definition failed {A} (e : PgError) : Response A :=
  {| data := None; error := Some e |}.

(** The code the store answers with when [.single()] does not get exactly
    one row; it is the constant tested in [corrections.getByExamId]. *)
Definition PGRST116 : PgError := {| code := "PGRST116" |}.

(** The code of a write refused by the row-level owner policy. *)
Definition RLS_DENIED : PgError := {| code := "42501" |}.

(** [.single()]: the row when exactly one matches, PGRST116 otherwise. *)
Definition single {A} (rows : list A) : Response A :=
  match rows with
  | [r] => resolved r
  | _ => failed PGRST116
  end.

(** [.order(key, { ascending: false })], by insertion. *)
Fixpoint insert_desc {A} (key : A -> nat) (x : A) (l : list A) : list A :=
  match l with
  | [] => [x]
  | y :: l' => if Nat.leb (key y) (key x) then x :: l
               else y :: insert_desc key x l'
  end.

Definition order_desc {A} (key : A -> nat) (rows : list A) : list A :=
  foldr (insert_desc key) [] rows.

(** JavaScript truthiness of an optional string: [undefined], [null] and the
    empty string are falsy. *)
Definition truthy (o : option string) : bool :=
  match o with
  | Some s => negb (String.eqb s "")
  | None => false
  end.

(** ** The remote store *)

Record Remote := {
  pupils_tbl : list Pupil.t;
  reports_tbl : list Report.t;
  exams_tbl : list Exam.t;
  corrections_tbl : list Correction.t;
  auth_user : option User.t;   (* the session behind supabase.auth.getUser() *)
  next_row : nat;              (* numbers the rows the store creates *)
  clock : nat
}.

(** The identifier the store gives to its [n]-th new row. *)
Definition row_id (n : nat) : string := "row-" +:+ pretty n.

(** What happens to one remote call: it goes through, the store answers
    with an error object, or the request fails on the way.  The store
    client does not reject in that case either: it resolves to
    [{ data: null, error }] with an error object of its own making. *)
Inductive Fault :=
| Healthy
| ErrorResponse (e : PgError)
| RequestFailed.

(** The error object the client makes of a request that failed: its code
    is empty. *)
Definition FETCH_ERROR : PgError := {| code := "" |}.

(** The remote calls a handler can make, as they appear in the trace. *)
Inductive Call :=
| PupilsInsert (name : string)
| PupilsSelectAll
| ReportsInsert (pupil_id report_title : string)
| ReportsSelectByPupil (pupil_id : string)
| ExamsInsert (title content : string)
| ExamsSelectAll
| ExamsUpdateContent (id content : string)
| ExamsUpdateTitle (id title : string)
| ExamsSelectById (id : string)
| CorrectionsInsert (content exam_id : string)
| CorrectionsSelectByExam (exam_id : string)
| CorrectionsUpdateContent (id content : string)
| WebhookPost (examId : option string) (teacherId message mode : string)
              (correctionId : option string).

Inductive Toast :=
| ToastSuccess (msg : string)
| ToastError (msg : string)
| ToastLoading (msg : string).

Record World := {
  remote : Remote;
  faults : list Fault;   (* one entry is consumed by each store call *)
  calls : list Call;     (* trace of the calls made so far, oldest first *)
  toasts : list Toast    (* notifications shown so far, oldest first *)
}.

(** ** The state of the exam-authoring screen *)

Inductive Mode := edit | correction_mode.

#[global] Instance mode_eq_dec : EqDecision Mode.
Proof. solve_decision. Defined.

(** The [mode] strings of the source. *)
Definition mode_name (m : Mode) : string :=
  match m with
  | edit => "edit"
  | correction_mode => "correction"
  end.

(** A chat entry [{ content, isUser, id? }]. *)
Record ChatMessage := {
  msg_content : string;
  isUser : bool;
  msg_id : option string
}.

(** The [useState] cells and [useRef] boxes of [ExerciseForge], and the
    [user] of [useAuth].  The cells that only drive layout ([showPreview],
    [chatHeight] and the resize refs) are left out: no handler below reads
    or writes them. *)
Record State := {
  user : option User.t;
  examContentCache : gmap string string;
  examListCache : list Exam.t;
  initialLoadComplete : bool;
  exams : list Exam.t;
  selectedExam : option Exam.t;
  examContent : string;
  correctionContent : string;
  editableContent : string;
  correction : option Correction.t;
  mode : Mode;
  loading : bool;
  isLoadingContent : bool;
  isCreatingNew : bool;
  isWaitingForCorrection : bool;
  chatMessages : list ChatMessage;
  isSendingMessage : bool;
  message : string;
  newExamId : option string
}.

(** The values the component mounts with. *)
Definition initial_state (u : option User.t) : State := {|
  user := u;
  examContentCache := ∅;
  examListCache := [];
  initialLoadComplete := false;
  exams := [];
  selectedExam := None;
  examContent := "";
  correctionContent := "";
  editableContent := "";
  correction := None;
  mode := edit;
  loading := true;
  isLoadingContent := false;
  isCreatingNew := false;
  isWaitingForCorrection := false;
  chatMessages := [];
  isSendingMessage := false;
  message := "";
  newExamId := None
|}.

(** One field replaced, the others kept. *)
Definition put_examContentCache (v : gmap string string) (u : State) : State :=
  Build_State (user u) v (examListCache u) (initialLoadComplete u) (exams u)
    (selectedExam u) (examContent u) (correctionContent u) (editableContent
    u) (correction u) (mode u) (loading u) (isLoadingContent u)
    (isCreatingNew u) (isWaitingForCorrection u) (chatMessages u)
    (isSendingMessage u) (message u) (newExamId u).
Definition put_examListCache (v : list Exam.t) (u : State) : State :=
  Build_State (user u) (examContentCache u) v (initialLoadComplete u) (exams
    u) (selectedExam u) (examContent u) (correctionContent u)
    (editableContent u) (correction u) (mode u) (loading u)
    (isLoadingContent u) (isCreatingNew u) (isWaitingForCorrection u)
    (chatMessages u) (isSendingMessage u) (message u) (newExamId u).
Definition put_initialLoadComplete (v : bool) (u : State) : State :=
  Build_State (user u) (examContentCache u) (examListCache u) v (exams u)
    (selectedExam u) (examContent u) (correctionContent u) (editableContent
    u) (correction u) (mode u) (loading u) (isLoadingContent u)
    (isCreatingNew u) (isWaitingForCorrection u) (chatMessages u)
    (isSendingMessage u) (message u) (newExamId u).
Definition put_exams (v : list Exam.t) (u : State) : State :=
  Build_State (user u) (examContentCache u) (examListCache u)
    (initialLoadComplete u) v (selectedExam u) (examContent u)
    (correctionContent u) (editableContent u) (correction u) (mode u)
    (loading u) (isLoadingContent u) (isCreatingNew u)
    (isWaitingForCorrection u) (chatMessages u) (isSendingMessage u)
    (message u) (newExamId u).
Definition put_selectedExam (v : option Exam.t) (u : State) : State :=
  Build_State (user u) (examContentCache u) (examListCache u)
    (initialLoadComplete u) (exams u) v (examContent u) (correctionContent
    u) (editableContent u) (correction u) (mode u) (loading u)
    (isLoadingContent u) (isCreatingNew u) (isWaitingForCorrection u)
    (chatMessages u) (isSendingMessage u) (message u) (newExamId u).
Definition put_examContent (v : string) (u : State) : State :=
  Build_State (user u) (examContentCache u) (examListCache u)
    (initialLoadComplete u) (exams u) (selectedExam u) v (correctionContent
    u) (editableContent u) (correction u) (mode u) (loading u)
    (isLoadingContent u) (isCreatingNew u) (isWaitingForCorrection u)
    (chatMessages u) (isSendingMessage u) (message u) (newExamId u).
Definition put_correctionContent (v : string) (u : State) : State :=
  Build_State (user u) (examContentCache u) (examListCache u)
    (initialLoadComplete u) (exams u) (selectedExam u) (examContent u) v
    (editableContent u) (correction u) (mode u) (loading u)
    (isLoadingContent u) (isCreatingNew u) (isWaitingForCorrection u)
    (chatMessages u) (isSendingMessage u) (message u) (newExamId u).
Definition put_editableContent (v : string) (u : State) : State :=
  Build_State (user u) (examContentCache u) (examListCache u)
    (initialLoadComplete u) (exams u) (selectedExam u) (examContent u)
    (correctionContent u) v (correction u) (mode u) (loading u)
    (isLoadingContent u) (isCreatingNew u) (isWaitingForCorrection u)
    (chatMessages u) (isSendingMessage u) (message u) (newExamId u).
Definition put_correction (v : option Correction.t) (u : State) : State :=
  Build_State (user u) (examContentCache u) (examListCache u)
    (initialLoadComplete u) (exams u) (selectedExam u) (examContent u)
    (correctionContent u) (editableContent u) v (mode u) (loading u)
    (isLoadingContent u) (isCreatingNew u) (isWaitingForCorrection u)
    (chatMessages u) (isSendingMessage u) (message u) (newExamId u).
Definition put_mode (v : Mode) (u : State) : State :=
  Build_State (user u) (examContentCache u) (examListCache u)
    (initialLoadComplete u) (exams u) (selectedExam u) (examContent u)
    (correctionContent u) (editableContent u) (correction u) v (loading u)
    (isLoadingContent u) (isCreatingNew u) (isWaitingForCorrection u)
    (chatMessages u) (isSendingMessage u) (message u) (newExamId u).
Definition put_loading (v : bool) (u : State) : State :=
  Build_State (user u) (examContentCache u) (examListCache u)
    (initialLoadComplete u) (exams u) (selectedExam u) (examContent u)
    (correctionContent u) (editableContent u) (correction u) (mode u) v
    (isLoadingContent u) (isCreatingNew u) (isWaitingForCorrection u)
    (chatMessages u) (isSendingMessage u) (message u) (newExamId u).
Definition put_isLoadingContent (v : bool) (u : State) : State :=
  Build_State (user u) (examContentCache u) (examListCache u)
    (initialLoadComplete u) (exams u) (selectedExam u) (examContent u)
    (correctionContent u) (editableContent u) (correction u) (mode u)
    (loading u) v (isCreatingNew u) (isWaitingForCorrection u) (chatMessages
    u) (isSendingMessage u) (message u) (newExamId u).
Definition put_isCreatingNew (v : bool) (u : State) : State :=
  Build_State (user u) (examContentCache u) (examListCache u)
    (initialLoadComplete u) (exams u) (selectedExam u) (examContent u)
    (correctionContent u) (editableContent u) (correction u) (mode u)
    (loading u) (isLoadingContent u) v (isWaitingForCorrection u)
    (chatMessages u) (isSendingMessage u) (message u) (newExamId u).
Definition put_isWaitingForCorrection (v : bool) (u : State) : State :=
  Build_State (user u) (examContentCache u) (examListCache u)
    (initialLoadComplete u) (exams u) (selectedExam u) (examContent u)
    (correctionContent u) (editableContent u) (correction u) (mode u)
    (loading u) (isLoadingContent u) (isCreatingNew u) v (chatMessages u)
    (isSendingMessage u) (message u) (newExamId u).
Definition put_chatMessages (v : list ChatMessage) (u : State) : State :=
  Build_State (user u) (examContentCache u) (examListCache u)
    (initialLoadComplete u) (exams u) (selectedExam u) (examContent u)
    (correctionContent u) (editableContent u) (correction u) (mode u)
    (loading u) (isLoadingContent u) (isCreatingNew u)
    (isWaitingForCorrection u) v (isSendingMessage u) (message u) (newExamId
    u).
Definition put_isSendingMessage (v : bool) (u : State) : State :=
  Build_State (user u) (examContentCache u) (examListCache u)
    (initialLoadComplete u) (exams u) (selectedExam u) (examContent u)
    (correctionContent u) (editableContent u) (correction u) (mode u)
    (loading u) (isLoadingContent u) (isCreatingNew u)
    (isWaitingForCorrection u) (chatMessages u) v (message u) (newExamId u).
Definition put_message (v : string) (u : State) : State :=
  Build_State (user u) (examContentCache u) (examListCache u)
    (initialLoadComplete u) (exams u) (selectedExam u) (examContent u)
    (correctionContent u) (editableContent u) (correction u) (mode u)
    (loading u) (isLoadingContent u) (isCreatingNew u)
    (isWaitingForCorrection u) (chatMessages u) (isSendingMessage u) v
    (newExamId u).
Definition put_newExamId (v : option string) (u : State) : State :=
  Build_State (user u) (examContentCache u) (examListCache u)
    (initialLoadComplete u) (exams u) (selectedExam u) (examContent u)
    (correctionContent u) (editableContent u) (correction u) (mode u)
    (loading u) (isLoadingContent u) (isCreatingNew u)
    (isWaitingForCorrection u) (chatMessages u) (isSendingMessage u)
    (message u) v.

(** ** Handlers: state and exceptions *)

Record Sys := { ui : State; world : World }.

Inductive Outcome (A : Type) :=
| Returned (a : A)
| Thrown (e : Error).
Arguments Returned {A} a.
Arguments Thrown {A} e.

Definition M (A : Type) : Type := Sys -> Sys * Outcome A.

#[global] Instance M_ret : MRet M := fun A a s => (s, Returned a).

#[global] Instance M_bind : MBind M := fun A B f m s =>
  match m s with
  | (s', Returned a) => f a s'
  | (s', Thrown e) => (s', Thrown e)
  end.

Definition throw {A} (e : Error) : M A := fun s => (s, Thrown e).

(** [try { body } catch (error) { handler }] *)
Definition try_catch {A} (body : M A) (handler : Error -> M A) : M A :=
  fun s =>
    match body s with
    | (s', Returned a) => (s', Returned a)
    | (s', Thrown e) => handler e s'
    end.

(** [try { body } finally { fin }]: [fin] runs on both exits. *)
Definition finally {A} (body : M A) (fin : M unit) : M A :=
  fun s =>
    match body s with
    | (s', r) =>
        match fin s' with
        | (s'', Returned _) => (s'', r)
        | (s'', Thrown e) => (s'', Thrown e)
        end
    end.

Definition update_ui (f : State -> State) : M unit :=
  fun s => ({| ui := f (ui s); world := world s |}, Returned tt).

Definition update_world (f : World -> World) : M unit :=
  fun s => ({| ui := ui s; world := f (world s) |}, Returned tt).

(** An event handler is created by a render: it closes over the state of
    that render.  Dispatching runs the handler of the latest render. *)
Definition dispatch {A} (handler : State -> M A) : M A :=
  fun s => handler (ui s) s.

(** The state after a handler has run, and what it returned. *)
Definition after {A} (m : M A) (s : Sys) : Sys := fst (m s).
Definition result {A} (m : M A) (s : Sys) : Outcome A := snd (m s).

Definition toast (t : Toast) : M unit :=
  update_world (fun w =>
    {| remote := remote w; faults := faults w; calls := calls w;
       toasts := toasts w ++ [t] |}).

(** [toast.loading(msg)]: the notification is shown and its id returned;
    the id is the place of the notification among those shown. *)
Definition toast_loading (msg : string) : M nat :=
  fun s => ((toast (ToastLoading msg) s).1,
            Returned (length (toasts (world s)))).

(** [toast.success(msg, { id })], [toast.error(msg, { id })]: the
    notification with that id becomes [t]; with no such notification, [t]
    is shown as a new one. *)
Definition toast_update (id : nat) (t : Toast) : M unit :=
  update_world (fun w =>
    {| remote := remote w; faults := faults w; calls := calls w;
       toasts := if decide (id < length (toasts w))
                 then <[id := t]> (toasts w)
                 else toasts w ++ [t] |}).

(** The state setters. *)
Definition setExams (v : list Exam.t) : M unit := update_ui (put_exams v).
Definition setSelectedExam (v : option Exam.t) : M unit :=
  update_ui (put_selectedExam v).
Definition setExamContent (v : string) : M unit :=
  update_ui (put_examContent v).
Definition setCorrectionContent (v : string) : M unit :=
  update_ui (put_correctionContent v).
Definition setEditableContent (v : string) : M unit :=
  update_ui (put_editableContent v).
Definition setCorrection (v : option Correction.t) : M unit :=
  update_ui (put_correction v).
Definition setMode (v : Mode) : M unit := update_ui (put_mode v).
Definition setLoading (v : bool) : M unit := update_ui (put_loading v).
Definition setIsLoadingContent (v : bool) : M unit :=
  update_ui (put_isLoadingContent v).
Definition setIsCreatingNew (v : bool) : M unit :=
  update_ui (put_isCreatingNew v).
Definition setIsWaitingForCorrection (v : bool) : M unit :=
  update_ui (put_isWaitingForCorrection v).
Definition setIsSendingMessage (v : bool) : M unit :=
  update_ui (put_isSendingMessage v).
Definition setMessage (v : string) : M unit := update_ui (put_message v).
Definition setNewExamId (v : option string) : M unit :=
  update_ui (put_newExamId v).

(** [setExams((prev) => f prev)] and [setChatMessages((prev) => f prev)] *)
Definition setExams_from (f : list Exam.t -> list Exam.t) : M unit :=
  update_ui (fun u => put_exams (f (exams u)) u).
Definition setChatMessages (v : list ChatMessage) : M unit :=
  update_ui (put_chatMessages v).
Definition setChatMessages_from
    (f : list ChatMessage -> list ChatMessage) : M unit :=
  update_ui (fun u => put_chatMessages (f (chatMessages u)) u).

(** The two refs written by the handlers. *)
Definition set_examListCache (v : list Exam.t) : M unit :=
  update_ui (put_examListCache v).
Definition cache_content (id content : string) : M unit :=
  update_ui (fun u => put_examContentCache (<[id := content]> (examContentCache u)) u).
Definition uncache_content (id : string) : M unit :=
  update_ui (fun u => put_examContentCache (delete id (examContentCache u)) u).

(** ** Queries against the remote tables *)

Definition put_tables (ps : list Pupil.t) (rs : list Report.t)
    (es : list Exam.t) (cs : list Correction.t) (created : nat)
    (r : Remote) : Remote :=
  {| pupils_tbl := ps; reports_tbl := rs; exams_tbl := es;
     corrections_tbl := cs; auth_user := auth_user r;
     next_row := created + next_row r; clock := created + clock r |}.

(** [(await supabase.auth.getUser()).data.user?.id] *)
Definition owner (r : Remote) : option string := User.id <$> auth_user r.

(** [from(t).insert({ ...data, teacher_id }).select().single()]: the owner
    policy refuses a row without owner. *)
Definition insert_pupil (name : string) (r : Remote)
    : Remote * Response Pupil.t :=
  match owner r with
  | None => (r, failed RLS_DENIED)
  | Some t =>
      let row := Pupil.mk (row_id (next_row r)) name t (clock r) in
      (put_tables (pupils_tbl r ++ [row]) (reports_tbl r) (exams_tbl r)
         (corrections_tbl r) 1 r, resolved row)
  end.

Definition insert_report (pupil_id report_title : string)
    (sections : list (string * string)) (r : Remote)
    : Remote * Response Report.t :=
  match owner r with
  | None => (r, failed RLS_DENIED)
  | Some t =>
      let row := Report.mk (row_id (next_row r)) pupil_id t report_title
                   (clock r) sections in
      (put_tables (pupils_tbl r) (reports_tbl r ++ [row]) (exams_tbl r)
         (corrections_tbl r) 1 r, resolved row)
  end.

Definition insert_exam (title content : string) (r : Remote)
    : Remote * Response Exam.t :=
  match owner r with
  | None => (r, failed RLS_DENIED)
  | Some t =>
      let row := Exam.mk (row_id (next_row r)) title content t (clock r) in
      (put_tables (pupils_tbl r) (reports_tbl r) (exams_tbl r ++ [row])
         (corrections_tbl r) 1 r, resolved row)
  end.

Definition insert_correction (content exam_id : string) (r : Remote)
    : Remote * Response Correction.t :=
  match owner r with
  | None => (r, failed RLS_DENIED)
  | Some t =>
      let row := Correction.mk (row_id (next_row r)) exam_id content t in
      (put_tables (pupils_tbl r) (reports_tbl r) (exams_tbl r)
         (corrections_tbl r ++ [row]) 1 r, resolved row)
  end.

(** [from(t).select('*').order(key, { ascending: false })] *)
Definition select_pupils (r : Remote) : Remote * Response (list Pupil.t) :=
  (r, resolved (order_desc Pupil.created_at (pupils_tbl r))).

Definition select_reports_by_pupil (pupilId : string) (r : Remote)
    : Remote * Response (list Report.t) :=
  (r, resolved (order_desc Report.requested_at
                  (filter (fun x => Report.pupil_id x = pupilId)
                     (reports_tbl r)))).

Definition select_exams (r : Remote) : Remote * Response (list Exam.t) :=
  (r, resolved (order_desc Exam.updated_at (exams_tbl r))).

(** [from(t).select('*').eq(column, value).single()] *)
Definition select_exam_by_id (id : string) (r : Remote)
    : Remote * Response Exam.t :=
  (r, single (filter (fun e => Exam.id e = id) (exams_tbl r))).

Definition select_correction_by_exam (examId : string) (r : Remote)
    : Remote * Response Correction.t :=
  (r, single (filter (fun c => Correction.exam_id c = examId)
                (corrections_tbl r))).

(** [from(t).update({ content }).eq('id', id)]: every row with that id. *)
Definition exams_with_content (id content : string) (es : list Exam.t)
    : list Exam.t :=
  (fun e => if decide (Exam.id e = id) then Exam.with_content content e
            else e) <$> es.

Definition exams_with_title (id title : string) (es : list Exam.t)
    : list Exam.t :=
  (fun e => if decide (Exam.id e = id) then Exam.with_title title e
            else e) <$> es.

Definition corrections_with_content (id content : string)
    (cs : list Correction.t) : list Correction.t :=
  (fun c => if decide (Correction.id c = id)
            then Correction.with_content content c else c) <$> cs.

(** [... .update({ content }).eq('id', id).select().single()] *)
Definition update_exam_content (id content : string) (r : Remote)
    : Remote * Response Exam.t :=
  let es := exams_with_content id content (exams_tbl r) in
  (put_tables (pupils_tbl r) (reports_tbl r) es (corrections_tbl r) 0 r,
   single (filter (fun e => Exam.id e = id) es)).

Definition update_correction_content (id content : string) (r : Remote)
    : Remote * Response Correction.t :=
  let cs := corrections_with_content id content (corrections_tbl r) in
  (put_tables (pupils_tbl r) (reports_tbl r) (exams_tbl r) cs 0 r,
   single (filter (fun c => Correction.id c = id) cs)).

(** [from("exams").update({ title }).eq("id", id)], without [select]: the
    response carries no row. *)
Definition update_exam_title (id title : string) (r : Remote)
    : Remote * Response unit :=
  (put_tables (pupils_tbl r) (reports_tbl r)
     (exams_with_title id title (exams_tbl r)) (corrections_tbl r) 0 r,
   {| data := None; error := None |}).

(** One awaited store call: it is written to the trace and consumes one
    entry of [faults] (none left: the call goes through). *)
Definition store_call {A} (c : Call)
    (run : Remote -> Remote * Response A) : M (Response A) :=
  fun s =>
    let w := world s in
    let next (r : Remote) (fs : list Fault) : Sys :=
      {| ui := ui s;
         world := {| remote := r; faults := fs; calls := calls w ++ [c];
                     toasts := toasts w |} |} in
    match faults w with
    | [] => (next (run (remote w)).1 [], Returned (run (remote w)).2)
    | Healthy :: fs =>
        (next (run (remote w)).1 fs, Returned (run (remote w)).2)
    | ErrorResponse e :: fs => (next (remote w) fs, Returned (failed e))
    | RequestFailed :: fs =>
        (next (remote w) fs, Returned (failed FETCH_ERROR))
    end.

(** ** The domain access layer ([lib/database.ts]) *)

Module database.

Module pupils.
Definition create (name : string) : M (option Pupil.t) :=
  r ← store_call (PupilsInsert name) (insert_pupil name);
  match error r with
  | Some e => throw (StoreError e)
  | None => mret (data r)
  end.

Definition list : M (option (list Pupil.t)) :=
  r ← store_call PupilsSelectAll select_pupils;
  match error r with
  | Some e => throw (StoreError e)
  | None => mret (data r)
  end.
End pupils.

Module reports.
Definition create (pupil_id report_title : string)
    (sections : list (string * string)) : M (option Report.t) :=
  r ← store_call (ReportsInsert pupil_id report_title)
        (insert_report pupil_id report_title sections);
  match error r with
  | Some e => throw (StoreError e)
  | None => mret (data r)
  end.

Definition listByPupil (pupilId : string) : M (option (list Report.t)) :=
  r ← store_call (ReportsSelectByPupil pupilId)
        (select_reports_by_pupil pupilId);
  match error r with
  | Some e => throw (StoreError e)
  | None => mret (data r)
  end.
End reports.

Module exams.
Definition create (title content : string) : M (option Exam.t) :=
  r ← store_call (ExamsInsert title content) (insert_exam title content);
  match error r with
  | Some e => throw (StoreError e)
  | None => mret (data r)
  end.

Definition update (id content : string) : M (option Exam.t) :=
  r ← store_call (ExamsUpdateContent id content)
        (update_exam_content id content);
  match error r with
  | Some e => throw (StoreError e)
  | None => mret (data r)
  end.

Definition get (id : string) : M (option Exam.t) :=
  r ← store_call (ExamsSelectById id) (select_exam_by_id id);
  match error r with
  | Some e => throw (StoreError e)
  | None => mret (data r)
  end.

Definition list : M (option (list Exam.t)) :=
  r ← store_call ExamsSelectAll select_exams;
  match error r with
  | Some e => throw (StoreError e)
  | None => mret (data r)
  end.
End exams.

Module corrections.
Definition create (content exam_id : string) : M (option Correction.t) :=
  r ← store_call (CorrectionsInsert content exam_id)
        (insert_correction content exam_id);
  match error r with
  | Some e => throw (StoreError e)
  | None => mret (data r)
  end.

Definition getByExamId (examId : string) : M (option Correction.t) :=
  r ← store_call (CorrectionsSelectByExam examId)
        (select_correction_by_exam examId);
  match error r with
  | Some e =>
      if negb (String.eqb (code e) "PGRST116") then throw (StoreError e)
      else mret (data r)
  | None => mret (data r)
  end.

Definition update (id content : string) : M (option Correction.t) :=
  r ← store_call (CorrectionsUpdateContent id content)
        (update_correction_content id content);
  match error r with
  | Some e => throw (StoreError e)
  | None => mret (data r)
  end.
End corrections.

End database.

(** ** The exam-authoring screen ([pages/ExerciseForge.tsx]) *)

(** [payload.new] of a change notification: a partial row. *)
Record Payload := { new_id : string; new_teacher_id : option string }.

(** What the webhook answers: [{ output, examId?, correctionId? }]. *)
Record WebhookData := {
  output : string;
  examId : option string;
  correctionId : option string
}.

(** What [fetch] does with one request: it rejects, or resolves to a
    response with its [ok] flag and its body ([None]: not JSON). *)
Inductive FetchOutcome :=
| FetchRejected
| FetchResolved (ok : bool) (body : option WebhookData).

(** [String.prototype.trim].  A text is held as the string of the bytes of
    its UTF-8 form.  The characters stripped are the WhiteSpace and
    LineTerminator code points of ECMAScript, here by their bytes: TAB, LF,
    VT, FF, CR and SP (one byte); U+00A0 (two bytes); U+1680, U+2000 to
    U+200A, U+2028, U+2029, U+202F, U+205F, U+3000 and U+FEFF (three). *)
Definition space1 (a : nat) : bool :=
  bool_decide (a ∈ [9; 10; 11; 12; 13; 32]).

Definition space2 (a b : nat) : bool :=
  bool_decide (a = 194 ∧ b = 160).

Definition space3 (a b c : nat) : bool :=
  bool_decide ((a, b, c) ∈ [(225, 154, 128); (226, 128, 168);
                            (226, 128, 169); (226, 128, 175);
                            (226, 129, 159); (227, 128, 128);
                            (239, 187, 191)])
  || bool_decide (a = 226 ∧ b = 128 ∧ 128 <= c <= 138).

(** The text without the white space it starts with.  With [back] the
    bytes come last to first, as in the reversed text. *)
Fixpoint strip (back : bool) (s : string) : string :=
  match s with
  | EmptyString => EmptyString
  | String a s1 =>
      if space1 (nat_of_ascii a) then strip back s1
      else
        match s1 with
        | EmptyString => s
        | String b s2 =>
            if (if back then space2 (nat_of_ascii b) (nat_of_ascii a)
                else space2 (nat_of_ascii a) (nat_of_ascii b))
            then strip back s2
            else
              match s2 with
              | EmptyString => s
              | String c s3 =>
                  if (if back
                      then space3 (nat_of_ascii c) (nat_of_ascii b)
                             (nat_of_ascii a)
                      else space3 (nat_of_ascii a) (nat_of_ascii b)
                             (nat_of_ascii c))
                  then strip back s3
                  else s
              end
        end
  end.

Definition trim (s : string) : string :=
  String.rev (strip true (String.rev (strip false s))).

(** U+00A0, the no-break space. *)
Definition no_break_space : string := String "194" (String "160" "").

(** The placeholder shown while the webhook is working. *)
Definition typing_placeholder : ChatMessage :=
  {| msg_content := "..."; isUser := false; msg_id := Some "typing" |}.

(** [prev.filter((msg) => msg.id !== "typing")] *)
Definition without_typing (prev : list ChatMessage) : list ChatMessage :=
  filter (fun msg => msg_id msg ≠ Some "typing") prev.

(** [await database.exams.delete(examId)].  The object [database.exams] of
    the domain access layer has the members [create], [list], [update] and
    [get] and no other: the property read gives [undefined] and the call
    throws before anything is sent. *)
Definition database_exams_delete (examId : string) : M unit :=
  throw (TypeError "database.exams.delete is not a function").

(** The listener of the "exams" channel. *)
Definition onExamInserted (snap : State) (payload : Payload) : M unit :=
  if bool_decide (new_teacher_id payload = User.id <$> user snap) then
    r ← store_call (ExamsSelectById (new_id payload))
          (select_exam_by_id (new_id payload));
    match data r with
    | Some newExam =>
        cache_content (Exam.id newExam) (Exam.content newExam);;
        setExams_from (fun prev => newExam :: prev);;
        setNewExamId (Some (Exam.id newExam))
    | None => mret tt
    end
  else mret tt.

Definition loadExams (isConnected : bool) : M unit :=
  finally
    (try_catch
       (setLoading true;;
        if negb isConnected then
          toast (ToastError "Unable to connect to the database. Please check your connection and try again.")
        else
          r ← store_call ExamsSelectAll select_exams;
          match error r with
          | Some e => throw (StoreError e)
          | None =>
              match data r with
              | Some d => setExams d;; set_examListCache d
              | None => mret tt
              end
          end)
       (fun _ =>
          toast (ToastError "Failed to load exams. Please check your connection and try again.")))
    (setLoading false).

(** [updatedExam] is the awaited row, possibly [null]: the callback of
    [map] reads [updatedExam.id] once per listed exam. *)
Definition updateExamInList (snap : State) (updatedExam : option Exam.t)
    : M unit :=
  match updatedExam, exams snap with
  | None, _ :: _ => throw (TypeError "updatedExam is null")
  | None, [] => setExams [];; set_examListCache []
  | Some updated, _ =>
      let updatedExams :=
        (fun exam => if decide (Exam.id exam = Exam.id updated)
                     then updated else exam) <$> exams snap in
      setExams updatedExams;; set_examListCache updatedExams
  end.

Definition addExamToList (snap : State) (newExam : Exam.t) : M unit :=
  let updatedExams := newExam :: exams snap in
  setExams updatedExams;; set_examListCache updatedExams.

Definition loadCorrection (snap : State) (currentMode : Mode) : M unit :=
  match selectedExam snap with
  | None => mret tt
  | Some sel =>
      finally
        (try_catch
           (setIsLoadingContent true;;
            corr ← database.corrections.getByExamId (Exam.id sel);
            setCorrection corr;;
            match corr with
            | Some c =>
                setCorrectionContent (Correction.content c);;
                if decide (currentMode = correction_mode)
                then setEditableContent (Correction.content c)
                else mret tt
            | None =>
                setCorrectionContent "";;
                if decide (currentMode = correction_mode)
                then setEditableContent ""
                else mret tt
            end)
           (fun _ => toast (ToastError "Failed to load correction")))
        (setIsLoadingContent false)
  end.

(** The listener of the "corrections" channel. *)
Definition onCorrectionInserted (snap : State) (payload : Payload)
    : M unit :=
  if bool_decide (new_teacher_id payload = User.id <$> user snap) then
    toast (ToastSuccess "Correction is ready!");;
    setIsWaitingForCorrection false;;
    loadCorrection snap correction_mode;;
    setMode correction_mode
  else mret tt.

Definition handleExamSelect (snap : State) (examId : option string)
    : M unit :=
  finally
    (try_catch
       (match examId with
        | Some id =>
            if String.eqb id "" then
              setSelectedExam None;; setExamContent "";;
              setCorrectionContent "";; setCorrection None;;
              setEditableContent "";; setChatMessages [];;
              setIsCreatingNew true;; setMode edit
            else
              (if decide (newExamId snap = Some id) then setNewExamId None
               else mret tt);;
              setIsLoadingContent true;;
              fetchedExam ← database.exams.get id;
              match fetchedExam with
              | None =>
                  toast (ToastError "Failed to load exam. Please try again.")
              | Some fetched =>
                  setSelectedExam (Some fetched);;
                  setExamContent (Exam.content fetched);;
                  setEditableContent (Exam.content fetched);;
                  setCorrectionContent "";;
                  setCorrection None;;
                  setChatMessages [];;
                  setMode edit;;
                  setIsCreatingNew false;;
                  cache_content id (Exam.content fetched)
              end
        | None =>
            setSelectedExam None;; setExamContent "";;
            setCorrectionContent "";; setCorrection None;;
            setEditableContent "";; setChatMessages [];;
            setIsCreatingNew true;; setMode edit
        end)
       (fun _ => toast (ToastError "Failed to load exam. Please try again.")))
    (setIsLoadingContent false).

Definition handleToggleMode (snap : State) (newMode : Mode) : M unit :=
  (if decide (mode snap = correction_mode ∧ newMode = edit) then
     setCorrectionContent (editableContent snap);;
     setEditableContent (examContent snap)
   else if decide (mode snap = edit ∧ newMode = correction_mode) then
     setExamContent (editableContent snap);;
     (* Only load correction if we haven't loaded it yet *)
     match correction snap, selectedExam snap with
     | None, Some _ => loadCorrection snap newMode
     | _, _ => setEditableContent (correctionContent snap)
     end
   else mret tt);;
  setMode newMode.

Definition handleSave (snap : State) : M unit :=
  match selectedExam snap with
  | None => mret tt
  | Some sel =>
      try_catch
        (match mode snap with
         | edit =>
             updatedExam ← database.exams.update (Exam.id sel)
                             (editableContent snap);
             setExamContent (editableContent snap);;
             cache_content (Exam.id sel) (editableContent snap);;
             updateExamInList snap updatedExam;;
             toast (ToastSuccess "Exam saved successfully")
         | correction_mode =>
             match correction snap with
             | Some corr =>
                 database.corrections.update (Correction.id corr)
                   (editableContent snap);;
                 setCorrectionContent (editableContent snap);;
                 toast (ToastSuccess "Correction saved successfully")
             | None =>
                 newCorr ← database.corrections.create
                             (editableContent snap) (Exam.id sel);
                 setCorrection newCorr;;
                 match newCorr with
                 | Some nc => setCorrectionContent (Correction.content nc)
                 | None => throw (TypeError "newCorr is null")
                 end;;
                 toast (ToastSuccess "Correction saved successfully")
             end
         end)
        (fun _ =>
           toast (ToastError
                    ("Failed to save "
                     +:+ match mode snap with
                         | edit => "exam"
                         | correction_mode => "correction"
                         end
                     +:+ ". Please try again.")))
  end.

(** [fetch(webhook, { method: "POST", body })] *)
Definition fetch_webhook (body : Call) (reply : FetchOutcome)
    : M (bool * option WebhookData) :=
  update_world (fun w =>
    {| remote := remote w; faults := faults w; calls := calls w ++ [body];
       toasts := toasts w |});;
  match reply with
  | FetchRejected => throw NetworkError
  | FetchResolved ok body => mret (ok, body)
  end.

Definition handleSendMessage (snap : State) (reply : FetchOutcome)
    : M unit :=
  match user snap with
  | Some usr =>
      if String.eqb (trim (message snap)) ""
         || (negb (bool_decide (is_Some (selectedExam snap)))
             && negb (isCreatingNew snap))
      then mret tt
      else
        let newMessage :=
          {| msg_content := message snap; isUser := true;
             msg_id := None |} in
        setChatMessages_from (fun prev => prev ++ [newMessage]);;
        setMessage "";;
        setIsSendingMessage true;;
        setChatMessages_from (fun prev => prev ++ [typing_placeholder]);;
        finally
          (try_catch
             (response ← fetch_webhook
                 (WebhookPost
                    (sel ← selectedExam snap;
                     if String.eqb (Exam.id sel) "" then None
                     else Some (Exam.id sel))
                    (User.id usr)
                    (trim (message snap))
                    (if isCreatingNew snap then "create"
                     else mode_name (mode snap))
                    (corr ← correction snap;
                     if String.eqb (Correction.id corr) "" then None
                     else Some (Correction.id corr)))
                 reply;
              (if negb response.1 then
                 throw (JsError "Failed to get AI response")
               else mret tt);;
              match response.2 with
              | None => throw (JsError "response body is not JSON")
              | Some data =>
                  setChatMessages_from without_typing;;
                  setChatMessages_from (fun prev =>
                    prev ++ [{| msg_content := output data;
                                isUser := false; msg_id := None |}]);;
                  (match examId data with
                   | Some newId =>
                       if isCreatingNew snap && truthy (examId data) then
                         exam ← database.exams.get newId;
                         setSelectedExam exam;;
                         match exam with
                         | None => throw (TypeError "exam is null")
                         | Some ex =>
                             setExamContent (Exam.content ex);;
                             setEditableContent (Exam.content ex);;
                             cache_content (Exam.id ex) (Exam.content ex);;
                             addExamToList snap ex;;
                             setIsCreatingNew false;;
                             toast (ToastSuccess "New exam created!")
                         end
                       else mret tt
                   | None => mret tt
                   end);;
                  if bool_decide (mode snap = correction_mode)
                     && truthy (correctionId data)
                  then loadCorrection snap (mode snap)
                  else mret tt
              end)
             (fun _ =>
                toast (ToastError
                         "Failed to get AI response. Please try again.");;
                setChatMessages_from without_typing))
          (setIsSendingMessage false)
  | None => mret tt
  end.

(** The body of [handleExamDelete] around the awaited delete call;
    [confirmed] is the answer to [window.confirm]. *)
Definition handleExamDelete_with (delete_exam : string -> M unit)
    (snap : State) (confirmed : bool) (examId : string) : M unit :=
  if negb confirmed then mret tt
  else
    try_catch
      (delete_exam examId;;
       uncache_content examId;;
       let updatedExams :=
         filter (fun exam => Exam.id exam ≠ examId) (exams snap) in
       setExams updatedExams;;
       set_examListCache updatedExams;;
       (if decide (Exam.id <$> selectedExam snap = Some examId) then
          setSelectedExam None;;
          setExamContent "";;
          setCorrectionContent "";;
          setCorrection None;;
          setEditableContent "";;
          setChatMessages [];;
          setMode edit
        else mret tt);;
       toast (ToastSuccess "Exam deleted successfully"))
      (fun _ => toast (ToastError "Failed to delete exam. Please try again.")).

Definition handleExamDelete : State -> bool -> string -> M unit :=
  handleExamDelete_with database_exams_delete.

Definition handleTitleChange (snap : State) (newTitle : string) : M unit :=
  match selectedExam snap with
  | None => mret tt
  | Some sel =>
      try_catch
        (store_call (ExamsUpdateTitle (Exam.id sel) newTitle)
           (update_exam_title (Exam.id sel) newTitle);;
         let updatedExam := Exam.with_title newTitle sel in
         updateExamInList snap (Some updatedExam);;
         setSelectedExam (Some updatedExam);;
         toast (ToastSuccess "Title updated successfully"))
        (fun _ => toast (ToastError "Failed to update title"))
  end.

(** ** Change-stream subscriptions and the effects that own them *)

(** A channel opened on the store client, as created by
    [supabase.channel(topic).on("postgres_changes",
      { event: "INSERT", schema: "public", table, filter }, listener)
     .subscribe()]. *)
Record Channel := {
  handle : nat;
  topic : string;
  table : string;
  row_filter : string
}.

(** The channels the store client holds open. *)
Record Client := { channels : list Channel; next_handle : nat }.

Definition subscribe (topic table row_filter : string) (c : Client)
    : Client * Channel :=
  let ch := {| handle := next_handle c; topic := topic; table := table;
               row_filter := row_filter |} in
  ({| channels := channels c ++ [ch]; next_handle := S (next_handle c) |},
   ch).

(** [supabase.removeChannel(channel)] *)
Definition removeChannel (ch : Channel) (c : Client) : Client :=
  {| channels := filter (fun x => handle x ≠ handle ch) (channels c);
     next_handle := next_handle c |}.

(** What a render hands to the effects: the signed-in user, the identity of
    the selected exam object (ExerciseForge) and the selected pupil
    (Dashboard). *)
Record Render := {
  r_user : option User.t;
  r_selectedExam : option nat;
  r_selectedPupilId : string
}.

(** A dependency of an effect; two renders agree on it when the values are
    the same string or the same object. *)
Inductive Dep :=
| DepString (v : option string)
| DepObject (v : option nat).

#[global] Instance dep_eq_dec : EqDecision Dep.
Proof. solve_decision. Defined.

(** A subscription effect: its channel and its dependency array. *)
Record EffectDef := {
  eff_topic : string;
  eff_table : string;
  eff_deps : Render -> list Dep
}.

(** [`teacher_id=eq.${user.id}`] *)
Definition owner_filter (uid : string) : string := "teacher_id=eq." +:+ uid.

(** The body the three effects share: nothing without a user id, else one
    subscription, whose channel the returned cleanup removes. *)
Definition setup (e : EffectDef) (rd : Render) (c : Client)
    : Client * option Channel :=
  match r_user rd with
  | Some u =>
      if String.eqb (User.id u) "" then (c, None)
      else
        let sub := subscribe (eff_topic e) (eff_table e)
                     (owner_filter (User.id u)) c in
        (sub.1, Some sub.2)
  | None => (c, None)
  end.

(** ExerciseForge, [useEffect(..., [user?.id, selectedExam])] *)
Definition corrections_effect : EffectDef :=
  {| eff_topic := "corrections"; eff_table := "corrections";
     eff_deps := fun rd => [DepString (User.id <$> r_user rd);
                            DepObject (r_selectedExam rd)] |}.

(** ExerciseForge, [useEffect(..., [user?.id])] *)
Definition exams_effect : EffectDef :=
  {| eff_topic := "exams"; eff_table := "exams";
     eff_deps := fun rd => [DepString (User.id <$> r_user rd)] |}.

(** Dashboard, [useEffect(..., [user?.id, selectedPupilId])] *)
Definition reports_effect : EffectDef :=
  {| eff_topic := "reports"; eff_table := "reports";
     eff_deps := fun rd => [DepString (User.id <$> r_user rd);
                            DepString (Some (r_selectedPupilId rd))] |}.

Definition ExerciseForge_effects : list EffectDef :=
  [corrections_effect; exams_effect].

Definition Dashboard_effects : list EffectDef := [reports_effect].

(** What the runtime keeps per effect between renders: the dependencies of
    its last run ([None] before the first run) and the cleanup that run
    returned (the channel it removes). *)
Record Slot := {
  slot_effect : EffectDef;
  slot_deps : option (list Dep);
  slot_cleanup : option Channel
}.

Definition blank (e : EffectDef) : Slot :=
  {| slot_effect := e; slot_deps := None; slot_cleanup := None |}.

(** An effect runs on the first commit and whenever a dependency differs
    from the one of its last run. *)
Definition changed (rd : Render) (sl : Slot) : bool :=
  match slot_deps sl with
  | Some deps => negb (bool_decide (eff_deps (slot_effect sl) rd = deps))
  | None => true
  end.

Definition run_cleanup (sl : Slot) (c : Client) : Client :=
  match slot_cleanup sl with
  | Some ch => removeChannel ch c
  | None => c
  end.

Definition run_setup (e : EffectDef) (rd : Render) (c : Client)
    : Client * Slot :=
  ((setup e rd c).1,
   {| slot_effect := e; slot_deps := Some (eff_deps e rd);
      slot_cleanup := (setup e rd c).2 |}).

(** A commit: the cleanups of the effects that are to run again come first,
    in order, then those effects run, in order. *)
Definition cleanup_changed (rd : Render) (sls : list Slot) (c : Client)
    : Client :=
  foldl (fun c sl => if changed rd sl then run_cleanup sl c else c) c sls.

Fixpoint setup_changed (rd : Render) (sls : list Slot) (c : Client)
    : Client * list Slot :=
  match sls with
  | [] => (c, [])
  | sl :: sls' =>
      let r := if changed rd sl then run_setup (slot_effect sl) rd c
               else (c, sl) in
      let rest := setup_changed rd sls' r.1 in
      (rest.1, r.2 :: rest.2)
  end.

Definition commit (rd : Render) (sls : list Slot) (c : Client)
    : Client * list Slot :=
  setup_changed rd sls (cleanup_changed rd sls c).

(** Unmount: every cleanup runs. *)
Definition cleanup_all (sls : list Slot) (c : Client) : Client :=
  foldl (fun c sl => run_cleanup sl c) c sls.

(** A screen with its store client; [slots] is [None] while the screen is
    not mounted. *)
Record Screen := { client : Client; slots : option (list Slot) }.

Inductive Event :=
| Mount (rd : Render)
| Rerender (rd : Render)
| Unmount.

Definition step (effs : list EffectDef) (st : Screen) (ev : Event)
    : Screen :=
  match ev, slots st with
  | Mount rd, None =>
      let r := commit rd (blank <$> effs) (client st) in
      {| client := r.1; slots := Some r.2 |}
  | Rerender rd, Some sls =>
      let r := commit rd sls (client st) in
      {| client := r.1; slots := Some r.2 |}
  | Unmount, Some sls =>
      {| client := cleanup_all sls (client st); slots := None |}
  | _, _ => st
  end.

Definition unmounted : Screen :=
  {| client := {| channels := []; next_handle := 0 |}; slots := None |}.

(** The screen after a history of events. *)
Definition run (effs : list EffectDef) (evs : list Event) : Screen :=
  foldl (step effs) unmounted evs.

(** The subscriptions open on [table] for the rows of [uid]. *)
Definition active (tbl uid : string) (c : Client) : list Channel :=
  filter (fun ch => table ch = tbl ∧ row_filter ch = owner_filter uid)
    (channels c).

(** ** Vocabulary of the properties *)

(** The next [n] store calls go through. *)
Fixpoint all_go_through (n : nat) (fs : list Fault) : bool :=
  match n, fs with
  | 0, _ => true
  | S _, [] => true
  | S n', Healthy :: fs' => all_go_through n' fs'
  | S _, _ :: _ => false
  end.

(** The error object the caller gets for a store call that meets [f]. *)
Definition error_of (f : Fault) : option PgError :=
  match f with
  | Healthy => None
  | ErrorResponse e => Some e
  | RequestFailed => Some FETCH_ERROR
  end.

(** [op] asks the store once, throws [e] and leaves the tables as they
    are. *)
Definition refused_with {A} (e : Error) (op : M A) (s : Sys) : Prop :=
  result op s = Thrown e
  /\ remote (world (after op s)) = remote (world s)
  /\ exists c, calls (world (after op s)) = calls (world s) ++ [c].

(** How many entries of an exam list carry the row id [i]. *)
Definition occurrences (i : string) (l : list Exam.t) : nat :=
  length (filter (fun e => Exam.id e = i) l).

(** Delivery of one insertion notification to the "exams" listener.  The
    listener closes over [user] only, a dependency of the effect that
    subscribes it, so the user it reads is the one of the latest render. *)
Definition deliver (payload : Payload) : M unit :=
  dispatch (fun snap => onExamInserted snap payload).

(** The user picks a mode in the editor. *)
Definition toggle (newMode : Mode) : M unit :=
  dispatch (fun snap => handleToggleMode snap newMode).

(** The user types in the editor: each text replaces the buffer. *)
Definition type_texts (texts : list string) : M unit :=
  foldr (fun text rest => setEditableContent text;; rest) (mret tt) texts.

(** The user types in the chat box. *)
Definition type_message (text : string) : M unit := setMessage text.

(** The user submits the chat form; [reply] is what the webhook does. *)
Definition send (reply : FetchOutcome) : M unit :=
  dispatch (fun snap => handleSendMessage snap reply).

(** One more notification shown. *)
Definition notified (t : Toast) (w : World) : World :=
  {| remote := remote w; faults := faults w; calls := calls w;
     toasts := toasts w ++ [t] |}.

(** The webhook did not deliver an answer: the request was rejected, the
    status was not a success, or the body could not be read. *)
Definition webhook_failed (reply : FetchOutcome) : bool :=
  match reply with
  | FetchRejected => true
  | FetchResolved ok body => negb ok || negb (bool_decide (is_Some body))
  end.

(** [handleSendMessage] gets past its first line. *)
Definition can_send (u : State) : bool :=
  bool_decide (is_Some (user u))
  && negb (String.eqb (trim (message u)) "")
  && (bool_decide (is_Some (selectedExam u)) || isCreatingNew u).

(** ** A running example *)

Definition teacher : User.t := User.mk "t1".

Definition algebra : Exam.t := Exam.mk "e1" "Algebra" "x + 1 = 2" "t1" 7.

Definition algebra_key : Correction.t :=
  Correction.mk "c1" "e1" "x = 1" "t1".

(** A store holding the exam [algebra] and no correction. *)
Definition store_without_correction : World :=
  {| remote := {| pupils_tbl := []; reports_tbl := [];
                  exams_tbl := [algebra]; corrections_tbl := [];
                  auth_user := Some teacher; next_row := 0; clock := 10 |};
     faults := []; calls := []; toasts := [] |}.

(** The screen as mounted for [teacher], nothing loaded or selected. *)
Definition fresh_screen : Sys :=
  {| ui := initial_state (Some teacher); world := store_without_correction |}.

(** The notification of the insertion of [algebra]. *)
Definition algebra_inserted : Payload :=
  {| new_id := "e1"; new_teacher_id := Some "t1" |}.

(** The screen after the user has picked [algebra] in the list. *)
Definition algebra_selected : Sys :=
  after (dispatch (fun snap => handleExamSelect snap (Some "e1")))
    fresh_screen.

(** The same store, also holding the correction of [algebra]. *)
Definition store_with_correction : World :=
  {| remote := {| pupils_tbl := []; reports_tbl := [];
                  exams_tbl := [algebra]; corrections_tbl := [algebra_key];
                  auth_user := Some teacher; next_row := 0; clock := 10 |};
     faults := []; calls := []; toasts := [] |}.

(** [algebra] open in correction mode with its correction loaded, an
    unsaved buffer and a chat in progress: the user has picked the exam,
    switched to correction mode, edited the correction and sent a chat
    message that the webhook refused. *)
Definition algebra_in_progress : Sys :=
  after (send (FetchResolved false None))
    (after (type_message "make it harder")
       (after (type_texts ["x = 1, checked"])
          (after (toggle correction_mode)
             (after (dispatch (fun snap => handleExamSelect snap (Some "e1")))
                {| ui := initial_state (Some teacher);
                   world := store_with_correction |})))).

(** A session on an exam without correction: [algebra] is selected in the
    store that holds no correction; the user switches to correction mode,
    types a draft, switches back to edit mode and to correction mode
    again. *)
Definition draft_typed : Sys :=
  after (type_texts ["x = 1"])
    (after (toggle correction_mode) algebra_selected).

Definition draft_session : Sys :=
  after (toggle correction_mode) (after (toggle edit) draft_typed).

(** The state [handleExamDelete] aims at when the deleted exam is the
    selected one. *)
Definition selection_cleared (u : State) : Prop :=
  selectedExam u = None /\ examContent u = "" /\ correctionContent u = ""
  /\ correction u = None /\ editableContent u = "" /\ chatMessages u = []
  /\ mode u = edit.

(** The user asks for the deletion of an exam and answers the prompt. *)
Definition delete_exam_event (confirmed : bool) (examId : string) : M unit :=
  dispatch (fun snap => handleExamDelete snap confirmed examId).

(** The user confirms a new title for the selected exam. *)
Definition title_change (newTitle : string) : M unit :=
  dispatch (fun snap => handleTitleChange snap newTitle).

(** No entry of the chat is the "typing" placeholder. *)
Definition no_placeholder (chat : list ChatMessage) : Prop :=
  Forall (fun msg => msg_id msg ≠ Some "typing") chat.

(** The channels the cleanup phase of a commit removes, by handle. *)
Definition removed (rd : Render) (sls : list Slot) : list nat :=
  handle <$> omap (fun sl => if changed rd sl then slot_cleanup sl else None)
               sls.

(** [ch] is the channel held by the cleanup of one of the slots, opened on
    the table of that slot's effect. *)
Definition owned_by (sls : list Slot) (ch : Channel) : Prop :=
  exists sl, sl ∈ sls /\ slot_cleanup sl = Some ch
             /\ table ch = eff_table (slot_effect sl).

(** What holds of a client and the slots of its screen between events:
    open channels have distinct handles below the next one, so have the
    channels the cleanups hold, and every open channel belongs to a slot. *)
Definition tidy (c : Client) (sls : list Slot) : Prop :=
  NoDup (handle <$> channels c)
  /\ Forall (fun ch => handle ch < next_handle c) (channels c)
  /\ Forall (fun sl => forall ch, slot_cleanup sl = Some ch ->
                                  handle ch < next_handle c) sls
  /\ Forall (owned_by sls) (channels c).

(** The channel the cleanup of a slot holds is open, and it is open on the
    table of the effect of the slot. *)
Definition live (c : Client) (sls : list Slot) : Prop :=
  Forall (fun sl => forall ch, slot_cleanup sl = Some ch ->
                      ch ∈ channels c
                      /\ table ch = eff_table (slot_effect sl)) sls.

Definition consistent (effs : list EffectDef) (st : Screen) : Prop :=
  match slots st with
  | Some sls =>
      slot_effect <$> sls = effs /\ tidy (client st) sls
      /\ live (client st) sls
  | None => channels (client st) = []
  end.

(** A history on each of the two screens. *)
Definition signed_in (pupil : string) (selected : option nat) : Render :=
  {| r_user := Some teacher; r_selectedExam := selected;
     r_selectedPupilId := pupil |}.

Definition a_visit : list Event :=
  [Mount (signed_in "" None); Rerender (signed_in "p1" (Some 1));
   Rerender (signed_in "p2" (Some 2)); Rerender (signed_in "p2" (Some 2))].

(** ** More of the exam-authoring screen *)

Definition handleCreateCorrection (snap : State) (reply : FetchOutcome)
    : M unit :=
  match selectedExam snap, user snap with
  | Some sel, Some usr =>
      setIsSendingMessage true;;
      setIsWaitingForCorrection true;;
      finally
        (try_catch
           (toast (ToastSuccess
                     "Correction request submitted! Processing will begin shortly.");;
            response ← fetch_webhook
                (WebhookPost (Some (Exam.id sel)) (User.id usr)
                   "Please create a detailed correction of the exam that is helpful, with step by step explanations of the solution steps."
                   "create_correction" None)
                reply;
            if negb response.1
            then throw (JsError "Failed to create correction")
            else mret tt)
           (fun _ =>
              toast (ToastError "Failed to create correction");;
              setIsWaitingForCorrection false))
        (setIsSendingMessage false)
  | _, _ => mret tt
  end.

(** The user picks an exam in the list, or "Create New Exam" ([None]). *)
Definition select_exam (examId : option string) : M unit :=
  dispatch (fun snap => handleExamSelect snap examId).

(** The user presses the save button. *)
Definition save : M unit := dispatch handleSave.

(** The user asks for a correction; [reply] is what the webhook does. *)
Definition request_correction (reply : FetchOutcome) : M unit :=
  dispatch (fun snap => handleCreateCorrection snap reply).

(** Delivery of one insertion notification to the "corrections" listener.
    Its effect depends on [user?.id] and [selectedExam], the two values the
    listener and the [loadCorrection] it calls read. *)
Definition correction_ready (payload : Payload) : M unit :=
  dispatch (fun snap => onCorrectionInserted snap payload).

(** What [handleExamSelect(null)] leaves on the screen. *)
Definition creating_new (u : State) : Prop :=
  selectedExam u = None /\ examContent u = "" /\ correctionContent u = ""
  /\ correction u = None /\ editableContent u = "" /\ chatMessages u = []
  /\ isCreatingNew u = true /\ mode u = edit.

(** [error instanceof Error ? error.message : ...]: the message of a thrown
    value that is an [Error] object.  The error objects of the store are
    plain objects.  The message of a rejected [fetch] is the browser's. *)
Definition error_message (e : Error) : option string :=
  match e with
  | StoreError _ => None
  | TypeError msg => Some msg
  | JsError msg => Some msg
  | NetworkError => Some "Failed to fetch"
  end.

(** [handleFilesUploaded].  In its loop each file is converted, stored as
    an exam, cached, and put in front of the list of the render the handler
    was created in. *)
Section Upload.

Variable File : Type.

(** [convertWordToMarkdown] of [lib/wordToMarkdown] (the file is not part
    of the sources): the title and the content of the document, or the
    error it throws. *)
Variable convertWordToMarkdown : File -> Error + string * string.

Fixpoint process_files (snap : State) (files : list File) : M unit :=
  match files with
  | [] => mret tt
  | file :: rest =>
      match convertWordToMarkdown file with
      | inl e => throw e
      | inr (title, content) =>
          exam ← database.exams.create title content;
          match exam with
          | None =>
              throw (TypeError "Cannot read properties of null (reading 'id')")
          | Some ex =>
              cache_content (Exam.id ex) content;;
              addExamToList snap ex;;
              process_files snap rest
          end
      end
  end.

Definition handleFilesUploaded (snap : State) (files : list File) : M unit :=
  if negb (truthy (User.id <$> user snap)) then
    toast (ToastError "Please sign in to upload files")
  else
    toastId ← toast_loading "Processing files...";
    try_catch
      (process_files snap files;;
       toast_update toastId (ToastSuccess "Files processed successfully"))
      (fun error =>
         toast_update toastId
           (ToastError
              (default "Failed to process files. Please try again."
                 (error_message error)))).

End Upload.

(** The rows the store creates for a sequence of titles and contents, from
    its [n]-th row and the instant [now] on. *)
Fixpoint rows_from (n now : nat) (teacher_id : string)
    (docs : list (string * string)) : list Exam.t :=
  match docs with
  | [] => []
  | (title, content) :: rest =>
      Exam.mk (row_id n) title content teacher_id now
      :: rows_from (S n) (S now) teacher_id rest
  end.

(** The drag of the chat handle ([startResize], [handleMouseMove]): the
    height follows the pointer between 200 and 800. *)
Definition handleMouseMove (startResizeY startHeight clientY : Z) : Z :=
  let delta := (startResizeY - clientY)%Z in
  Z.max 200 (Z.min 800 (startHeight + delta)).

(** ** The exam list ([components/ExerciseForge/ExamList.tsx]) *)

(** [ExamTooltip] measures and cuts the content it is given.  The length
    and the indices of a JavaScript string count UTF-16 code units, so
    that here a text is the list of its code units. *)
Definition CodeUnits := list N.

(** The WhiteSpace and LineTerminator code points of ECMAScript (all of
    them one code unit): what [String.prototype.trim] strips. *)
Definition is_white_space (u : N) : bool :=
  bool_decide (u ∈ [9; 10; 11; 12; 13; 32; 160; 5760; 8232; 8233; 8239;
                    8287; 12288; 65279]%N)
  || (8192 <=? u)%N && (u <=? 8202)%N.

Fixpoint trim_front (l : CodeUnits) : CodeUnits :=
  match l with
  | u :: l' => if is_white_space u then trim_front l' else l
  | [] => []
  end.

Definition trim_units (l : CodeUnits) : CodeUnits :=
  reverse (trim_front (reverse (trim_front l))).

Definition three_dots : CodeUnits := [46; 46; 46]%N.

(** The text of the tooltip of an exam:
    [content.length > 150 ? content.slice(0, 150).trim() + "..." : content] *)
Definition contentPreview (content : CodeUnits) : CodeUnits :=
  if 150 <? length content
  then trim_units (take 150 content) ++ three_dots
  else content.

(** The code units of a text held as UTF-8 bytes: one unit for a sequence
    of one, two or three bytes, the two surrogates for a sequence of four.
    A byte that starts no sequence reads as U+FFFD. *)
Fixpoint utf16_of_utf8 (bytes : list N) : CodeUnits :=
  match bytes with
  | [] => []
  | a :: rest =>
      if (a <? 128)%N then a :: utf16_of_utf8 rest
      else if (a <? 192)%N then 65533%N :: utf16_of_utf8 rest
      else
        match rest with
        | [] => [65533%N]
        | b :: rest2 =>
            if (a <? 224)%N
            then ((a - 192) * 64 + (b - 128))%N :: utf16_of_utf8 rest2
            else
              match rest2 with
              | [] => [65533%N]
              | c :: rest3 =>
                  if (a <? 240)%N
                  then ((a - 224) * 4096 + (b - 128) * 64 + (c - 128))%N
                       :: utf16_of_utf8 rest3
                  else
                    match rest3 with
                    | [] => [65533%N]
                    | d :: rest4 =>
                        let cp := ((a - 240) * 262144 + (b - 128) * 4096
                                   + (c - 128) * 64 + (d - 128)
                                   - 65536)%N in
                        (55296 + cp / 1024)%N :: (56320 + cp mod 1024)%N
                        :: utf16_of_utf8 rest4
                    end
              end
        end
  end.

Definition code_units (s : string) : CodeUnits :=
  utf16_of_utf8 (N_of_ascii <$> String.list_ascii_of_string s).

(** The UTF-8 forms of the white-space characters, in the order of their
    code points. *)
Definition white_space_texts : list string :=
  (fun bytes => String.string_of_list_ascii (ascii_of_nat <$> bytes))
  <$> [[9]; [10]; [11]; [12]; [13]; [32]; [194; 160]; [225; 154; 128];
       [226; 128; 128]; [226; 128; 129]; [226; 128; 130]; [226; 128; 131];
       [226; 128; 132]; [226; 128; 133]; [226; 128; 134]; [226; 128; 135];
       [226; 128; 136]; [226; 128; 137]; [226; 128; 138]; [226; 128; 168];
       [226; 128; 169]; [226; 128; 175]; [226; 129; 159]; [227; 128; 128];
       [239; 187; 191]].

(** [n] times the text [s]. *)
Fixpoint repeated (n : nat) (s : string) : string :=
  match n with
  | 0 => ""
  | S n' => s +:+ repeated n' s
  end.

(** The letter e with an acute accent: one code unit, two bytes. *)
Definition e_acute : string := String "195" (String "169" "").

(** ** The report dashboard ([pages/Dashboard.tsx]) *)

(** A row of [select("id, requested_at, report_title")]. *)
Module ReportSummary.
Record t := mk { id : string; requested_at : nat; report_title : string }.
Definition with_title (ti : string) (r : t) : t := mk (id r) (requested_at r) ti.
Definition of_report (r : Report.t) : t :=
  mk (Report.id r) (Report.requested_at r) (Report.report_title r).
End ReportSummary.

(** The [useState] cells of [Dashboard] that its handlers read or write. *)
Record Dash := {
  activeTab : string;
  selectedPupilId : string;
  currentReportId : option string;
  availableReports : list ReportSummary.t;
  isEditingTitle : bool;
  editedTitle : string
}.

Definition initial_dash : Dash :=
  {| activeTab := "chat"; selectedPupilId := ""; currentReportId := None;
     availableReports := []; isEditingTitle := false; editedTitle := "" |}.

(** The store calls of the dashboard, as they appear in its trace. *)
Inductive DashCall :=
| ReportsSelect (pupil_id : string)
| ReportsDelete (id : string)
| ReportsUpdateTitle (id title : string).

Record DashWorld := {
  d_remote : Remote;
  d_faults : list Fault;
  d_calls : list DashCall;
  d_toasts : list Toast
}.

Record DashSys := { dash : Dash; dworld : DashWorld }.

Definition DM (A : Type) : Type := DashSys -> DashSys * Outcome A.

#[global] Instance DM_ret : MRet DM := fun A a s => (s, Returned a).

#[global] Instance DM_bind : MBind DM := fun A B f m s =>
  match m s with
  | (s', Returned a) => f a s'
  | (s', Thrown e) => (s', Thrown e)
  end.

Definition d_throw {A} (e : Error) : DM A := fun s => (s, Thrown e).

Definition d_try_catch {A} (body : DM A) (handler : Error -> DM A) : DM A :=
  fun s =>
    match body s with
    | (s', Returned a) => (s', Returned a)
    | (s', Thrown e) => handler e s'
    end.

Definition d_dispatch {A} (handler : Dash -> DM A) : DM A :=
  fun s => handler (dash s) s.

Definition d_after {A} (m : DM A) (s : DashSys) : DashSys := fst (m s).

Definition update_dash (f : Dash -> Dash) : DM unit :=
  fun s => ({| dash := f (dash s); dworld := dworld s |}, Returned tt).

Definition d_toast (t : Toast) : DM unit :=
  fun s =>
    ({| dash := dash s;
        dworld := {| d_remote := d_remote (dworld s);
                     d_faults := d_faults (dworld s);
                     d_calls := d_calls (dworld s);
                     d_toasts := d_toasts (dworld s) ++ [t] |} |},
     Returned tt).

Definition setSelectedPupilId (v : string) : DM unit :=
  update_dash (fun d =>
    {| activeTab := activeTab d; selectedPupilId := v;
       currentReportId := currentReportId d;
       availableReports := availableReports d;
       isEditingTitle := isEditingTitle d; editedTitle := editedTitle d |}).

Definition setCurrentReportId (v : option string) : DM unit :=
  update_dash (fun d =>
    {| activeTab := activeTab d; selectedPupilId := selectedPupilId d;
       currentReportId := v; availableReports := availableReports d;
       isEditingTitle := isEditingTitle d; editedTitle := editedTitle d |}).

Definition setAvailableReports_from
    (f : list ReportSummary.t -> list ReportSummary.t) : DM unit :=
  update_dash (fun d =>
    {| activeTab := activeTab d; selectedPupilId := selectedPupilId d;
       currentReportId := currentReportId d;
       availableReports := f (availableReports d);
       isEditingTitle := isEditingTitle d; editedTitle := editedTitle d |}).

Definition setAvailableReports (v : list ReportSummary.t) : DM unit :=
  setAvailableReports_from (fun _ => v).

Definition setIsEditingTitle (v : bool) : DM unit :=
  update_dash (fun d =>
    {| activeTab := activeTab d; selectedPupilId := selectedPupilId d;
       currentReportId := currentReportId d;
       availableReports := availableReports d;
       isEditingTitle := v; editedTitle := editedTitle d |}).

(** One awaited store call of the dashboard, with the faults of
    [store_call]. *)
Definition dash_call {A} (c : DashCall)
    (run : Remote -> Remote * Response A) : DM (Response A) :=
  fun s =>
    let w := dworld s in
    let next (r : Remote) (fs : list Fault) : DashSys :=
      {| dash := dash s;
         dworld := {| d_remote := r; d_faults := fs;
                      d_calls := d_calls w ++ [c];
                      d_toasts := d_toasts w |} |} in
    match d_faults w with
    | [] => (next (run (d_remote w)).1 [], Returned (run (d_remote w)).2)
    | Healthy :: fs =>
        (next (run (d_remote w)).1 fs, Returned (run (d_remote w)).2)
    | ErrorResponse e :: fs => (next (d_remote w) fs, Returned (failed e))
    | RequestFailed :: fs =>
        (next (d_remote w) fs, Returned (failed FETCH_ERROR))
    end.

(** [from("reports").select("id, requested_at, report_title")
      .eq("pupil_id", pupilId).order("requested_at", { ascending: false })] *)
Definition select_report_summaries (pupilId : string) (r : Remote)
    : Remote * Response (list ReportSummary.t) :=
  (r, resolved (ReportSummary.of_report
                <$> order_desc Report.requested_at
                      (filter (fun x => Report.pupil_id x = pupilId)
                         (reports_tbl r)))).

(** [from("reports").delete().eq("id", id)] *)
Definition delete_report (id : string) (r : Remote)
    : Remote * Response unit :=
  (put_tables (pupils_tbl r)
     (filter (fun x => Report.id x ≠ id) (reports_tbl r))
     (exams_tbl r) (corrections_tbl r) 0 r,
   {| data := None; error := None |}).

(** [from("reports").update({ report_title }).eq("id", id)] *)
Definition update_report_title (id title : string) (r : Remote)
    : Remote * Response unit :=
  (put_tables (pupils_tbl r)
     ((fun x => if decide (Report.id x = id)
                then Report.mk (Report.id x) (Report.pupil_id x)
                       (Report.teacher_id x) title (Report.requested_at x)
                       (Report.sections x)
                else x) <$> reports_tbl r)
     (exams_tbl r) (corrections_tbl r) 0 r,
   {| data := None; error := None |}).

Definition fetchReports (snap : Dash) (pupilId : string) : DM unit :=
  if String.eqb pupilId "" then mret tt
  else
    d_try_catch
      (r ← dash_call (ReportsSelect pupilId)
             (select_report_summaries pupilId);
       match error r with
       | Some _ =>
           d_toast (ToastError "Failed to load reports. Please try again.")
       | None =>
           setAvailableReports (default [] (data r));;
           match data r with
           | Some (first :: _) =>
               if negb (truthy (currentReportId snap))
               then setCurrentReportId (Some (ReportSummary.id first))
               else mret tt
           | _ => mret tt
           end
       end)
      (fun _ =>
         d_toast (ToastError "Failed to load reports. Please try again.")).

(** [handlePupilChange], then the effect on [selectedPupilId] of the next
    render. *)
Definition handlePupilChange (value : string) : DM unit :=
  setSelectedPupilId value;;
  d_dispatch (fun snap => fetchReports snap (selectedPupilId snap)).

(** [confirmed] is the answer to [window.confirm], asked only when a report
    is current. *)
Definition handleDeleteReport (snap : Dash) (confirmed : bool) : DM unit :=
  match currentReportId snap with
  | Some current =>
      if String.eqb current "" || negb confirmed then mret tt
      else
        d_try_catch
          (r ← dash_call (ReportsDelete current) (delete_report current);
           match error r with
           | Some e => d_throw (StoreError e)
           | None =>
               d_toast (ToastSuccess "Report deleted successfully");;
               fetchReports snap (selectedPupilId snap)
           end)
          (fun _ => d_toast (ToastError "Failed to delete report"))
  | None => mret tt
  end.

Definition handleUpdateTitle (snap : Dash) (newTitle : string) : DM unit :=
  match currentReportId snap with
  | Some current =>
      if String.eqb current "" then mret tt
      else
        d_try_catch
          (r ← dash_call (ReportsUpdateTitle current newTitle)
                 (update_report_title current newTitle);
           match error r with
           | Some e => d_throw (StoreError e)
           | None =>
               setAvailableReports_from (fun prev =>
                 (fun report =>
                    if decide (ReportSummary.id report = current)
                    then ReportSummary.with_title newTitle report
                    else report) <$> prev);;
               d_toast (ToastSuccess "Report title updated")
           end)
          (fun _ => d_toast (ToastError "Failed to update report title"))
  | None => mret tt
  end.

(** The [onBlur] of the title input; [reportTitle] is the title on display. *)
Definition title_onBlur (snap : Dash) (reportTitle : string) : DM unit :=
  setIsEditingTitle false;;
  if negb (String.eqb (trim (editedTitle snap)) "")
     && negb (String.eqb (editedTitle snap) reportTitle)
  then handleUpdateTitle snap (trim (editedTitle snap))
  else mret tt.

(** What [renderReportContent] returns. *)
Inductive ReportView :=
| SelectStudent        (* "Please select a student to view their reports." *)
| NoReports            (* "No reports available for this student yet." *)
| Spinner
| LoadFailed           (* "Failed to load report data. ..." *)
| Blank                (* [null] *)
| ReportShown (listed : option ReportSummary.t).

(** [loading], [error] and [report] come from the [useReport] hook of the
    current report id (the hook is not part of the sources); [listed] is the
    entry of the list the title is taken from. *)
Definition renderReportContent (d : Dash) (loading error has_report : bool)
    : ReportView :=
  if String.eqb (selectedPupilId d) "" then SelectStudent
  else if negb (truthy (currentReportId d))
          || Nat.eqb (length (availableReports d)) 0 then NoReports
  else if loading then Spinner
  else if error then LoadFailed
  else if negb has_report then Blank
  else ReportShown
         (List.find (fun r => bool_decide
                                (Some (ReportSummary.id r) = currentReportId d))
            (availableReports d)).

(** A dashboard on the store of the running example, holding two reports of
    pupil "p1" and none of pupil "p2". *)
Definition first_report : Report.t :=
  Report.mk "r1" "p1" "t1" "Fractions" 3 [("output1", "Good work.")].

Definition second_report : Report.t :=
  Report.mk "r2" "p1" "t1" "" 5 [("output1", "Revise limits.")].

Definition fresh_dashboard : DashSys :=
  {| dash := initial_dash;
     dworld := {| d_remote := {| pupils_tbl := [];
                                 reports_tbl := [first_report; second_report];
                                 exams_tbl := []; corrections_tbl := [];
                                 auth_user := Some teacher; next_row := 0;
                                 clock := 10 |};
                  d_faults := []; d_calls := []; d_toasts := [] |} |}.

(** The first lines of the ExerciseForge effect on [user?.id] and
    [selectedExam] (the subscription it then opens is
    [corrections_effect]): the list is loaded on its first run only.
    [isConnected] is what [verifyConnection] answers, should it be asked.
    The source starts [loadExams()] without awaiting it and sets the flag
    at once; [loadExams] neither reads nor writes the flag, so the load is
    run to its end here before the flag is set. *)
Definition initial_load (isConnected : bool) : M unit :=
  fun s =>
    if initialLoadComplete (ui s) then (s, Returned tt)
    else (loadExams isConnected;;
          update_ui (put_initialLoadComplete true)) s.

(** The effect runs once per entry of the list, in order. *)
Definition initial_loads (connections : list bool) : M unit :=
  foldr (fun isConnected rest => initial_load isConnected;; rest) (mret tt)
    connections.
(** * Properties *)

(** ** Running handlers *)

Lemma store_call_through {A} (c : Call) (run : Remote -> Remote * Response A)
    (s : Sys) (n : nat) :
  all_go_through (S n) (faults (world s)) = true ->
  exists fs',
    store_call c run s =
      ({| ui := ui s;
          world := {| remote := (run (remote (world s))).1; faults := fs';
                      calls := calls (world s) ++ [c];
                      toasts := toasts (world s) |} |},
       Returned (run (remote (world s))).2)
    /\ all_go_through n fs' = true.
Proof.
  unfold store_call.
  destruct (faults (world s)) as [|[| |] fs]; simpl; try discriminate.
  - intros _. exists []. split; [reflexivity | by destruct n].
  - intros Hfs. by exists fs.
Qed.

(** No row satisfies the filter: [.single()] answers PGRST116. *)
Lemma single_no_match {A} (P : A -> Prop) `{!forall x, Decision (P x)}
    (rows : list A) :
  Forall (fun x => ~ P x) rows -> single (filter P rows) = failed PGRST116.
Proof.
  intros Hall. induction Hall as [|x l Hx _ IH]; [done|].
  by rewrite filter_cons_False.
Qed.

Lemma filter_no_match {A} (P : A -> Prop) `{!forall x, Decision (P x)}
    (rows : list A) :
  Forall (fun x => ~ P x) rows -> filter P rows = [].
Proof.
  intros Hall. induction Hall as [|x l Hx _ IH]; [done|].
  by rewrite filter_cons_False.
Qed.

(** ** The domain access layer *)

(** The list queries answer an empty table with the empty list, not with an
    error: they ask for no single row. *)
Lemma list_queries_of_empty_tables (s : Sys) (pupilId : string) :
  all_go_through 1 (faults (world s)) = true ->
  (pupils_tbl (remote (world s)) = [] ->
   result database.pupils.list s = Returned (Some []))
  /\ (exams_tbl (remote (world s)) = [] ->
      result database.exams.list s = Returned (Some []))
  /\ (Forall (fun r => Report.pupil_id r ≠ pupilId)
        (reports_tbl (remote (world s))) ->
      result (database.reports.listByPupil pupilId) s = Returned (Some [])).
Proof.
  intros Hgo. split; [|split].
  - intros Hno. unfold result, database.pupils.list, mbind, M_bind.
    destruct (store_call_through PupilsSelectAll select_pupils s 0 Hgo)
      as (fs & -> & _).
    simpl. by rewrite Hno.
  - intros Hno. unfold result, database.exams.list, mbind, M_bind.
    destruct (store_call_through ExamsSelectAll select_exams s 0 Hgo)
      as (fs & -> & _).
    simpl. by rewrite Hno.
  - intros Hno. unfold result, database.reports.listByPupil, mbind, M_bind.
    destruct (store_call_through (ReportsSelectByPupil pupilId)
                (select_reports_by_pupil pupilId) s 0 Hgo) as (fs & -> & _).
    simpl. by rewrite (filter_no_match _ _ Hno).
Qed.

(** C2.  When no row matches, the single-row correction lookup
    [corrections.getByExamId] returns [null]; every other operation of the
    layer that asks the store for the single row of a key ([exams.get], and
    the updates [exams.update] and [corrections.update]) throws the store's
    error; and the list lookups ([pupils.list], [exams.list],
    [reports.listByPupil]) return the empty list, not an error. *)
Theorem C2_not_found_by_kind_of_lookup
    (s : Sys) (key content pupilId : string) :
  all_go_through 1 (faults (world s)) = true ->
  (Forall (fun c => Correction.exam_id c ≠ key)
     (corrections_tbl (remote (world s))) ->
   result (database.corrections.getByExamId key) s = Returned None)
  /\ (Forall (fun e => Exam.id e ≠ key) (exams_tbl (remote (world s))) ->
      result (database.exams.get key) s = Thrown (StoreError PGRST116)
      /\ result (database.exams.update key content) s
         = Thrown (StoreError PGRST116))
  /\ (Forall (fun c => Correction.id c ≠ key)
        (corrections_tbl (remote (world s))) ->
      result (database.corrections.update key content) s
      = Thrown (StoreError PGRST116))
  /\ (pupils_tbl (remote (world s)) = [] ->
      result database.pupils.list s = Returned (Some []))
  /\ (exams_tbl (remote (world s)) = [] ->
      result database.exams.list s = Returned (Some []))
  /\ (Forall (fun r => Report.pupil_id r ≠ pupilId)
        (reports_tbl (remote (world s))) ->
      result (database.reports.listByPupil pupilId) s = Returned (Some [])).
Proof.
  intros Hgo.
  split; [|split; [|split; [|by apply list_queries_of_empty_tables]]].
  - intros Hno. unfold result, database.corrections.getByExamId, mbind, M_bind.
    destruct (store_call_through (CorrectionsSelectByExam key)
                (select_correction_by_exam key) s 0 Hgo) as (fs & -> & _).
    simpl. by rewrite (single_no_match _ _ Hno).
  - intros Hno. split.
    + unfold result, database.exams.get, mbind, M_bind.
      destruct (store_call_through (ExamsSelectById key)
                  (select_exam_by_id key) s 0 Hgo) as (fs & -> & _).
      simpl. by rewrite (single_no_match _ _ Hno).
    + unfold result, database.exams.update, mbind, M_bind.
      destruct (store_call_through (ExamsUpdateContent key content)
                  (update_exam_content key content) s 0 Hgo) as (fs & -> & _).
      simpl. rewrite single_no_match; [done|].
      unfold exams_with_content. apply Forall_fmap.
      eapply Forall_impl; [exact Hno|]. intros e He. simpl.
      by destruct (decide (Exam.id e = key)).
  - intros Hno.
    unfold result, database.corrections.update, mbind, M_bind.
    destruct (store_call_through (CorrectionsUpdateContent key content)
                (update_correction_content key content) s 0 Hgo)
      as (fs & -> & _).
    simpl. rewrite single_no_match; [done|].
    unfold corrections_with_content. apply Forall_fmap.
    eapply Forall_impl; [exact Hno|]. intros c Hc. simpl.
    by destruct (decide (Correction.id c = key)).
Qed.

Lemma C2_witness :
  result (database.corrections.getByExamId "e1") fresh_screen = Returned None
  /\ result (database.exams.get "e9") fresh_screen
     = Thrown (StoreError PGRST116)
  /\ result (database.reports.listByPupil "p9") fresh_screen
     = Returned (Some []).
Proof.
  pose proof (C2_not_found_by_kind_of_lookup fresh_screen "e1" "" "p9"
                eq_refl) as (Hcorr & _ & _ & _ & _ & Hlist).
  pose proof (C2_not_found_by_kind_of_lookup fresh_screen "e9" "" "p9"
                eq_refl) as (_ & Hexam & _).
  split_and!.
  - apply Hcorr. constructor.
  - apply Hexam. repeat constructor. discriminate.
  - apply Hlist. constructor.
Defined.

(** C2, as the specification states it, fails: [reports.listByPupil] is
    another lookup of the layer, and for a pupil without report it returns
    the empty list where the claim has it fail with an error. *)
Lemma C2_counterexample :
  Forall (fun r => Report.pupil_id r ≠ "p9")
    (reports_tbl (remote (world fresh_screen)))
  /\ forall e, result (database.reports.listByPupil "p9") fresh_screen
               ≠ Thrown e.
Proof. split; [constructor|]. intros e. vm_compute. discriminate. Qed.

(** ** The "exams" listener *)

(** One notification addressed to the signed-in user, whose row the store
    returns, puts that row in front of the list and writes its content in
    the side cache. *)
Lemma deliver_prepends (s : Sys) (p : Payload) (row : Exam.t) (n : nat) :
  new_teacher_id p = User.id <$> user (ui s) ->
  all_go_through (S n) (faults (world s)) = true ->
  filter (fun e => Exam.id e = new_id p) (exams_tbl (remote (world s)))
  = [row] ->
  let s' := after (deliver p) s in
  exams (ui s') = row :: exams (ui s)
  /\ examContentCache (ui s')
     = <[Exam.id row := Exam.content row]> (examContentCache (ui s))
  /\ user (ui s') = user (ui s)
  /\ remote (world s') = remote (world s)
  /\ all_go_through n (faults (world s')) = true.
Proof.
  intros Hteacher Hgo Hrow. unfold after, deliver, dispatch, onExamInserted.
  rewrite bool_decide_eq_true_2 by done.
  unfold mbind, M_bind.
  destruct (store_call_through (ExamsSelectById (new_id p))
              (select_exam_by_id (new_id p)) s n Hgo) as (fs & -> & Hfs).
  simpl. rewrite Hrow. by simpl.
Qed.

Lemma occurrences_cons (i : string) (e : Exam.t) (l : list Exam.t) :
  occurrences i (e :: l)
  = (if decide (Exam.id e = i) then 1 else 0) + occurrences i l.
Proof.
  unfold occurrences. rewrite filter_cons.
  by destruct (decide (Exam.id e = i)).
Qed.

(** C1, as the code has it.  Two insertion notifications for the same row
    id, both addressed to the signed-in user and both finding the row in the
    store, put the row in front of the list twice: the id occurs two more
    times than before.  Only the side cache, keyed by id, holds the row
    once. *)
Theorem C1_same_row_notified_twice_is_listed_twice
    (s : Sys) (p1 p2 : Payload) (row : Exam.t) :
  new_id p1 = new_id p2 ->
  new_teacher_id p1 = User.id <$> user (ui s) ->
  new_teacher_id p2 = User.id <$> user (ui s) ->
  all_go_through 2 (faults (world s)) = true ->
  filter (fun e => Exam.id e = new_id p1) (exams_tbl (remote (world s)))
  = [row] ->
  let s2 := after (deliver p2) (after (deliver p1) s) in
  exams (ui s2) = row :: row :: exams (ui s)
  /\ occurrences (new_id p1) (exams (ui s2))
     = 2 + occurrences (new_id p1) (exams (ui s))
  /\ examContentCache (ui s2) !! new_id p1 = Some (Exam.content row).
Proof.
  intros Hid Ht1 Ht2 Hgo Hrow.
  assert (Exam.id row = new_id p1) as Hrid.
  { assert (row ∈ filter (fun e => Exam.id e = new_id p1)
                     (exams_tbl (remote (world s)))) as Hin
      by (rewrite Hrow; apply list_elem_of_here).
    by apply list_elem_of_filter in Hin as [? _]. }
  destruct (deliver_prepends s p1 row 1 Ht1 Hgo Hrow)
    as (Hl1 & Hc1 & Hu1 & Hr1 & Hgo1).
  destruct (deliver_prepends (after (deliver p1) s) p2 row 0)
    as (Hl2 & Hc2 & _).
  - by rewrite Hu1.
  - exact Hgo1.
  - by rewrite Hr1, <- Hid.
  - cbv zeta. rewrite Hl2, Hl1, Hc2, Hc1. split; [done|]. split.
    + rewrite !occurrences_cons. by rewrite !decide_True.
    + rewrite Hrid. apply lookup_insert_eq.
Qed.

Lemma C1_witness :
  exams (ui (after (deliver algebra_inserted)
               (after (deliver algebra_inserted) fresh_screen)))
  = [algebra; algebra].
Proof.
  apply (C1_same_row_notified_twice_is_listed_twice
           fresh_screen algebra_inserted algebra_inserted algebra);
    reflexivity.
Defined.

(** C1, as the specification states it, fails: after two notifications for
    the row "e1" the list holds it twice. *)
Lemma C1_counterexample :
  occurrences "e1"
    (exams (ui (after (deliver algebra_inserted)
                  (after (deliver algebra_inserted) fresh_screen))))
  ≠ 1.
Proof. vm_compute. discriminate. Qed.

(** ** The mode-switching editor *)

(** The correction lookup touches neither the screen nor the tables, and
    adds itself to the trace. *)
Lemma getByExamId_run (examId : string) (s : Sys) :
  exists w' r,
    database.corrections.getByExamId examId s
    = ({| ui := ui s; world := w' |}, r)
    /\ remote w' = remote (world s)
    /\ calls w' = calls (world s) ++ [CorrectionsSelectByExam examId]
    /\ toasts w' = toasts (world s).
Proof.
  unfold database.corrections.getByExamId, mbind, M_bind, store_call.
  destruct (faults (world s)) as [|[|e|] fs]; simpl.
  - destruct (filter _ _) as [|c [|c' l]]; simpl; eauto 10.
  - destruct (filter _ _) as [|c [|c' l]]; simpl; eauto 10.
  - destruct (negb _); simpl; eauto 10.
  - eauto 10.
Qed.

#[local] Arguments database.corrections.getByExamId : simpl never.

(** Whatever the store answers, [loadCorrection] returns normally and
    leaves the exam-content slot, the mode and the selection as they are. *)
Lemma loadCorrection_keeps (snap : State) (m : Mode) (s : Sys) :
  let s' := (loadCorrection snap m s).1 in
  (loadCorrection snap m s).2 = Returned tt
  /\ examContent (ui s') = examContent (ui s)
  /\ mode (ui s') = mode (ui s)
  /\ selectedExam (ui s') = selectedExam (ui s).
Proof.
  unfold loadCorrection.
  destruct (selectedExam snap) as [sel|]; [|done].
  unfold finally, try_catch, mbind, M_bind. simpl.
  match goal with
  | |- context [database.corrections.getByExamId ?i ?st] =>
      destruct (getByExamId_run i st) as (w' & r & -> & _)
  end.
  destruct r as [[c|]|e]; simpl; by destruct m.
Qed.

(** The transition edit → correction stores the buffer in the exam-content
    slot; loading the correction does not touch that slot. *)
Lemma toggle_to_correction_persists (s : Sys) :
  mode (ui s) = edit ->
  let s1 := after (toggle correction_mode) s in
  examContent (ui s1) = editableContent (ui s)
  /\ mode (ui s1) = correction_mode.
Proof.
  intros Hmode. unfold after, toggle, dispatch, handleToggleMode.
  rewrite Hmode. simpl.
  destruct (correction (ui s)) as [c|], (selectedExam (ui s)) as [sel|];
    try done.
  unfold mbind, M_bind. simpl.
  match goal with
  | |- context [loadCorrection ?snap ?m ?s0] =>
      pose proof (loadCorrection_keeps snap m s0) as (Hret & Hkeep);
      destruct (loadCorrection snap m s0) as [s1 [[]|e]]
  end; simpl in *; [tauto | discriminate].
Qed.

(** Typing changes the buffer only. *)
Lemma type_texts_keeps (texts : list string) (s : Sys) :
  let s' := after (type_texts texts) s in
  examContent (ui s') = examContent (ui s) /\ mode (ui s') = mode (ui s).
Proof.
  revert s. induction texts as [|text texts IH]; intros s; [done|].
  unfold after in *. simpl. unfold mbind, M_bind. simpl.
  apply (IH {| ui := put_editableContent text (ui s); world := world s |}).
Qed.

(** The transition correction → edit puts the exam-content slot back in the
    buffer. *)
Lemma toggle_to_edit_restores (s : Sys) :
  mode (ui s) = correction_mode ->
  let s2 := after (toggle edit) s in
  editableContent (ui s2) = examContent (ui s)
  /\ correctionContent (ui s2) = editableContent (ui s)
  /\ mode (ui s2) = edit.
Proof.
  intros Hmode. unfold after, toggle, dispatch, handleToggleMode.
  rewrite Hmode. by simpl.
Qed.

(** C3.  From edit mode, switching to correction and back without saving
    leaves in the buffer exactly the text it held before the first switch,
    whatever the store answered to the correction lookup and whatever was
    typed in correction mode in between. *)
Theorem C3_toggle_round_trip_restores_buffer
    (s : Sys) (typed : list string) :
  mode (ui s) = edit ->
  let s1 := after (toggle correction_mode) s in
  let s2 := after (toggle edit) (after (type_texts typed) s1) in
  editableContent (ui s2) = editableContent (ui s) /\ mode (ui s2) = edit.
Proof.
  intros Hmode s1 s2.
  destruct (toggle_to_correction_persists s Hmode) as (Hslot & Hmode1).
  destruct (type_texts_keeps typed s1) as (Hslot' & Hmode1').
  fold s1 in Hslot, Hmode1.
  destruct (toggle_to_edit_restores (after (type_texts typed) s1))
    as (Hbuf & _ & Hmode2).
  { by rewrite Hmode1'. }
  fold s2 in Hbuf, Hmode2. split; [|done].
  by rewrite Hbuf, Hslot', Hslot.
Qed.

Lemma C3_witness :
  editableContent
    (ui (after (toggle edit)
           (after (type_texts ["x = 1"])
              (after (toggle correction_mode)
                 (after (type_texts ["x + 1 = 3"]) algebra_selected)))))
  = "x + 1 = 3".
Proof.
  apply (C3_toggle_round_trip_restores_buffer
           (after (type_texts ["x + 1 = 3"]) algebra_selected) ["x = 1"]).
  reflexivity.
Defined.

(** With a correction loaded the transition edit → correction asks the
    store nothing and shows the correction-content slot. *)
Lemma toggle_reuses_loaded_correction (s : Sys) (corr : Correction.t) :
  mode (ui s) = edit ->
  correction (ui s) = Some corr ->
  let s1 := after (toggle correction_mode) s in
  world s1 = world s
  /\ editableContent (ui s1) = correctionContent (ui s)
  /\ examContent (ui s1) = editableContent (ui s).
Proof.
  intros Hmode Hcorr. unfold after, toggle, dispatch, handleToggleMode.
  rewrite Hmode, Hcorr. by simpl.
Qed.

(** With no correction object on the screen and an exam selected, every
    transition edit → correction asks the store again. *)
Lemma toggle_looks_up_without_correction (s : Sys) (sel : Exam.t) :
  mode (ui s) = edit ->
  correction (ui s) = None ->
  selectedExam (ui s) = Some sel ->
  calls (world (after (toggle correction_mode) s))
  = calls (world s) ++ [CorrectionsSelectByExam (Exam.id sel)].
Proof.
  intros Hmode Hcorr Hsel. unfold after, toggle, dispatch, handleToggleMode.
  rewrite Hmode, Hcorr, Hsel. simpl.
  unfold loadCorrection. rewrite Hsel.
  unfold finally, try_catch, mbind, M_bind. simpl.
  match goal with
  | |- context [database.corrections.getByExamId ?i ?st] =>
      destruct (getByExamId_run i st) as (w' & r & -> & _ & Hcalls & _)
  end.
  destruct r as [[c|]|e]; simpl; exact Hcalls.
Qed.

(** C5, at the failing input.  The first switch to correction mode stores
    the buffer and looks the correction up; as the lookup finds no row the
    correction object stays empty, so the second switch looks it up again
    instead of reusing the correction-content slot, and the draft kept in
    that slot is replaced by the empty text. *)
Theorem C5_lookup_repeated_when_no_correction_exists :
  examContent (ui draft_typed) = "x + 1 = 2"
  /\ correctionContent (ui (after (toggle edit) draft_typed)) = "x = 1"
  /\ calls (world draft_session)
     = [ExamsSelectById "e1"; CorrectionsSelectByExam "e1";
        CorrectionsSelectByExam "e1"]
  /\ editableContent (ui draft_session) = ""
  /\ correctionContent (ui draft_session) = "".
Proof. vm_compute. done. Qed.

(** ** Saving *)






(** ** Deleting an exam *)

(** Around a delete call that returns, the handler does clear what depends
    on the selected exam. *)
Lemma handleExamDelete_with_clears (delete_exam : string -> M unit)
    (s s1 : Sys) (examId : string) :
  delete_exam examId s = (s1, Returned tt) ->
  Exam.id <$> selectedExam (ui s) = Some examId ->
  let s' := after (handleExamDelete_with delete_exam (ui s) true examId) s in
  selection_cleared (ui s')
  /\ exams (ui s') = filter (fun exam => Exam.id exam ≠ examId) (exams (ui s))
  /\ examContentCache (ui s') !! examId = None.
Proof.
  intros Hdel Hsel. unfold after, handleExamDelete_with. simpl.
  unfold try_catch, mbind, M_bind. rewrite Hdel. simpl.
  rewrite decide_True by done. simpl.
  split; [done|]. split; [done|]. apply lookup_delete_eq.
Qed.

(** The delete handler as it runs: the call throws, the error branch adds
    its notification and nothing else changes. *)
Lemma delete_exam_event_run (s : Sys) (confirmed : bool) (examId : string) :
  delete_exam_event confirmed examId s
  = (if confirmed
     then {| ui := ui s;
             world := notified
                        (ToastError "Failed to delete exam. Please try again.")
                        (world s) |}
     else s,
     Returned tt).
Proof.
  unfold delete_exam_event, dispatch, handleExamDelete, handleExamDelete_with.
  by destruct confirmed, s.
Qed.

(** C9, as the code has it.  The handler first asks for confirmation.  Once
    the user has accepted, the call of the member [delete], which
    [database.exams] does not have, throws and the error branch shows the
    failure notification; nothing is sent to the store, and the exam list,
    the content cache, the selection and the rest of the screen are left as
    they were.  When the user declines, nothing happens at all. *)
Theorem C9_delete_fails_once_confirmed
    (s : Sys) (confirmed : bool) (examId : string) :
  let s' := after (delete_exam_event confirmed examId) s in
  result (delete_exam_event confirmed examId) s = Returned tt
  /\ toasts (world s')
     = toasts (world s)
       ++ (if confirmed
           then [ToastError "Failed to delete exam. Please try again."]
           else [])
  /\ exams (ui s') = exams (ui s)
  /\ examListCache (ui s') = examListCache (ui s)
  /\ examContentCache (ui s') = examContentCache (ui s)
  /\ selectedExam (ui s') = selectedExam (ui s)
  /\ ui s' = ui s
  /\ remote (world s') = remote (world s)
  /\ calls (world s') = calls (world s).
Proof.
  unfold after, result. rewrite delete_exam_event_run.
  destruct confirmed; simpl; by rewrite ?app_nil_r.
Qed.

(** C9, as stated, fails: a declined confirmation takes no branch of the
    [try] and shows no failure notification. *)
Lemma C9_counterexample :
  ToastError "Failed to delete exam. Please try again."
  ∉ toasts (world (after (delete_exam_event false "e1") algebra_selected)).
Proof.
  unfold after. rewrite delete_exam_event_run. vm_compute. apply not_elem_of_nil.
Qed.

(** C6, at the failing input.  [algebra] is selected and open in
    correction mode, with its correction loaded, an unsaved buffer and a
    chat message; its deletion is confirmed.  Nothing that depends on the
    selection is reset and the exam stays selected: the delete call throws
    before the handler gets there, and only the failure notification is
    added. *)
Theorem C6_delete_of_selected_exam_resets_nothing :
  let s' := after (delete_exam_event true "e1") algebra_in_progress in
  Exam.id <$> selectedExam (ui algebra_in_progress) = Some "e1"
  /\ ui s' = ui algebra_in_progress
  /\ selectedExam (ui s') = Some algebra
  /\ examContent (ui s') = "x + 1 = 2"
  /\ editableContent (ui s') = "x = 1, checked"
  /\ correctionContent (ui s') = "x = 1"
  /\ correction (ui s') = Some algebra_key
  /\ chatMessages (ui s')
     = [{| msg_content := "make it harder"; isUser := true;
           msg_id := None |}]
  /\ mode (ui s') = correction_mode
  /\ ~ selection_cleared (ui s')
  /\ toasts (world s')
     = [ToastError "Failed to get AI response. Please try again.";
        ToastError "Failed to delete exam. Please try again."].
Proof.
  unfold after. rewrite delete_exam_event_run.
  cbv beta iota zeta delta [fst notified toasts world ui].
  split; [reflexivity|]. split; [reflexivity|].
  repeat (split; [vm_compute; reflexivity|]).
  split; [|vm_compute; reflexivity].
  intros (Hsel & _). vm_compute in Hsel. discriminate Hsel.
Qed.

(** ** Renaming the selected exam *)

(** C10.  A title change on the selected exam replaces the exam in the local
    list and in the selection and shows the success notification whatever
    becomes of the store call: the response is not looked at, and a request
    that fails on the way resolves to a response too, so that no outcome of
    the call reaches the error branch.  When the store answered with an
    error, or the request failed, the tables still hold the old title;
    when the call went through, the rows of the exam hold the new one. *)
Theorem C10_title_change_always_reports_success
    (s : Sys) (sel : Exam.t) (newTitle : string) :
  selectedExam (ui s) = Some sel ->
  let s' := after (title_change newTitle) s in
  let renamed := Exam.with_title newTitle sel in
  let listed :=
    (fun exam => if decide (Exam.id exam = Exam.id sel) then renamed
                 else exam) <$> exams (ui s) in
  exams (ui s') = listed
  /\ examListCache (ui s') = listed
  /\ selectedExam (ui s') = Some renamed
  /\ toasts (world s')
     = toasts (world s) ++ [ToastSuccess "Title updated successfully"]
  /\ calls (world s')
     = calls (world s) ++ [ExamsUpdateTitle (Exam.id sel) newTitle]
  /\ (all_go_through 1 (faults (world s)) = false ->
      remote (world s') = remote (world s))
  /\ (all_go_through 1 (faults (world s)) = true ->
      exams_tbl (remote (world s'))
      = exams_with_title (Exam.id sel) newTitle
          (exams_tbl (remote (world s)))).
Proof.
  intros Hsel. unfold after, title_change, dispatch, handleTitleChange.
  rewrite Hsel. unfold try_catch, updateExamInList, mbind, M_bind, store_call.
  destruct (faults (world s)) as [|[|e|] fs]; by simpl.
Qed.

Lemma C10_witness :
  let refused :=
    {| ui := ui algebra_selected;
       world := {| remote := remote (world algebra_selected);
                   faults := [ErrorResponse RLS_DENIED];
                   calls := []; toasts := [] |} |} in
  toasts (world (after (title_change "Geometry") refused))
  = [ToastSuccess "Title updated successfully"]
  /\ Exam.title <$> selectedExam (ui (after (title_change "Geometry") refused))
     = Some "Geometry"
  /\ Exam.title <$> exams_tbl (remote (world (after (title_change "Geometry")
                                                refused)))
     = ["Algebra"].
Proof.
  intros refused.
  destruct (C10_title_change_always_reports_success refused algebra
              "Geometry" eq_refl) as (_ & _ & Hsel & Hshown & _ & Hstore & _).
  split; [by rewrite Hshown|]. split.
  - by rewrite Hsel.
  - rewrite (Hstore eq_refl). reflexivity.
Defined.

(** C10, as the specification states it, fails: a request that fails at
    the level of the network does not reach the error branch either.  The
    client resolves it to an error object, which is not looked at: the
    success is notified and the exam renamed on the screen. *)
Lemma C10_counterexample :
  let offline :=
    {| ui := ui algebra_selected;
       world := {| remote := remote (world algebra_selected);
                   faults := [RequestFailed]; calls := []; toasts := [] |} |} in
  toasts (world (after (title_change "Geometry") offline))
  = [ToastSuccess "Title updated successfully"]
  /\ (ToastError "Failed to update title"
      ∉ toasts (world (after (title_change "Geometry") offline)))
  /\ Exam.title <$> selectedExam (ui (after (title_change "Geometry") offline))
     = Some "Geometry".
Proof.
  vm_compute. split; [done|]. split; [|done].
  intros Hin. apply elem_of_cons in Hin as [Hin|Hin]; [discriminate Hin|].
  by apply elem_of_nil in Hin.
Qed.

(** ** The chat *)

Lemma without_typing_clean (chat : list ChatMessage) :
  no_placeholder (without_typing chat).
Proof.
  apply Forall_forall. intros msg Hin.
  by apply list_elem_of_filter in Hin as [? _].
Qed.

Lemma without_typing_app (l k : list ChatMessage) :
  without_typing (l ++ k) = without_typing l ++ without_typing k.
Proof. apply filter_app. Qed.

(** The exam lookup leaves the screen and the notifications alone. *)
Lemma exams_get_run (id : string) (s : Sys) :
  exists w' r,
    database.exams.get id s = ({| ui := ui s; world := w' |}, r)
    /\ toasts w' = toasts (world s).
Proof.
  unfold database.exams.get, mbind, M_bind, store_call.
  destruct (faults (world s)) as [|[|e|] fs]; simpl.
  - destruct (filter _ _) as [|c [|c' l]]; simpl; eauto.
  - destruct (filter _ _) as [|c [|c' l]]; simpl; eauto.
  - eauto.
  - eauto.
Qed.

#[local] Arguments database.exams.get : simpl never.

(** [loadCorrection] leaves the chat alone. *)
Lemma loadCorrection_chat (snap : State) (m : Mode) (s : Sys) :
  (loadCorrection snap m s).2 = Returned tt
  /\ chatMessages (ui (loadCorrection snap m s).1) = chatMessages (ui s).
Proof.
  unfold loadCorrection.
  destruct (selectedExam snap) as [sel|]; [|done].
  unfold finally, try_catch, mbind, M_bind. simpl.
  match goal with
  | |- context [database.corrections.getByExamId ?i ?st] =>
      destruct (getByExamId_run i st) as (w' & r & -> & _)
  end.
  destruct r as [[c|]|e]; simpl; by destruct m.
Qed.

#[local] Arguments loadCorrection : simpl never.

Lemma sent_then_failed (chat : list ChatMessage) (text : string) :
  without_typing
    ((chat ++ [{| msg_content := text; isUser := true; msg_id := None |}])
     ++ [typing_placeholder])
  = without_typing chat
    ++ [{| msg_content := text; isUser := true; msg_id := None |}].
Proof.
  rewrite !without_typing_app. unfold without_typing at 2 3.
  rewrite filter_cons_True by done.
  rewrite filter_cons_False by (intros Hne; by apply Hne).
  by rewrite !filter_nil, app_nil_r.
Qed.

(** C7.  Once the chat form has been accepted and the webhook called, the
    handler leaves no "typing" placeholder in the chat and clears the
    sending flag, whatever the webhook and the store do.  When the webhook
    call fails (rejected request, non-success status, unreadable body) the
    failure notification is shown and the chat is the earlier chat, without
    placeholder, followed by the message just sent. *)
Theorem C7_failed_webhook_leaves_no_placeholder
    (s : Sys) (reply : FetchOutcome) :
  can_send (ui s) = true ->
  let s' := after (send reply) s in
  no_placeholder (chatMessages (ui s'))
  /\ isSendingMessage (ui s') = false
  /\ (webhook_failed reply = true ->
      toasts (world s')
      = toasts (world s)
        ++ [ToastError "Failed to get AI response. Please try again."]
      /\ chatMessages (ui s')
         = without_typing (chatMessages (ui s))
           ++ [{| msg_content := message (ui s); isUser := true;
                  msg_id := None |}]).
Proof.
  unfold can_send. intros Hcan.
  apply andb_prop in Hcan as [Hcan Hopen].
  apply andb_prop in Hcan as [Huser Htext].
  apply bool_decide_eq_true_1 in Huser as [usr Husr].
  unfold after, send, dispatch, handleSendMessage. rewrite Husr.
  replace (String.eqb (trim (message (ui s))) "") with false
    by (by destruct (String.eqb _ _)).
  replace (negb (bool_decide (is_Some (selectedExam (ui s))))
           && negb (isCreatingNew (ui s))) with false
    by (by destruct (bool_decide _), (isCreatingNew (ui s))).
  cbn [orb].
  unfold finally, try_catch, fetch_webhook, mbind, M_bind. simpl.
  destruct reply as [|[|] [data|]]; simpl.
  - rewrite sent_then_failed. split; [|done].
    apply Forall_app. split; [apply without_typing_clean | by repeat constructor].
  - assert (no_placeholder
              (without_typing
                 ((chatMessages (ui s)
                   ++ [{| msg_content := message (ui s); isUser := true;
                          msg_id := None |}]) ++ [typing_placeholder])
               ++ [{| msg_content := output data; isUser := false;
                      msg_id := None |}])) as Hclean.
    { apply Forall_app. split; [apply without_typing_clean|].
      by repeat constructor. }
    assert (forall chat, no_placeholder chat ->
                         no_placeholder (without_typing chat)) as Hfilter
      by (intros chat _; apply without_typing_clean).
    destruct (examId data) as [newId|];
      [destruct (isCreatingNew (ui s) && truthy (Some newId))|];
      try match goal with
        | |- context [database.exams.get ?i ?st] =>
            destruct (exams_get_run i st) as (w' & [[ex|]|e] & -> & _)
        end;
      simpl;
      destruct (bool_decide (mode (ui s) = correction_mode)
                && truthy (correctionId data));
      simpl;
      try match goal with
        | |- context [loadCorrection ?a ?b ?c] =>
            destruct (loadCorrection_chat a b c) as (Hret & Hchat);
            destruct (loadCorrection a b c) as [s2 [[]|e2]];
            simpl in Hret, Hchat; [|discriminate Hret]; simpl;
            rewrite Hchat
        end;
      (split; [auto | split; [done | discriminate]]).
  - rewrite sent_then_failed. split; [|done].
    apply Forall_app. split; [apply without_typing_clean | by repeat constructor].
  - rewrite sent_then_failed. split; [|done].
    apply Forall_app. split; [apply without_typing_clean | by repeat constructor].
  - rewrite sent_then_failed. split; [|done].
    apply Forall_app. split; [apply without_typing_clean | by repeat constructor].
Qed.

Lemma C7_witness :
  let asked := {| ui := put_message "make it harder" (ui algebra_selected);
                  world := world algebra_selected |} in
  isSendingMessage (ui (after (send (FetchResolved false None)) asked))
  = false
  /\ chatMessages (ui (after (send (FetchResolved false None)) asked))
     = [{| msg_content := "make it harder"; isUser := true;
           msg_id := None |}].
Proof.
  intros asked.
  destruct (C7_failed_webhook_leaves_no_placeholder asked
              (FetchResolved false None) eq_refl) as (_ & Hflag & Hfail).
  split; [exact Hflag|].
  destruct (Hfail eq_refl) as (_ & ->). reflexivity.
Defined.

(** ** Subscriptions *)

Lemma run_setup_cases (e : EffectDef) (rd : Render) (c : Client) :
  slot_effect (run_setup e rd c).2 = e
  /\ (((run_setup e rd c).1 = c /\ slot_cleanup (run_setup e rd c).2 = None)
      \/ exists ch,
           channels (run_setup e rd c).1 = channels c ++ [ch]
           /\ next_handle (run_setup e rd c).1 = S (next_handle c)
           /\ handle ch = next_handle c
           /\ table ch = eff_table e
           /\ slot_cleanup (run_setup e rd c).2 = Some ch).
Proof.
  split; [done|]. unfold run_setup, setup.
  destruct (r_user rd) as [u|]; [|by left].
  destruct (String.eqb (User.id u) ""); [by left|].
  right. simpl. eauto 10.
Qed.

Lemma filter_all {A} (P : A -> Prop) `{!forall x, Decision (P x)}
    (l : list A) :
  (forall x, x ∈ l -> P x) -> filter P l = l.
Proof.
  induction l as [|x l IH]; intros Hall; [done|].
  rewrite filter_cons_True by (apply Hall; left).
  f_equal. apply IH. intros y Hy. apply Hall. by right.
Qed.

(** The cleanup phase closes the channels of the slots that run again, and
    nothing else. *)
Lemma cleanup_changed_spec (rd : Render) (sls : list Slot) (c : Client) :
  channels (cleanup_changed rd sls c)
  = filter (fun ch => handle ch ∉ removed rd sls) (channels c)
  /\ next_handle (cleanup_changed rd sls c) = next_handle c.
Proof.
  revert c. induction sls as [|sl sls IH]; intros c.
  - split; [|done]. simpl. symmetry. apply filter_all.
    intros ch _. apply not_elem_of_nil.
  - unfold cleanup_changed in *. simpl.
    destruct (IH (if changed rd sl then run_cleanup sl c else c))
      as (-> & ->).
    unfold removed. simpl. unfold run_cleanup.
    destruct (changed rd sl), (slot_cleanup sl) as [ch0|]; simpl; try done.
    split; [|done]. rewrite list_filter_filter.
    apply list_filter_iff. intros ch. rewrite not_elem_of_cons. tauto.
Qed.

Lemma cleanup_all_spec (sls : list Slot) (c : Client) :
  channels (cleanup_all sls c)
  = filter (fun ch => handle ch ∉ handle <$> omap slot_cleanup sls)
      (channels c)
  /\ next_handle (cleanup_all sls c) = next_handle c.
Proof.
  revert c. induction sls as [|sl sls IH]; intros c.
  - split; [|done]. simpl. symmetry. apply filter_all.
    intros ch _. apply not_elem_of_nil.
  - unfold cleanup_all in *. simpl.
    destruct (IH (run_cleanup sl c)) as (-> & ->).
    unfold run_cleanup.
    destruct (slot_cleanup sl) as [ch0|]; simpl; try done.
    split; [|done]. rewrite list_filter_filter.
    apply list_filter_iff. intros ch. rewrite not_elem_of_cons. tauto.
Qed.

#[local] Arguments run_setup : simpl never.

(** The setup phase opens channels with new handles only, each held by the
    slot of the effect that opened it; slots that do not run are kept. *)
Lemma setup_changed_spec (rd : Render) (sls : list Slot) (c : Client) :
  let r := setup_changed rd sls c in
  exists news,
    channels r.1 = channels c ++ news
    /\ next_handle c <= next_handle r.1
    /\ slot_effect <$> r.2 = slot_effect <$> sls
    /\ NoDup (handle <$> news)
    /\ (forall ch, ch ∈ news ->
          next_handle c <= handle ch < next_handle r.1 /\ owned_by r.2 ch)
    /\ (forall sl', sl' ∈ r.2 ->
          (sl' ∈ sls /\ changed rd sl' = false)
          \/ (forall ch, slot_cleanup sl' = Some ch ->
                ch ∈ news /\ table ch = eff_table (slot_effect sl')))
    /\ (forall sl, sl ∈ sls -> changed rd sl = false -> sl ∈ r.2).
Proof.
  revert c. induction sls as [|sl sls IH]; intros c.
  - exists []. simpl. rewrite app_nil_r. split_and!; try done.
    + apply NoDup_nil_2.
    + intros ch Hch. by apply elem_of_nil in Hch.
    + intros sl' Hsl'. by apply elem_of_nil in Hsl'.
  - cbn [setup_changed]. destruct (changed rd sl) eqn:Hchanged;
      cbn [fst snd].
    + destruct (run_setup_cases (slot_effect sl) rd c)
        as (Heff & [(Hc & Hnone) | (ch0 & Hch & Hnext & Hh & Ht & Hsome)]).
      * destruct (IH (run_setup (slot_effect sl) rd c).1)
          as (news & Hopen & Hle & Heffs & Hnd & Hnew & Hslots & Hkept).
        rewrite Hc in Hopen, Hle, Hnew, Heffs, Hslots, Hkept |- *.
        exists news. cbn [fst snd fmap list_fmap]. rewrite Heffs. split_and!; try done.
        -- intros ch Hin. destruct (Hnew ch Hin) as (Hr & sl0 & Hin0 & Hheld).
           split; [done|]. exists sl0. split; [by right|done].
        -- intros sl' Hsl'. apply elem_of_cons in Hsl' as [->|Hsl'].
           ++ right. intros ch. rewrite Hnone. discriminate.
           ++ destruct (Hslots sl' Hsl') as [(Hin & Hno)|Hyes]; [|by right].
              left. split; [by right|done].
        -- intros sl0 Hsl0 Hno. apply elem_of_cons in Hsl0 as [->|Hsl0].
           ++ congruence.
           ++ right. by apply Hkept.
      * destruct (IH (run_setup (slot_effect sl) rd c).1)
          as (news & Hopen & Hle & Heffs & Hnd & Hnew & Hslots & Hkept).
        rewrite Hch in Hopen. rewrite Hnext in Hle, Hnew.
        exists (ch0 :: news). cbn [fst snd fmap list_fmap].
        rewrite Heffs, Hopen, <- app_assoc.
        split_and!; try done.
        -- lia.
        -- apply NoDup_cons. split; [|done].
           intros Hin. apply list_elem_of_fmap in Hin as (ch & Heq & Hin).
           destruct (Hnew ch Hin) as (Hrange & _). lia.
        -- intros ch Hin. apply elem_of_cons in Hin as [->|Hin].
           ++ split; [lia|]. eexists. split; [left|]. by rewrite Heff.
           ++ destruct (Hnew ch Hin) as (Hr & sl0 & Hin0 & Hheld).
              split; [lia|]. exists sl0. split; [by right|done].
        -- intros sl' Hsl'. apply elem_of_cons in Hsl' as [->|Hsl'].
           ++ right. intros ch. rewrite Hsome. intros [= <-].
              split; [left | by rewrite Heff].
           ++ destruct (Hslots sl' Hsl') as [(Hin & Hno)|Hyes].
              ** left. split; [by right|done].
              ** right. intros ch Hheld.
                 destruct (Hyes ch Hheld) as (Hin' & Htbl').
                 split; [by right|done].
        -- intros sl0 Hsl0 Hno. apply elem_of_cons in Hsl0 as [->|Hsl0].
           ++ congruence.
           ++ right. by apply Hkept.
    + destruct (IH c)
        as (news & Hopen & Hle & Heffs & Hnd & Hnew & Hslots & Hkept).
      exists news. cbn [fst snd fmap list_fmap]. rewrite Heffs.
        split_and!; try done.
      * intros ch Hin. destruct (Hnew ch Hin) as (Hr & sl0 & Hin0 & Hheld).
        split; [done|]. exists sl0. split; [by right|done].
      * intros sl' Hsl'. apply elem_of_cons in Hsl' as [->|Hsl'].
        -- left. split; [left|done].
        -- destruct (Hslots sl' Hsl') as [(Hin & Hno)|Hyes]; [|by right].
           left. split; [by right|done].
      * intros sl0 Hsl0 Hno. apply elem_of_cons in Hsl0 as [->|Hsl0].
        -- left.
        -- right. by apply Hkept.
Qed.

Lemma held_handle_removed (rd : Render) (sls : list Slot) (sl : Slot)
    (ch : Channel) :
  sl ∈ sls -> changed rd sl = true -> slot_cleanup sl = Some ch ->
  handle ch ∈ removed rd sls.
Proof.
  intros Hin Hchanged Hheld. unfold removed.
  apply list_elem_of_fmap_2, list_elem_of_omap.
  exists sl. by rewrite Hchanged.
Qed.

(** A commit keeps the client and the slots tidy, and the channel a slot
    held before running again is no longer open afterwards. *)
Lemma commit_tidy (rd : Render) (sls : list Slot) (c : Client) :
  tidy c sls ->
  tidy (commit rd sls c).1 (commit rd sls c).2
  /\ slot_effect <$> (commit rd sls c).2 = slot_effect <$> sls
  /\ (forall sl ch, sl ∈ sls -> changed rd sl = true ->
                    slot_cleanup sl = Some ch ->
                    ch ∉ channels (commit rd sls c).1).
Proof.
  intros (Hnd & Hbelow & Hheld & Howned). unfold commit.
  destruct (cleanup_changed_spec rd sls c) as (Hclosed & Hnext).
  destruct (setup_changed_spec rd sls (cleanup_changed rd sls c))
    as (news & Hopen & Hle & Heffs & Hndnew & Hnew & Hslots & Hkept).
  rewrite Hclosed in Hopen. rewrite Hnext in Hle, Hnew.
  pose proof (proj1 (Forall_forall _ _) Hbelow) as Hbelow'.
  pose proof (proj1 (Forall_forall _ _) Hheld) as Hheld'.
  pose proof (proj1 (Forall_forall _ _) Howned) as Howned'.
  clear Hbelow Hheld Howned.
  rename Hbelow' into Hbelow, Hheld' into Hheld, Howned' into Howned.
  assert (forall ch,
            ch ∈ filter (fun ch => handle ch ∉ removed rd sls) (channels c) ->
            ch ∈ channels c /\ handle ch ∉ removed rd sls) as Hold.
  { intros ch Hin. apply list_elem_of_filter in Hin. tauto. }
  split; [|split; [done|]].
  - unfold tidy. rewrite Hopen. split_and!.
    + rewrite fmap_app. apply NoDup_app. split_and!; [|..|done].
      * eapply sublist_NoDup; [exact Hnd|].
        apply fmap_sublist, sublist_filter.
      * intros h Hin1 Hin2.
        apply list_elem_of_fmap in Hin1 as (ch1 & -> & Hin1).
        apply list_elem_of_fmap in Hin2 as (ch2 & Heq & Hin2).
        destruct (Hold ch1 Hin1) as (Hin & _).
        specialize (Hbelow ch1 Hin). destruct (Hnew ch2 Hin2) as (Hr & _).
        simpl in Hbelow. lia.
    + apply Forall_forall. intros ch Hin.
      apply elem_of_app in Hin as [Hin|Hin].
      * destruct (Hold ch Hin) as (Hin' & _). specialize (Hbelow ch Hin').
        simpl in Hbelow. lia.
      * destruct (Hnew ch Hin) as (Hr & _). lia.
    + apply Forall_forall. intros sl' Hin ch Hch.
      destruct (Hslots sl' Hin) as [(Hin' & _)|Hyes].
      * specialize (Hheld sl' Hin' ch Hch). simpl in Hheld. lia.
      * destruct (Hnew ch (proj1 (Hyes ch Hch))) as (Hr & _). lia.
    + apply Forall_forall. intros ch Hin.
      apply elem_of_app in Hin as [Hin|Hin]; [|by apply Hnew].
      destruct (Hold ch Hin) as (Hin' & Hnotrem).
      destruct (Howned ch Hin') as (sl & Hsl & Hch & Htbl).
      exists sl. split; [|done]. apply Hkept; [done|].
      destruct (changed rd sl) eqn:Hchanged; [|done].
      destruct Hnotrem. by eapply held_handle_removed.
  - intros sl ch Hsl Hchanged Hch. rewrite Hopen.
    apply not_elem_of_app. split.
    + intros Hin. destruct (Hold ch Hin) as (_ & Hnotrem).
      destruct Hnotrem. by eapply held_handle_removed.
    + intros Hin. destruct (Hnew ch Hin) as (Hr & _).
      specialize (Hheld sl Hsl ch Hch). simpl in Hheld. lia.
Qed.

(** A list without repetition, all of whose entries with [P] are equal, has
    at most one entry with [P]. *)
Lemma at_most_one {A} (P : A -> Prop) `{!forall x, Decision (P x)}
    (l : list A) :
  NoDup l ->
  (forall x y, x ∈ l -> y ∈ l -> P x -> P y -> x = y) ->
  length (filter P l) <= 1.
Proof.
  intros Hnd Hone.
  assert (NoDup (filter P l)) as Hndf by by apply NoDup_filter.
  assert (forall x, x ∈ filter P l -> x ∈ l /\ P x) as Hin.
  { intros x Hx. apply list_elem_of_filter in Hx. tauto. }
  destruct (filter P l) as [|x [|y k]]; simpl; [lia..|].
  destruct (Hin x) as (Hxl & Hx); [left|].
  destruct (Hin y) as (Hyl & Hy); [right; left|].
  apply NoDup_cons in Hndf as (Hxk & _). destruct Hxk.
  rewrite (Hone x y Hxl Hyl Hx Hy). left.
Qed.

(** With at most one entry with [P], an entry with [P] is the only one. *)
Lemma the_only_one {A} (P : A -> Prop) `{!forall x, Decision (P x)}
    (l : list A) (x : A) :
  length (filter P l) <= 1 -> x ∈ l -> P x -> filter P l = [x].
Proof.
  intros Hone Hin HP.
  assert (x ∈ filter P l) as Hx by (by apply list_elem_of_filter).
  destruct (filter P l) as [|y [|z k]]; simpl in Hone.
  - by apply elem_of_nil in Hx.
  - apply elem_of_cons in Hx as [->|Hx]; [done|]. by apply elem_of_nil in Hx.
  - lia.
Qed.

Lemma same_key_same_entry {A B} (f : A -> B) (l : list A) (x y : A) :
  NoDup (f <$> l) -> x ∈ l -> y ∈ l -> f x = f y -> x = y.
Proof.
  induction l as [|a l IH]; intros Hnd Hx Hy Heq.
  - by apply elem_of_nil in Hx.
  - rewrite fmap_cons in Hnd. apply NoDup_cons in Hnd as (Ha & Hnd).
    apply elem_of_cons in Hx as [->|Hx], Hy as [->|Hy]; [done|..].
    + destruct Ha. rewrite Heq. by apply list_elem_of_fmap_2.
    + destruct Ha. rewrite <- Heq. by apply list_elem_of_fmap_2.
    + by apply IH.
Qed.

(** A commit keeps open the channels the slots hold: the cleanup phase
    removes the channels of the slots that run again only. *)
Lemma commit_live (rd : Render) (sls : list Slot) (c : Client) :
  NoDup (eff_table <$> (slot_effect <$> sls)) ->
  tidy c sls -> live c sls ->
  live (commit rd sls c).1 (commit rd sls c).2.
Proof.
  intros Htables (Hnd & _ & _ & _) Hlive. unfold commit.
  destruct (cleanup_changed_spec rd sls c) as (Hclosed & Hnext).
  destruct (setup_changed_spec rd sls (cleanup_changed rd sls c))
    as (news & Hopen & _ & _ & _ & _ & Hslots & _).
  rewrite Hclosed in Hopen.
  pose proof (proj1 (Forall_forall _ _) Hlive) as Hheld.
  apply Forall_forall. intros sl' Hin ch Hch. rewrite Hopen.
  destruct (Hslots sl' Hin) as [(Hin' & Hsame)|Hnew].
  - destruct (Hheld sl' Hin' ch Hch) as (Hopen' & Htbl). split; [|done].
    apply elem_of_app. left. apply list_elem_of_filter. split; [|done].
    intros Hrem. unfold removed in Hrem.
    apply list_elem_of_fmap in Hrem as (ch2 & Hh & Hrem).
    apply list_elem_of_omap in Hrem as (sl2 & Hsl2 & Hch2).
    assert (changed rd sl2 = true /\ slot_cleanup sl2 = Some ch2)
      as (Hchanged2 & Hheld2).
    { revert Hch2. by destruct (changed rd sl2). }
    destruct (Hheld sl2 Hsl2 ch2 Hheld2) as (Hopen2 & Htbl2).
    assert (ch = ch2) as <-
      by (by apply (same_key_same_entry handle (channels c))).
    assert (sl' = sl2) as <-.
    { apply (same_key_same_entry (eff_table ∘ slot_effect) sls);
        [by rewrite list_fmap_compose|done|done|].
      simpl. congruence. }
    congruence.
  - destruct (Hnew ch Hch) as (Hin' & Htbl). split; [|done].
    apply elem_of_app. by right.
Qed.

(** With a user signed in, the setup opens a channel: on the table of the
    effect, under its topic, for the rows of the user. *)
Lemma setup_opens (e : EffectDef) (rd : Render) (c : Client) (u : User.t) :
  r_user rd = Some u -> User.id u ≠ "" ->
  exists ch,
    channels (run_setup e rd c).1 = channels c ++ [ch]
    /\ next_handle (run_setup e rd c).1 = S (next_handle c)
    /\ handle ch = next_handle c
    /\ table ch = eff_table e
    /\ topic ch = eff_topic e
    /\ row_filter ch = owner_filter (User.id u).
Proof.
  intros Hu Hid. unfold run_setup, setup. rewrite Hu.
  rewrite (proj2 (String.eqb_neq _ _) Hid). simpl. eauto 10.
Qed.

Lemma setup_changed_opens (rd : Render) (sls : list Slot) (sl : Slot)
    (u : User.t) :
  sl ∈ sls -> changed rd sl = true ->
  r_user rd = Some u -> User.id u ≠ "" ->
  forall c,
  exists ch,
    ch ∈ channels (setup_changed rd sls c).1
    /\ next_handle c <= handle ch
    /\ table ch = eff_table (slot_effect sl)
    /\ topic ch = eff_topic (slot_effect sl)
    /\ row_filter ch = owner_filter (User.id u).
Proof.
  intros Hin Hchanged Hu Hid.
  induction sls as [|sl0 sls IH]; intros c; [by apply elem_of_nil in Hin|].
  cbn [setup_changed]. cbv zeta. cbn [fst snd].
  apply elem_of_cons in Hin as [<-|Hin].
  - rewrite Hchanged.
    destruct (setup_opens (slot_effect sl) rd c u Hu Hid)
      as (ch & Hch & _ & Hh & Ht & Hto & Hf).
    destruct (setup_changed_spec rd sls (run_setup (slot_effect sl) rd c).1)
      as (news & Hopen & _).
    exists ch. split_and!; [|lia|done|done|done].
    rewrite Hopen, Hch. apply elem_of_app. left. apply elem_of_app.
    right. left.
  - destruct (IH Hin (if changed rd sl0
                      then run_setup (slot_effect sl0) rd c
                      else (c, sl0)).1)
      as (ch & Hopen & Hle & Hrest).
    exists ch. split; [done|]. split; [|done].
    destruct (changed rd sl0); [|done].
    destruct (run_setup_cases (slot_effect sl0) rd c)
      as (_ & [(Hc & _) | (ch0 & _ & Hnext & _)]).
    + by rewrite Hc in Hle.
    + rewrite Hnext in Hle. lia.
Qed.

(** A commit opens a channel for every effect that runs with a user signed
    in; the channel is a new one. *)
Lemma commit_opens (rd : Render) (sls : list Slot) (c : Client) (sl : Slot)
    (u : User.t) :
  sl ∈ sls -> changed rd sl = true ->
  r_user rd = Some u -> User.id u ≠ "" ->
  exists ch,
    ch ∈ channels (commit rd sls c).1
    /\ next_handle c <= handle ch
    /\ table ch = eff_table (slot_effect sl)
    /\ topic ch = eff_topic (slot_effect sl)
    /\ row_filter ch = owner_filter (User.id u).
Proof.
  intros Hin Hchanged Hu Hid. unfold commit.
  destruct (setup_changed_opens rd sls sl u Hin Hchanged Hu Hid
              (cleanup_changed rd sls c)) as (ch & Hopen & Hle & Hrest).
  destruct (cleanup_changed_spec rd sls c) as (_ & Hnext).
  rewrite Hnext in Hle. by exists ch.
Qed.

(** Unmounting a tidy screen leaves no channel open. *)
Lemma cleanup_all_closes (sls : list Slot) (c : Client) :
  tidy c sls -> channels (cleanup_all sls c) = [].
Proof.
  intros (_ & _ & _ & Howned).
  destruct (cleanup_all_spec sls c) as (-> & _).
  apply filter_no_match. eapply Forall_impl; [exact Howned|].
  intros ch (sl & Hsl & Hch & _) Hnot. apply Hnot.
  apply list_elem_of_fmap_2, list_elem_of_omap. by exists sl.
Qed.

Lemma blank_effects (effs : list EffectDef) :
  slot_effect <$> (blank <$> effs) = effs.
Proof. rewrite <- list_fmap_compose. apply list_fmap_id. Qed.

Lemma blank_tidy (effs : list EffectDef) (c : Client) :
  channels c = [] -> tidy c (blank <$> effs) /\ live c (blank <$> effs).
Proof.
  intros Hnone. unfold tidy, live. rewrite Hnone. split_and!.
  - apply NoDup_nil_2.
  - constructor.
  - apply Forall_fmap, Forall_true. intros e ch. discriminate.
  - constructor.
  - apply Forall_fmap, Forall_true. intros e ch. discriminate.
Qed.

Lemma step_consistent (effs : list EffectDef) (st : Screen) (ev : Event) :
  NoDup (eff_table <$> effs) ->
  consistent effs st -> consistent effs (step effs st ev).
Proof.
  intros Htables. unfold consistent, step.
  destruct ev as [rd|rd|], (slots st) as [sls|] eqn:Hslots;
    rewrite ?Hslots; try done; simpl.
  - intros Hnone.
    destruct (blank_tidy effs (client st) Hnone) as (Htidy & Hlive).
    destruct (commit_tidy rd (blank <$> effs) (client st) Htidy)
      as (Ht & He & _).
    split_and!; [by rewrite He, blank_effects | done |].
    apply commit_live; [by rewrite blank_effects|done..].
  - intros (Heffs & Htidy & Hlive).
    destruct (commit_tidy rd sls (client st) Htidy) as (Ht & He & _).
    split_and!; [congruence | done |].
    apply commit_live; [by rewrite Heffs|done..].
  - intros (_ & Htidy & _). by apply cleanup_all_closes.
Qed.

Lemma run_consistent (effs : list EffectDef) (evs : list Event) :
  NoDup (eff_table <$> effs) -> consistent effs (run effs evs).
Proof.
  intros Htables.
  induction evs as [|ev evs IH] using rev_ind; [done|].
  unfold run in *. rewrite foldl_snoc. by apply step_consistent.
Qed.

(** On a consistent screen whose effects subscribe to different tables, at
    most one channel is open per table and owner. *)
Lemma consistent_at_most_one (effs : list EffectDef) (st : Screen)
    (tbl uid : string) :
  NoDup (eff_table <$> effs) -> consistent effs st ->
  length (active tbl uid (client st)) <= 1.
Proof.
  intros Htables Hcons. unfold consistent in Hcons. unfold active.
  destruct (slots st) as [sls|]; [|rewrite Hcons; simpl; lia].
  destruct Hcons as (Heffs & (Hnd & _ & _ & Howned) & _).
  pose proof (proj1 (Forall_forall _ _) Howned) as Howned'.
  clear Howned. rename Howned' into Howned.
  apply at_most_one; [by apply NoDup_fmap_1 in Hnd|].
  intros ch1 ch2 Hin1 Hin2 (Ht1 & _) (Ht2 & _).
  destruct (Howned ch1 Hin1) as (sl1 & Hsl1 & Hch1 & Htb1).
  destruct (Howned ch2 Hin2) as (sl2 & Hsl2 & Hch2 & Htb2).
  assert (sl1 = sl2) as Hsame.
  { apply (same_key_same_entry (eff_table ∘ slot_effect) sls);
      [|done|done|simpl; congruence].
    by rewrite list_fmap_compose, Heffs. }
  congruence.
Qed.

(** After a commit on a consistent screen, an effect that ran with a user
    signed in has exactly one channel open on its table for the rows of
    that user, and the channel was not open before. *)
Lemma commit_subscribes (effs : list EffectDef) (st st' : Screen)
    (rd : Render) (sls : list Slot) (sl : Slot) (u : User.t) :
  NoDup (eff_table <$> effs) -> consistent effs st' ->
  Forall (fun ch => handle ch < next_handle (client st))
    (channels (client st)) ->
  client st' = (commit rd sls (client st)).1 ->
  sl ∈ sls -> changed rd sl = true ->
  r_user rd = Some u -> User.id u ≠ "" ->
  exists ch,
    active (eff_table (slot_effect sl)) (User.id u) (client st') = [ch]
    /\ (ch ∉ channels (client st))
    /\ topic ch = eff_topic (slot_effect sl).
Proof.
  intros Htables Hcons Hbelow Hclient Hin Hchanged Hu Hid.
  destruct (commit_opens rd sls (client st) sl u Hin Hchanged Hu Hid)
    as (ch & Hopen & Hle & Ht & Hto & Hf).
  exists ch. split_and!; [| |done].
  - unfold active. apply the_only_one.
    + by apply (consistent_at_most_one effs).
    + by rewrite Hclient.
    + done.
  - intros Hold.
    pose proof (proj1 (Forall_forall _ _) Hbelow ch Hold) as Hlt.
    simpl in Hlt. lia.
Qed.

(** C8.  On a screen whose effects subscribe to different tables (the two
    of ExerciseForge, the one of Dashboard), after any history of mounts,
    renders and unmounts:
    - at most one channel is open per table and owner, and the channel a
      slot holds for its cleanup is open, on the table of its effect;
    - when an effect runs again, the channel it held is removed, and with
      a user signed in a channel that was not open before is opened in its
      place: exactly one is then open on the table for the rows of that
      user;
    - mounting with a user signed in opens exactly one channel per effect;
    - unmounting leaves no channel open, whatever the state. *)
Theorem C8_one_subscription_per_table_and_owner
    (effs : list EffectDef) (evs : list Event) :
  NoDup (eff_table <$> effs) ->
  let st := run effs evs in
  (forall tbl uid, length (active tbl uid (client st)) <= 1)
  /\ (forall sls sl ch,
        slots st = Some sls -> sl ∈ sls -> slot_cleanup sl = Some ch ->
        ch ∈ channels (client st)
        /\ table ch = eff_table (slot_effect sl))
  /\ (forall rd sls sl,
        slots st = Some sls -> sl ∈ sls -> changed rd sl = true ->
        let st' := step effs st (Rerender rd) in
        (forall ch, slot_cleanup sl = Some ch -> ch ∉ channels (client st'))
        /\ (forall u,
              r_user rd = Some u -> User.id u ≠ "" ->
              exists ch,
                active (eff_table (slot_effect sl)) (User.id u) (client st')
                = [ch]
                /\ (ch ∉ channels (client st))
                /\ topic ch = eff_topic (slot_effect sl))
        /\ (forall tbl uid, length (active tbl uid (client st')) <= 1))
  /\ (forall rd e u,
        slots st = None -> e ∈ effs ->
        r_user rd = Some u -> User.id u ≠ "" ->
        exists ch,
          active (eff_table e) (User.id u)
            (client (step effs st (Mount rd))) = [ch]
          /\ topic ch = eff_topic e)
  /\ channels (client (step effs st Unmount)) = [].
Proof.
  intros Htables st. pose proof (run_consistent effs evs Htables) as Hcons.
  fold st in Hcons. split_and!.
  - intros tbl uid. by apply (consistent_at_most_one effs).
  - intros sls sl ch Hslots Hsl Hch.
    unfold consistent in Hcons. rewrite Hslots in Hcons.
    destruct Hcons as (_ & _ & Hlive).
    by apply (proj1 (Forall_forall _ _) Hlive sl Hsl ch).
  - intros rd sls sl Hslots Hsl Hchanged st'.
    pose proof (step_consistent effs st (Rerender rd) Htables Hcons)
      as Hafter. fold st' in Hafter.
    assert (client st' = (commit rd sls (client st)).1) as Hclient
      by (subst st'; unfold step; by rewrite Hslots).
    unfold consistent in Hcons. rewrite Hslots in Hcons.
    destruct Hcons as (_ & Htidy & _). split_and!.
    + intros ch Hch. rewrite Hclient.
      destruct (commit_tidy rd sls (client st) Htidy) as (_ & _ & Hgone).
      by eapply Hgone.
    + intros u Hu Hid. destruct Htidy as (_ & Hbelow & _).
      by apply (commit_subscribes effs st st' rd sls sl u).
    + intros tbl uid. by apply (consistent_at_most_one effs).
  - intros rd e u Hslots He Hu Hid.
    pose proof (step_consistent effs st (Mount rd) Htables Hcons) as Hafter.
    assert (client (step effs st (Mount rd))
            = (commit rd (blank <$> effs) (client st)).1) as Hclient
      by (unfold step; by rewrite Hslots).
    unfold consistent in Hcons. rewrite Hslots in Hcons.
    destruct (commit_subscribes effs st (step effs st (Mount rd)) rd
                (blank <$> effs) (blank e) u) as (ch & Hone & _ & Hto);
      try done.
    + rewrite Hcons. constructor.
    + by apply list_elem_of_fmap_2.
    + by exists ch.
  - pose proof (step_consistent effs st Unmount Htables Hcons) as Hafter.
    unfold consistent, step in *.
    destruct (slots st) as [sls|]; simpl in *; done.
Qed.

Lemma C8_witness :
  let mounted := run Dashboard_effects [Mount (signed_in "" None)] in
  (exists ch,
     active "exams" "t1"
       (client (step ExerciseForge_effects (run ExerciseForge_effects [])
                  (Mount (signed_in "" None)))) = [ch]
     /\ topic ch = "exams")
  /\ (exists ch,
        active "reports" "t1"
          (client (step Dashboard_effects mounted
                     (Rerender (signed_in "p1" None)))) = [ch]
        /\ (ch ∉ channels (client mounted)))
  /\ (exists ch,
        active "reports" "t1" (client (run Dashboard_effects a_visit)) = [ch])
  /\ channels (client (step Dashboard_effects
                         (run Dashboard_effects a_visit) Unmount))
     = [].
Proof.
  intros mounted.
  assert (NoDup (eff_table <$> ExerciseForge_effects)) as Hforge
    by (apply (bool_decide_unpack _); vm_compute; exact I).
  assert (NoDup (eff_table <$> Dashboard_effects)) as Hdash
    by (apply (bool_decide_unpack _); vm_compute; exact I).
  split_and!.
  - destruct (C8_one_subscription_per_table_and_owner
                ExerciseForge_effects [] Hforge) as (_ & _ & _ & Hmount & _).
    apply (Hmount (signed_in "" None) exams_effect teacher);
      [reflexivity | right; left | reflexivity | discriminate].
  - destruct (C8_one_subscription_per_table_and_owner
                Dashboard_effects [Mount (signed_in "" None)] Hdash)
      as (_ & _ & Hagain & _).
    destruct (Hagain (signed_in "p1" None) _ _ eq_refl
                (list_elem_of_here _ _) eq_refl) as (_ & Hnew & _).
    destruct (Hnew teacher eq_refl) as (ch & Hone & Hfresh & _);
      [discriminate|].
    by exists ch.
  - destruct (C8_one_subscription_per_table_and_owner
                Dashboard_effects a_visit Hdash) as (Hmost & Hheld & _).
    destruct (Hheld _ _ _ eq_refl (list_elem_of_here _ _) eq_refl)
      as (Hopen & _).
    eexists. unfold active.
    apply the_only_one; [apply Hmost | exact Hopen | by split].
  - apply (C8_one_subscription_per_table_and_owner
             Dashboard_effects a_visit Hdash).
Defined.

(** * Further properties of the code *)

(** ** Selecting an exam *)

(** The exam lookup, run from any screen state: the screen is untouched and
    the answer depends on the world alone. *)
Lemma exams_get_world (id : string) (u : State) (w : World) :
  exists w' r,
    (forall u', database.exams.get id {| ui := u'; world := w |}
                = ({| ui := u'; world := w' |}, r))
    /\ toasts w' = toasts w.
Proof.
  unfold database.exams.get, mbind, M_bind, store_call; simpl.
  destruct (faults w) as [|[|e|] fs]; simpl.
  - destruct (filter _ _) as [|c [|c' l]]; simpl; eauto 6.
  - destruct (filter _ _) as [|c [|c' l]]; simpl; eauto 6.
  - eauto 6.
  - eauto 6.
Qed.

(** X1.  Selecting an exam the store holds: the fetched row becomes the
    selection, its content fills the exam-content slot and the buffer and is
    cached under the id, correction, chat and mode are reset, and the
    loading flag is cleared. *)
Theorem select_loads_the_exam (s : Sys) (id : string) (row : Exam.t) :
  id ≠ "" ->
  all_go_through 1 (faults (world s)) = true ->
  filter (fun e => Exam.id e = id) (exams_tbl (remote (world s))) = [row] ->
  let s' := after (select_exam (Some id)) s in
  selectedExam (ui s') = Some row
  /\ examContent (ui s') = Exam.content row
  /\ editableContent (ui s') = Exam.content row
  /\ examContentCache (ui s') !! id = Some (Exam.content row)
  /\ correction (ui s') = None /\ correctionContent (ui s') = ""
  /\ chatMessages (ui s') = [] /\ mode (ui s') = edit
  /\ isCreatingNew (ui s') = false /\ isLoadingContent (ui s') = false
  /\ exams (ui s') = exams (ui s)
  /\ toasts (world s') = toasts (world s).
Proof.
  intros Hid Hgo Hrow.
  unfold after, select_exam, dispatch, handleExamSelect.
  replace (String.eqb id "") with false
    by (symmetry; by apply String.eqb_neq).
  unfold finally, try_catch, database.exams.get, mbind, M_bind.
  destruct (decide (newExamId (ui s) = Some id)) as [Hnew|Hnew]; simpl.
  - unfold store_call; simpl.
    destruct (faults (world s)) as [|[|e|] fs]; try discriminate; simpl;
      rewrite Hrow; simpl; split_and!; try done; apply lookup_insert_eq.
  - unfold store_call; simpl.
    destruct (faults (world s)) as [|[|e|] fs]; try discriminate; simpl;
      rewrite Hrow; simpl; split_and!; try done; apply lookup_insert_eq.
Qed.

Lemma select_loads_the_exam_witness :
  selectedExam (ui (after (select_exam (Some "e1")) fresh_screen))
  = Some algebra.
Proof.
  apply (select_loads_the_exam fresh_screen "e1" algebra);
    [discriminate | reflexivity | reflexivity].
Defined.

(** X2.  Selecting never leaves the loading flag set, and an exam that cannot be
    fetched (no such row, an error answer, a failed request) leaves the
    selection, both content slots, the buffer, the correction, the chat and
    the mode as they were and shows the failure notification. *)
Theorem select_failure_keeps_the_selection (s : Sys) (examId : option string) :
  let s' := after (select_exam examId) s in
  isLoadingContent (ui s') = false
  /\ (forall id, examId = Some id -> id ≠ "" ->
      (forall row, result (database.exams.get id) s ≠ Returned (Some row)) ->
      selectedExam (ui s') = selectedExam (ui s)
      /\ examContent (ui s') = examContent (ui s)
      /\ editableContent (ui s') = editableContent (ui s)
      /\ correction (ui s') = correction (ui s)
      /\ correctionContent (ui s') = correctionContent (ui s)
      /\ chatMessages (ui s') = chatMessages (ui s)
      /\ mode (ui s') = mode (ui s)
      /\ examContentCache (ui s') = examContentCache (ui s)
      /\ toasts (world s')
         = toasts (world s)
           ++ [ToastError "Failed to load exam. Please try again."]).
Proof.
  unfold after, result, select_exam, dispatch, handleExamSelect.
  destruct examId as [id|]; [|by split].
  destruct (String.eqb id "") eqn:Hempty.
  { split; [done|]. intros id' [= <-] Hid.
    by apply String.eqb_neq in Hid; rewrite Hid in Hempty. }
  unfold finally, try_catch, mbind, M_bind.
  destruct s as [u w]. simpl.
  destruct (exams_get_world id u w) as (w' & r & Hget & Htoasts).
  destruct (decide (newExamId u = Some id)) as [Hnew|Hnew]; simpl;
    rewrite Hget; (split; [by destruct r as [[row|]|e]|]);
    intros id' [= <-] _ Hnone; rewrite Hget in Hnone; simpl in Hnone;
    destruct r as [[row|]|e]; simpl; rewrite ?Htoasts; try done;
    by destruct (Hnone row).
Qed.

Lemma select_failure_keeps_the_selection_witness :
  selectedExam (ui (after (select_exam (Some "e9")) algebra_selected))
  = Some algebra
  /\ toasts (world (after (select_exam (Some "e9")) algebra_selected))
     = [ToastError "Failed to load exam. Please try again."].
Proof.
  destruct (select_failure_keeps_the_selection algebra_selected (Some "e9"))
    as (_ & Hkeep).
  destruct (Hkeep "e9" eq_refl) as (Hsel & _ & _ & _ & _ & _ & _ & _ & Htoast).
  - discriminate.
  - intros row. vm_compute. discriminate.
  - split; [by rewrite Hsel | by rewrite Htoast].
Defined.

(** X3.  "Create New Exam" ([handleExamSelect(null)], or an empty id): the
    selection and everything that depends on it are cleared, the screen is
    in creating mode, and the store is not asked anything. *)
Theorem select_nothing_starts_a_new_exam (s : Sys) (examId : option string) :
  truthy examId = false ->
  let s' := after (select_exam examId) s in
  creating_new (ui s')
  /\ isLoadingContent (ui s') = false
  /\ exams (ui s') = exams (ui s)
  /\ examContentCache (ui s') = examContentCache (ui s)
  /\ world s' = world s.
Proof.
  intros Hfalsy. unfold after, select_exam, dispatch, handleExamSelect.
  destruct examId as [id|]; simpl in Hfalsy.
  - apply negb_false_iff in Hfalsy. rewrite Hfalsy. by destruct s.
  - by destruct s.
Qed.

Lemma select_nothing_starts_a_new_exam_witness :
  creating_new (ui (after (select_exam None) algebra_in_progress)).
Proof.
  apply (select_nothing_starts_a_new_exam algebra_in_progress None eq_refl).
Defined.

(** ** Creating an exam through the chat *)

(** X4.  In creating mode, when the webhook answers with the id of the exam it
    created and the store holds that row: the row becomes the selection, its
    content fills the exam-content slot, the buffer and the cache, it is put
    in front of the list, creating mode ends, and the chat holds the message
    sent followed by the answer.  The webhook was called in mode "create",
    then the row was fetched. *)
Theorem chat_creates_and_selects_the_exam
    (s : Sys) (usr : User.t) (answer : WebhookData) (newId : string)
    (row : Exam.t) :
  user (ui s) = Some usr ->
  trim (message (ui s)) ≠ "" ->
  isCreatingNew (ui s) = true ->
  mode (ui s) = edit ->
  examId answer = Some newId -> newId ≠ "" ->
  all_go_through 1 (faults (world s)) = true ->
  filter (fun e => Exam.id e = newId) (exams_tbl (remote (world s))) = [row] ->
  let s' := after (send (FetchResolved true (Some answer))) s in
  selectedExam (ui s') = Some row
  /\ examContent (ui s') = Exam.content row
  /\ editableContent (ui s') = Exam.content row
  /\ examContentCache (ui s') !! Exam.id row = Some (Exam.content row)
  /\ exams (ui s') = row :: exams (ui s)
  /\ examListCache (ui s') = row :: exams (ui s)
  /\ isCreatingNew (ui s') = false
  /\ isSendingMessage (ui s') = false
  /\ message (ui s') = ""
  /\ chatMessages (ui s')
     = without_typing (chatMessages (ui s))
       ++ [{| msg_content := message (ui s); isUser := true;
              msg_id := None |};
           {| msg_content := output answer; isUser := false;
              msg_id := None |}]
  /\ toasts (world s') = toasts (world s) ++ [ToastSuccess "New exam created!"]
  /\ calls (world s')
     = calls (world s)
       ++ [WebhookPost
             (sel ← selectedExam (ui s);
              if String.eqb (Exam.id sel) "" then None else Some (Exam.id sel))
             (User.id usr) (trim (message (ui s))) "create"
             (corr ← correction (ui s);
              if String.eqb (Correction.id corr) "" then None
              else Some (Correction.id corr));
           ExamsSelectById newId].
Proof.
  intros Husr Htext Hnew Hmode Hanswer HnewId Hgo Hrow.
  unfold after, send, dispatch, handleSendMessage. rewrite Husr.
  replace (String.eqb (trim (message (ui s))) "") with false
    by (symmetry; by apply String.eqb_neq).
  rewrite Hnew, Hmode. rewrite andb_false_r. cbn [orb andb].
  assert (truthy (Some newId) = true) as Htruthy
    by (simpl; apply negb_true_iff; by apply String.eqb_neq).
  unfold finally, try_catch, fetch_webhook, database.exams.get, store_call,
    mbind, M_bind.
  simpl. rewrite Hanswer, Htruthy.
  destruct (faults (world s)) as [|[|e|] fs]; try discriminate; simpl;
    rewrite Hrow; simpl; rewrite sent_then_failed, <- app_assoc; simpl;
    (split_and!; try done; try apply lookup_insert_eq);
    by rewrite <- app_assoc.
Qed.

Lemma chat_creates_and_selects_the_exam_witness :
  let asked := after (type_message "an algebra quiz")
                 (after (select_exam None) fresh_screen) in
  let answer := {| output := "Here it is."; examId := Some "e1";
                   correctionId := None |} in
  selectedExam (ui (after (send (FetchResolved true (Some answer))) asked))
  = Some algebra
  /\ exams (ui (after (send (FetchResolved true (Some answer))) asked))
     = [algebra].
Proof.
  intros asked answer.
  destruct (chat_creates_and_selects_the_exam asked teacher answer "e1"
              algebra) as (Hsel & _ & _ & _ & Hlist & _);
    try reflexivity; try discriminate.
  split; [exact Hsel | exact Hlist].
Defined.

(** ** Loading the list *)

Lemma insert_desc_perm {A} (key : A -> nat) (x : A) (l : list A) :
  insert_desc key x l ≡ₚ x :: l.
Proof.
  induction l as [|y l IH]; simpl; [done|].
  destruct (Nat.leb (key y) (key x)); [done|].
  by rewrite IH, Permutation_swap.
Qed.

Lemma order_desc_perm {A} (key : A -> nat) (l : list A) :
  order_desc key l ≡ₚ l.
Proof.
  induction l as [|x l IH]; simpl; [done|].
  unfold order_desc in *. simpl. by rewrite insert_desc_perm, IH.
Qed.

Lemma insert_desc_sorted {A} (key : A -> nat) (x : A) (l : list A) :
  StronglySorted (fun a b => key b <= key a) l ->
  StronglySorted (fun a b => key b <= key a) (insert_desc key x l).
Proof.
  induction 1 as [|y l Hsorted IH Hall]; simpl.
  - repeat constructor.
  - destruct (Nat.leb (key y) (key x)) eqn:Hle.
    + apply Nat.leb_le in Hle. constructor; [by constructor|].
      constructor; [done|]. eapply Forall_impl; [exact Hall|].
      simpl. intros z Hz. lia.
    + apply Nat.leb_gt in Hle. constructor; [done|].
      rewrite insert_desc_perm. constructor; [lia|done].
Qed.

Lemma order_desc_sorted {A} (key : A -> nat) (l : list A) :
  StronglySorted (fun a b => key b <= key a) (order_desc key l).
Proof.
  induction l as [|x l IH]; [constructor|].
  unfold order_desc in *. simpl. by apply insert_desc_sorted.
Qed.

(** X5.  [loadExams] always ends with the loading flag cleared.  Without
    connection it asks the store nothing and keeps the list; when the query
    goes through, the list and its cache hold every exam row of the store
    once, most recently updated first; when the store fails the list is kept
    and the failure is notified. *)
Theorem loadExams_outcomes (s : Sys) (isConnected : bool) :
  let s' := after (loadExams isConnected) s in
  loading (ui s') = false
  /\ (isConnected = false ->
      calls (world s') = calls (world s) /\ exams (ui s') = exams (ui s)
      /\ toasts (world s')
         = toasts (world s)
           ++ [ToastError "Unable to connect to the database. Please check your connection and try again."])
  /\ (isConnected = true -> all_go_through 1 (faults (world s)) = true ->
      exams (ui s') ≡ₚ exams_tbl (remote (world s))
      /\ StronglySorted (fun a b => Exam.updated_at b <= Exam.updated_at a)
           (exams (ui s'))
      /\ examListCache (ui s') = exams (ui s')
      /\ toasts (world s') = toasts (world s))
  /\ (isConnected = true -> all_go_through 1 (faults (world s)) = false ->
      exams (ui s') = exams (ui s)
      /\ toasts (world s')
         = toasts (world s)
           ++ [ToastError "Failed to load exams. Please check your connection and try again."]).
Proof.
  unfold after, loadExams, finally, try_catch, store_call, mbind, M_bind.
  destruct isConnected; simpl.
  - destruct (faults (world s)) as [|[|e|] fs]; simpl;
      (split; [done|]); (split; [discriminate|]);
      (split; [|try done; by intros _ [=]]); intros _ Hgo; try discriminate.
    + split_and!; try done;
        [apply order_desc_perm | apply order_desc_sorted].
    + split_and!; try done;
        [apply order_desc_perm | apply order_desc_sorted].
  - split; [done|]. split; [done|]. split; discriminate.
Qed.

Lemma loadExams_outcomes_witness :
  exams (ui (after (loadExams true) fresh_screen)) ≡ₚ [algebra]
  /\ exams (ui (after (loadExams false) fresh_screen)) = [].
Proof.
  destruct (loadExams_outcomes fresh_screen true) as (_ & _ & Hok & _).
  destruct (loadExams_outcomes fresh_screen false) as (_ & Hoff & _).
  split.
  - apply (Hok eq_refl eq_refl).
  - apply (Hoff eq_refl).
Defined.

(** ** More on saving *)

(** X6.  A save the store refuses (error answer or failed request) changes
    nothing on the screen nor in the store and shows the failure
    notification of the mode. *)
Theorem save_refused_changes_nothing (s : Sys) (sel : Exam.t) :
  selectedExam (ui s) = Some sel ->
  all_go_through 1 (faults (world s)) = false ->
  let s' := after save s in
  ui s' = ui s
  /\ remote (world s') = remote (world s)
  /\ toasts (world s')
     = toasts (world s)
       ++ [ToastError
             match mode (ui s) with
             | edit => "Failed to save exam. Please try again."
             | correction_mode => "Failed to save correction. Please try again."
             end].
Proof.
  intros Hsel Hrefused. unfold after, save, dispatch, handleSave.
  rewrite Hsel.
  unfold try_catch, database.exams.update, database.corrections.update,
    database.corrections.create, store_call, mbind, M_bind.
  destruct s as [u [r fs cs ts]]. simpl in *.
  destruct fs as [|[|e|] fs]; try discriminate Hrefused;
    by destruct (mode u), (correction u) as [corr|].
Qed.

Lemma save_refused_changes_nothing_witness :
  let refused :=
    {| ui := ui draft_typed;
       world := {| remote := remote (world draft_typed);
                   faults := [ErrorResponse RLS_DENIED];
                   calls := []; toasts := [] |} |} in
  ui (after save refused) = ui refused
  /\ toasts (world (after save refused))
     = [ToastError "Failed to save correction. Please try again."].
Proof.
  intros refused.
  destruct (save_refused_changes_nothing refused algebra eq_refl eq_refl)
    as (Hui & _ & Htoast).
  split; [exact Hui | exact Htoast].
Defined.

Lemma filter_exams_with_content (id content : string) (es : list Exam.t) :
  filter (fun e => Exam.id e = id) (exams_with_content id content es)
  = Exam.with_content content <$> filter (fun e => Exam.id e = id) es.
Proof.
  unfold exams_with_content. induction es as [|e es IH]; [done|].
  rewrite fmap_cons. destruct (decide (Exam.id e = id)) as [Heq|Hne].
  - rewrite !filter_cons_True by done. rewrite fmap_cons. by f_equal.
  - by rewrite !filter_cons_False.
Qed.

(** X7.  A save in edit mode that reaches the one row of the selected exam:
    the exam-content slot and the cache entry of the exam take the buffer,
    the exam is replaced in the list (and its cache) by the stored row,
    which holds the buffer, and nothing else of the list changes. *)
Theorem save_in_edit_mode_syncs_the_screen
    (s : Sys) (sel row : Exam.t) :
  selectedExam (ui s) = Some sel ->
  mode (ui s) = edit ->
  all_go_through 1 (faults (world s)) = true ->
  filter (fun e => Exam.id e = Exam.id sel) (exams_tbl (remote (world s)))
  = [row] ->
  let buffer := editableContent (ui s) in
  let stored := Exam.with_content buffer row in
  let s' := after save s in
  examContent (ui s') = buffer
  /\ examContentCache (ui s') !! Exam.id sel = Some buffer
  /\ exams (ui s')
     = (fun exam => if decide (Exam.id exam = Exam.id sel) then stored
                    else exam) <$> exams (ui s)
  /\ examListCache (ui s') = exams (ui s')
  /\ editableContent (ui s') = buffer
  /\ toasts (world s')
     = toasts (world s) ++ [ToastSuccess "Exam saved successfully"].
Proof.
  intros Hsel Hmode Hgo Hrow.
  assert (Exam.id row = Exam.id sel) as Hid.
  { assert (row ∈ filter (fun e => Exam.id e = Exam.id sel)
                     (exams_tbl (remote (world s)))) as Hin
      by (rewrite Hrow; left).
    by apply list_elem_of_filter in Hin as [? _]. }
  unfold after, save, dispatch, handleSave. rewrite Hsel, Hmode.
  unfold try_catch, database.exams.update, mbind, M_bind.
  destruct (store_call_through
              (ExamsUpdateContent (Exam.id sel) (editableContent (ui s)))
              (update_exam_content (Exam.id sel) (editableContent (ui s)))
              s 0 Hgo) as (fs & -> & _).
  unfold update_exam_content. simpl.
  rewrite filter_exams_with_content, Hrow. simpl.
  unfold updateExamInList. simpl. rewrite Hid.
  split_and!; try done. apply lookup_insert_eq.
Qed.

Lemma save_in_edit_mode_syncs_the_screen_witness :
  let edited := after (type_texts ["x + 1 = 3"])
                  (after (select_exam (Some "e1"))
                     (after (loadExams true) fresh_screen)) in
  exams (ui (after save edited))
  = [Exam.mk "e1" "Algebra" "x + 1 = 3" "t1" 7].
Proof.
  intros edited.
  destruct (save_in_edit_mode_syncs_the_screen edited algebra algebra
              eq_refl eq_refl eq_refl eq_refl) as (_ & _ & -> & _).
  reflexivity.
Defined.

(** Typing touches the buffer only. *)
Lemma type_texts_buffer_only (texts : list string) (s : Sys) :
  let s' := after (type_texts texts) s in
  world s' = world s
  /\ selectedExam (ui s') = selectedExam (ui s)
  /\ mode (ui s') = mode (ui s)
  /\ correction (ui s') = correction (ui s)
  /\ examContent (ui s') = examContent (ui s).
Proof.
  revert s. induction texts as [|text texts IH]; intros s; [done|].
  unfold after in *. simpl. unfold mbind, M_bind. simpl.
  apply (IH {| ui := put_editableContent text (ui s); world := world s |}).
Qed.

(** X8.  Two saves in correction mode on an exam without correction: the first
    creates the correction row, the second, whatever was typed in between,
    updates that same row instead of creating another one. *)
Theorem second_save_updates_the_created_correction
    (s : Sys) (sel : Exam.t) (signed : User.t) (typed : list string) :
  selectedExam (ui s) = Some sel ->
  mode (ui s) = correction_mode ->
  correction (ui s) = None ->
  auth_user (remote (world s)) = Some signed ->
  all_go_through 2 (faults (world s)) = true ->
  let s1 := after (type_texts typed) (after save s) in
  let s2 := after save s1 in
  let created :=
    Correction.mk (row_id (next_row (remote (world s)))) (Exam.id sel)
      (editableContent (ui s)) (User.id signed) in
  calls (world s2)
  = calls (world s)
    ++ [CorrectionsInsert (editableContent (ui s)) (Exam.id sel);
        CorrectionsUpdateContent (Correction.id created)
          (editableContent (ui s1))]
  /\ length (corrections_tbl (remote (world s2)))
     = S (length (corrections_tbl (remote (world s))))
  /\ last (corrections_tbl (remote (world s2)))
     = Some (Correction.with_content (editableContent (ui s1)) created).
Proof.
  intros Hsel Hmode Hcorr Hauth Hgo s1 s2 created.
  assert (selectedExam (ui (after save s)) = Some sel
          /\ mode (ui (after save s)) = correction_mode
          /\ correction (ui (after save s)) = Some created
          /\ calls (world (after save s))
             = calls (world s)
               ++ [CorrectionsInsert (editableContent (ui s)) (Exam.id sel)]
          /\ corrections_tbl (remote (world (after save s)))
             = corrections_tbl (remote (world s)) ++ [created]
          /\ all_go_through 1 (faults (world (after save s))) = true)
    as (Hsel1 & Hmode1 & Hcorr1 & Hcalls1 & Htbl1 & Hgo1).
  { unfold after, save, dispatch, handleSave. rewrite Hsel, Hmode, Hcorr.
    unfold try_catch, database.corrections.create, mbind, M_bind.
    destruct (store_call_through
                (CorrectionsInsert (editableContent (ui s)) (Exam.id sel))
                (insert_correction (editableContent (ui s)) (Exam.id sel))
                s 1 Hgo) as (fs & -> & Hfs).
    unfold insert_correction, owner. rewrite Hauth. by simpl. }
  destruct (type_texts_buffer_only typed (after save s))
    as (Hw & Hsel' & Hmode' & Hcorr' & _).
  fold s1 in Hw, Hsel', Hmode', Hcorr'.
  rewrite Hsel1 in Hsel'. rewrite Hmode1 in Hmode'. rewrite Hcorr1 in Hcorr'.
  rewrite <- Hw in Hcalls1, Htbl1, Hgo1.
  subst s2. unfold after at 1 2 3. unfold save, dispatch, handleSave.
  rewrite Hsel', Hmode', Hcorr'.
  unfold try_catch, database.corrections.update, mbind, M_bind.
  destruct (store_call_through
              (CorrectionsUpdateContent (Correction.id created)
                 (editableContent (ui s1)))
              (update_correction_content (Correction.id created)
                 (editableContent (ui s1)))
              s1 0 Hgo1) as (fs & -> & _).
  unfold update_correction_content. simpl.
  assert (forall st : Sys * Outcome unit,
            world st.1
            = {| remote :=
                   put_tables (pupils_tbl (remote (world s1)))
                     (reports_tbl (remote (world s1)))
                     (exams_tbl (remote (world s1)))
                     (corrections_with_content (Correction.id created)
                        (editableContent (ui s1))
                        (corrections_tbl (remote (world s1))))
                     0 (remote (world s1));
                 faults := fs;
                 calls := calls (world s1)
                          ++ [CorrectionsUpdateContent (Correction.id created)
                                (editableContent (ui s1))];
                 toasts := toasts (world st.1) |} ->
            calls (world st.1)
            = calls (world s)
              ++ [CorrectionsInsert (editableContent (ui s)) (Exam.id sel);
                  CorrectionsUpdateContent (Correction.id created)
                    (editableContent (ui s1))]
            /\ length (corrections_tbl (remote (world st.1)))
               = S (length (corrections_tbl (remote (world s))))
            /\ last (corrections_tbl (remote (world st.1)))
               = Some (Correction.with_content (editableContent (ui s1))
                         created)) as Hfinish.
  { intros st ->. simpl. rewrite Hcalls1, Htbl1, <- app_assoc.
    split; [done|]. unfold corrections_with_content.
    rewrite fmap_app, length_app, length_fmap. simpl.
    split; [lia|]. rewrite last_snoc. by rewrite decide_True. }
  apply Hfinish.
  destruct (filter _ _) as [|c [|c' l]]; by simpl.
Qed.

Lemma second_save_updates_the_created_correction_witness :
  corrections_tbl (remote (world (after save
                                    (after (type_texts ["x = 1, checked"])
                                       (after save draft_typed)))))
  = [Correction.mk "row-0" "e1" "x = 1, checked" "t1"].
Proof.
  destruct (second_save_updates_the_created_correction draft_typed algebra
              teacher ["x = 1, checked"] eq_refl eq_refl eq_refl eq_refl
              eq_refl) as (_ & Hlen & Hlast).
  destruct (corrections_tbl _) as [|c [|c' l]]; try discriminate Hlen.
  simpl in Hlast. by injection Hlast as ->.
Defined.

(** ** Asking for a correction *)

(** X9.  [handleCreateCorrection] with an exam selected and a user signed in:
    it calls the webhook once, in mode "create_correction" for the selected
    exam; the "submitted" notification is shown before the call, whatever
    its outcome; the sending flag is cleared at the end; and the screen
    keeps waiting for the correction exactly when the webhook answered with
    a success status. *)
Theorem request_correction_outcomes
    (s : Sys) (sel : Exam.t) (usr : User.t) (reply : FetchOutcome) :
  selectedExam (ui s) = Some sel ->
  user (ui s) = Some usr ->
  let s' := after (request_correction reply) s in
  let accepted := match reply with
                  | FetchResolved true _ => true
                  | _ => false
                  end in
  isSendingMessage (ui s') = false
  /\ isWaitingForCorrection (ui s') = accepted
  /\ calls (world s')
     = calls (world s)
       ++ [WebhookPost (Some (Exam.id sel)) (User.id usr)
             "Please create a detailed correction of the exam that is helpful, with step by step explanations of the solution steps."
             "create_correction" None]
  /\ toasts (world s')
     = toasts (world s)
       ++ ToastSuccess
            "Correction request submitted! Processing will begin shortly."
          :: (if accepted then []
              else [ToastError "Failed to create correction"])
  /\ mode (ui s') = mode (ui s)
  /\ correction (ui s') = correction (ui s)
  /\ editableContent (ui s') = editableContent (ui s)
  /\ remote (world s') = remote (world s).
Proof.
  intros Hsel Husr.
  unfold after, request_correction, dispatch, handleCreateCorrection.
  rewrite Hsel, Husr.
  unfold finally, try_catch, fetch_webhook, mbind, M_bind. simpl.
  destruct reply as [|[|] body]; simpl; by rewrite <- ?app_assoc.
Qed.

Lemma request_correction_outcomes_witness :
  isWaitingForCorrection
    (ui (after (request_correction (FetchResolved false None))
           algebra_selected))
  = false
  /\ isWaitingForCorrection
       (ui (after (request_correction (FetchResolved true None))
              algebra_selected))
     = true.
Proof.
  split.
  - apply (request_correction_outcomes algebra_selected algebra teacher
             (FetchResolved false None) eq_refl eq_refl).
  - apply (request_correction_outcomes algebra_selected algebra teacher
             (FetchResolved true None) eq_refl eq_refl).
Defined.

(** X10.  The notification that a correction was inserted, addressed to the
    signed-in user: the waiting flag is cleared and the editor switches to
    correction mode, showing the correction of the selected exam (the empty
    text when the store has none for it); the exam-content slot is not
    written, so what was typed in edit mode since the last save or toggle is
    not kept.  A notification for another owner does nothing. *)
Theorem correction_notification_switches_mode (s : Sys) (payload : Payload) :
  let s' := after (correction_ready payload) s in
  (new_teacher_id payload ≠ User.id <$> user (ui s) -> s' = s)
  /\ (new_teacher_id payload = User.id <$> user (ui s) ->
      mode (ui s') = correction_mode
      /\ isWaitingForCorrection (ui s') = false
      /\ examContent (ui s') = examContent (ui s)
      /\ forall sel,
           selectedExam (ui s) = Some sel ->
           all_go_through 1 (faults (world s)) = true ->
           (forall corr,
              filter (fun c => Correction.exam_id c = Exam.id sel)
                (corrections_tbl (remote (world s))) = [corr] ->
              correction (ui s') = Some corr
              /\ correctionContent (ui s') = Correction.content corr
              /\ editableContent (ui s') = Correction.content corr)
           /\ (Forall (fun c => Correction.exam_id c ≠ Exam.id sel)
                 (corrections_tbl (remote (world s))) ->
               correction (ui s') = None
               /\ correctionContent (ui s') = ""
               /\ editableContent (ui s') = "")).
Proof.
  unfold after, correction_ready, dispatch, onCorrectionInserted.
  split.
  - intros Hother. rewrite bool_decide_eq_false_2 by done. by destruct s.
  - intros Hmine. rewrite bool_decide_eq_true_2 by done.
    destruct s as [u [r fs cs ts]]. unfold mbind, M_bind. simpl.
    unfold loadCorrection.
    destruct (selectedExam u) as [sel|] eqn:Hsel; simpl.
    + unfold finally, try_catch, database.corrections.getByExamId,
        store_call, mbind, M_bind. simpl.
      destruct fs as [|[|e|] fs]; simpl.
      * destruct (filter _ _) as [|c [|c' l]] eqn:Hrows; simpl;
          (split_and!; try done); intros sel' [= <-] _;
          (split;
           [intros corr Hone;
            pose proof (eq_trans (eq_sym Hrows) Hone); by simplify_eq|]);
          intros Hnone; try done;
          pose proof (eq_trans (eq_sym Hrows) (filter_no_match _ _ Hnone));
          by simplify_eq.
      * destruct (filter _ _) as [|c [|c' l]] eqn:Hrows; simpl;
          (split_and!; try done); intros sel' [= <-] _;
          (split;
           [intros corr Hone;
            pose proof (eq_trans (eq_sym Hrows) Hone); by simplify_eq|]);
          intros Hnone; try done;
          pose proof (eq_trans (eq_sym Hrows) (filter_no_match _ _ Hnone));
          by simplify_eq.
      * destruct (negb _); simpl; split_and!; try done;
          by intros sel' _ [=].
      * split_and!; try done; by intros sel' _ [=].
    + split_and!; try done.
Qed.

Lemma correction_notification_switches_mode_witness :
  let edited := after (type_texts ["x + 1 = 3"]) algebra_selected in
  let s' := after (correction_ready
                     {| new_id := "c7"; new_teacher_id := Some "t1" |})
              edited in
  mode (ui s') = correction_mode
  /\ examContent (ui s') = "x + 1 = 2"
  /\ editableContent (ui s') = "".
Proof.
  intros edited s'.
  destruct (correction_notification_switches_mode edited
              {| new_id := "c7"; new_teacher_id := Some "t1" |})
    as (_ & Hmine).
  destruct (Hmine eq_refl) as (Hmode & _ & Hslot & Hloaded).
  destruct (Hloaded algebra eq_refl eq_refl) as (_ & Hnone).
  destruct Hnone as (_ & _ & Hbuffer); [constructor|].
  subst s'. split; [exact Hmode|]. split; [by rewrite Hslot | exact Hbuffer].
Defined.

(** ** Uploading files *)

Lemma row_id_inj (n m : nat) : row_id n = row_id m -> n = m.
Proof.
  unfold row_id. simpl. intros [= Heq]. by apply (inj pretty).
Qed.

Lemma rows_from_ids (n now : nat) (owner : string)
    (docs : list (string * string)) (row : Exam.t) :
  row ∈ rows_from n now owner docs ->
  exists m, n <= m /\ Exam.id row = row_id m.
Proof.
  revert n now. induction docs as [|[title content] docs IH]; intros n now Hin.
  - by apply elem_of_nil in Hin.
  - simpl in Hin. apply elem_of_cons in Hin as [->|Hin].
    + exists n. by split.
    + destruct (IH _ _ Hin) as (m & Hle & Hid). exists m. split; [lia|done].
Qed.

Lemma rows_from_length (n now : nat) (owner : string)
    (docs : list (string * string)) :
  length (rows_from n now owner docs) = length docs.
Proof.
  revert n now. induction docs as [|[title content] docs IH]; intros n now;
    simpl; [done|]. by rewrite IH.
Qed.

Section UploadProperties.

Context {File : Type} (convert : File -> Error + string * string).

(** The loop, run from any state for the list of a given render. *)
Lemma process_files_run (snap : State) (files : list File) :
  forall (docs : list (string * string)) (signed : User.t) (s : Sys),
  Forall2 (fun file doc => convert file = inr doc) files docs ->
  auth_user (remote (world s)) = Some signed ->
  all_go_through (length files) (faults (world s)) = true ->
  let s' := (process_files File convert snap files s).1 in
  let rows := rows_from (next_row (remote (world s)))
                (clock (remote (world s))) (User.id signed) docs in
  (process_files File convert snap files s).2 = Returned tt
  /\ toasts (world s') = toasts (world s)
  /\ exams_tbl (remote (world s')) = exams_tbl (remote (world s)) ++ rows
  /\ exams (ui s') = match last rows with
                     | Some newest => newest :: exams snap
                     | None => exams (ui s)
                     end
  /\ examListCache (ui s') = match last rows with
                             | Some newest => newest :: exams snap
                             | None => examListCache (ui s)
                             end
  /\ (forall row, row ∈ rows ->
        examContentCache (ui s') !! Exam.id row = Some (Exam.content row))
  /\ (forall key, key ∉ Exam.id <$> rows ->
        examContentCache (ui s') !! key = examContentCache (ui s) !! key).
Proof.
  induction files as [|file files IH]; intros docs signed s Hdocs Hauth Hgo.
  - apply Forall2_nil_inv_l in Hdocs as ->. simpl.
    rewrite app_nil_r. split_and!; try done.
    intros row Hrow. by apply elem_of_nil in Hrow.
  - apply Forall2_cons_inv_l in Hdocs
      as ([title content] & docs' & Hdoc & Hdocs & ->).
    cbn [process_files]. rewrite Hdoc. cbv zeta.
    unfold database.exams.create. unfold mbind, M_bind.
    destruct (store_call_through (ExamsInsert title content)
                (insert_exam title content) s (length files) Hgo)
      as (fs & -> & Hfs).
    unfold insert_exam, owner. rewrite Hauth.
    cbn [fmap option_fmap option_map fst snd error data resolved mret M_ret].
    unfold mbind, M_bind, cache_content, addExamToList, setExams,
      set_examListCache, update_ui, mbind, M_bind.
    cbn [ui world].
    set (row0 := Exam.mk (row_id (next_row (remote (world s)))) title content
                   (User.id signed) (clock (remote (world s)))).
    match goal with
    | |- context [process_files File convert snap files ?st] =>
        specialize (IH docs' signed st Hdocs); set (s1 := st) in *
    end.
    destruct IH as (Hret & Htoasts & Htbl & Hlist & Hcache & Hin & Hout);
      [done | exact Hfs |].
    cbn [rows_from]. fold row0.
    change (next_row (remote (world s1)))
      with (S (next_row (remote (world s)))) in *.
    change (clock (remote (world s1)))
      with (S (clock (remote (world s)))) in *.
    set (rest := rows_from (S (next_row (remote (world s))))
                   (S (clock (remote (world s)))) (User.id signed) docs') in *.
    assert (Exam.id row0 ∉ Exam.id <$> rest) as Hfresh.
    { intros Hmem. apply list_elem_of_fmap in Hmem as (row & Hid & Hrow).
      destruct (rows_from_ids _ _ _ _ _ Hrow) as (m & Hle & Hm).
      rewrite Hm in Hid. apply row_id_inj in Hid. lia. }
    clearbody rest.
    destruct (process_files File convert snap files s1) as [s2 r2].
    cbn [fst snd] in *. split_and!.
    + exact Hret.
    + rewrite Htoasts. by subst s1.
    + rewrite Htbl. subst s1. cbn. by rewrite <- app_assoc.
    + rewrite Hlist. destruct rest as [|row1 rest']; [done|].
      rewrite last_cons_cons.
      destruct (last (row1 :: rest')) eqn:Hlast; [done|].
      by apply last_None in Hlast.
    + rewrite Hcache. destruct rest as [|row1 rest']; [done|].
      rewrite last_cons_cons.
      destruct (last (row1 :: rest')) eqn:Hlast; [done|].
      by apply last_None in Hlast.
    + intros row Hrow. apply elem_of_cons in Hrow as [->|Hrow].
      * rewrite (Hout _ Hfresh). subst s1. cbn. apply lookup_insert_eq.
      * by apply Hin.
    + intros key Hkey. rewrite fmap_cons in Hkey.
      apply not_elem_of_cons in Hkey as (Hne & Hkey).
      rewrite (Hout _ Hkey). subst s1. cbn. by apply lookup_insert_ne.
Qed.

(** The notification with the id [toast.loading] gave becomes [t]. *)
Lemma loading_toast_replaced (shown : list Toast) (msg : string) (t : Toast) :
  (if decide (length shown < length (shown ++ [ToastLoading msg]))
   then <[length shown := t]> (shown ++ [ToastLoading msg])
   else (shown ++ [ToastLoading msg]) ++ [t])
  = shown ++ [t].
Proof.
  rewrite decide_True by (rewrite length_app; simpl; lia).
  rewrite insert_app_r_alt by lia. by rewrite Nat.sub_diag.
Qed.

(** X11.  Uploading files.  With no user on the screen the handler asks for
    a sign-in and does nothing else.  With a user, when all the files
    convert and are all stored: the store gains one exam row per file, in
    order, every content is cached under the id of its row, and the
    "processing" notification becomes the success one; but each new exam is
    put in front of the list of the render the handler started in, so the
    list ends up with the last file's exam only in front of the exams it
    showed before.  When the first file does not convert, nothing is stored
    and the notification becomes the message of the error thrown, or the
    general failure text when what was thrown is no [Error] object. *)
Theorem upload_lists_only_the_last_exam
    (files : list File) (docs : list (string * string)) (signed : User.t)
    (s : Sys) :
  let s' := after (dispatch (fun snap =>
                               handleFilesUploaded File convert snap files))
              s in
  let rows := rows_from (next_row (remote (world s)))
                (clock (remote (world s))) (User.id signed) docs in
  (truthy (User.id <$> user (ui s)) = false ->
   ui s' = ui s
   /\ remote (world s') = remote (world s)
   /\ calls (world s') = calls (world s)
   /\ toasts (world s')
      = toasts (world s) ++ [ToastError "Please sign in to upload files"])
  /\ (truthy (User.id <$> user (ui s)) = true ->
      Forall2 (fun file doc => convert file = inr doc) files docs ->
      auth_user (remote (world s)) = Some signed ->
      all_go_through (length files) (faults (world s)) = true ->
      length rows = length files
      /\ exams_tbl (remote (world s')) = exams_tbl (remote (world s)) ++ rows
      /\ exams (ui s') = option_list (last rows) ++ exams (ui s)
      /\ (forall row, row ∈ rows ->
            examContentCache (ui s') !! Exam.id row = Some (Exam.content row))
      /\ toasts (world s')
         = toasts (world s) ++ [ToastSuccess "Files processed successfully"])
  /\ (forall file rest e,
      truthy (User.id <$> user (ui s)) = true ->
      files = file :: rest -> convert file = inl e ->
      ui s' = ui s
      /\ remote (world s') = remote (world s)
      /\ calls (world s') = calls (world s)
      /\ toasts (world s')
         = toasts (world s)
           ++ [ToastError (default "Failed to process files. Please try again."
                             (error_message e))]).
Proof.
  intros s' rows. subst s'.
  unfold after, dispatch, handleFilesUploaded. split_and!.
  - intros ->. by simpl.
  - intros -> Hdocs Hauth Hgo. cbn [negb].
    unfold try_catch, toast_loading, toast, toast_update, update_world,
      mbind, M_bind. cbn [fst snd world ui toasts].
    match goal with
    | |- context [process_files File convert (ui s) files ?st] =>
        destruct (process_files_run (ui s) files docs signed st Hdocs Hauth
                    Hgo) as (Hret & Htoasts & Htbl & Hlist & _ & Hcache & _);
        destruct (process_files File convert (ui s) files st) as [s1 r1]
    end.
    cbn [fst snd ui world remote toasts faults calls] in *. subst r1.
    cbn [fst snd ui world remote toasts faults calls].
    rewrite Htoasts, loading_toast_replaced. split_and!; try done.
    + subst rows. rewrite rows_from_length. symmetry.
      by eapply Forall2_length.
    + rewrite Hlist. fold rows. by destruct (last rows).
  - intros file rest e -> -> Hfail. cbn [negb process_files].
    rewrite Hfail.
    unfold try_catch, toast_loading, toast, toast_update, update_world,
      throw, mbind, M_bind. cbn [fst snd world ui toasts remote calls].
    by rewrite loading_toast_replaced.
Qed.

End UploadProperties.

Lemma upload_lists_only_the_last_exam_witness :
  let convert (doc : string * string) : Error + string * string := inr doc in
  let files := [("Sets", "A or B"); ("Limits", "lim 1/n")] in
  let s' := after (dispatch (fun snap =>
                               handleFilesUploaded _ convert snap files))
              (after (loadExams true) fresh_screen) in
  Exam.title <$> exams (ui s') = ["Limits"; "Algebra"]
  /\ toasts (world s') = [ToastSuccess "Files processed successfully"].
Proof.
  intros convert files s'.
  destruct (upload_lists_only_the_last_exam convert files files teacher
              (after (loadExams true) fresh_screen)) as (_ & Hdone & _).
  destruct Hdone as (_ & _ & Hlist & _ & Hshown);
    [reflexivity | repeat constructor | reflexivity | reflexivity |].
  subst s'. by rewrite Hlist, Hshown.
Defined.

(** ** Resizing the chat *)

(** X12.  The dragged chat height stays between 200 and 800, follows the pointer
    exactly while the target is within these bounds, and never shrinks when
    the pointer goes further up. *)
Theorem chat_height_is_clamped (startResizeY startHeight clientY : Z) :
  (200 <= handleMouseMove startResizeY startHeight clientY <= 800)%Z
  /\ ((200 <= startHeight + (startResizeY - clientY) <= 800)%Z ->
      handleMouseMove startResizeY startHeight clientY
      = (startHeight + (startResizeY - clientY))%Z)
  /\ (forall higher, (higher <= clientY)%Z ->
      (handleMouseMove startResizeY startHeight clientY
       <= handleMouseMove startResizeY startHeight higher)%Z).
Proof. unfold handleMouseMove. split_and!; intros; lia. Qed.

Lemma chat_height_is_clamped_witness :
  handleMouseMove 500 300 450 = 350%Z
  /\ handleMouseMove 500 300 (-400) = 800%Z
  /\ handleMouseMove 500 300 900 = 200%Z.
Proof.
  destruct (chat_height_is_clamped 500 300 450) as (_ & Hexact & _).
  split; [apply Hexact; lia | by vm_compute].
Defined.

(** ** More on the domain access layer *)

(** X13.  When the store answers with an error object, or the request
    fails and the client makes one, every operation of the layer asks the
    store once, throws that object unchanged and leaves the tables alone;
    the one exception is [corrections.getByExamId], which swallows the code
    PGRST116 and returns [null]. *)
Theorem store_errors_are_rethrown
    (s : Sys) (f : Fault) (e : PgError) (fs : list Fault) (a b : string)
    (sections : list (string * string)) :
  faults (world s) = f :: fs ->
  error_of f = Some e ->
  refused_with (StoreError e) (database.pupils.create a) s
  /\ refused_with (StoreError e) database.pupils.list s
  /\ refused_with (StoreError e) (database.reports.create a b sections) s
  /\ refused_with (StoreError e) (database.reports.listByPupil a) s
  /\ refused_with (StoreError e) (database.exams.create a b) s
  /\ refused_with (StoreError e) database.exams.list s
  /\ refused_with (StoreError e) (database.exams.update a b) s
  /\ refused_with (StoreError e) (database.exams.get a) s
  /\ refused_with (StoreError e) (database.corrections.create a b) s
  /\ refused_with (StoreError e) (database.corrections.update a b) s
  /\ (if String.eqb (code e) "PGRST116"
      then result (database.corrections.getByExamId a) s = Returned None
           /\ remote (world (after (database.corrections.getByExamId a) s))
              = remote (world s)
      else refused_with (StoreError e)
             (database.corrections.getByExamId a) s).
Proof.
  intros Hfault Herror.
  unfold refused_with, result, after, database.pupils.create,
    database.pupils.list, database.reports.create,
    database.reports.listByPupil, database.exams.create, database.exams.list,
    database.exams.update, database.exams.get, database.corrections.create,
    database.corrections.update, database.corrections.getByExamId,
    store_call, mbind, M_bind.
  rewrite Hfault.
  destruct f as [|e'|]; simpl in Herror; simplify_eq; simpl;
    (split_and!; [by eauto..|]).
  - destruct (String.eqb (code e) "PGRST116"); simpl; by eauto.
  - by eauto.
Qed.

Lemma store_errors_are_rethrown_witness :
  let refused :=
    {| ui := ui fresh_screen;
       world := {| remote := remote (world fresh_screen);
                   faults := [ErrorResponse RLS_DENIED];
                   calls := []; toasts := [] |} |} in
  let offline :=
    {| ui := ui fresh_screen;
       world := {| remote := remote (world fresh_screen);
                   faults := [RequestFailed]; calls := []; toasts := [] |} |} in
  result (database.exams.get "e1") refused = Thrown (StoreError RLS_DENIED)
  /\ result (database.corrections.getByExamId "e1") refused
     = Thrown (StoreError RLS_DENIED)
  /\ result (database.exams.list) offline = Thrown (StoreError FETCH_ERROR).
Proof.
  intros refused offline.
  pose proof (store_errors_are_rethrown refused (ErrorResponse RLS_DENIED)
                RLS_DENIED [] "e1" "" [] eq_refl eq_refl) as Hall.
  pose proof (store_errors_are_rethrown offline RequestFailed FETCH_ERROR
                [] "e1" "" [] eq_refl eq_refl) as Hoff.
  split_and!.
  - apply Hall.
  - destruct Hall as (_ & _ & _ & _ & _ & _ & _ & _ & _ & _ & Hget).
    apply Hget.
  - apply Hoff.
Defined.

(** X14.  When the lookup goes through, [corrections.getByExamId] never throws:
    it returns the correction when exactly one row refers to the exam, and
    [null] when none does and also when several do. *)
Theorem getByExamId_needs_exactly_one_row (s : Sys) (examId : string) :
  all_go_through 1 (faults (world s)) = true ->
  let rows := filter (fun c => Correction.exam_id c = examId)
                (corrections_tbl (remote (world s))) in
  (forall corr, rows = [corr] ->
     result (database.corrections.getByExamId examId) s
     = Returned (Some corr))
  /\ (length rows ≠ 1 ->
      result (database.corrections.getByExamId examId) s = Returned None).
Proof.
  intros Hgo rows.
  unfold result, database.corrections.getByExamId, mbind, M_bind.
  destruct (store_call_through (CorrectionsSelectByExam examId)
              (select_correction_by_exam examId) s 0 Hgo) as (fs & -> & _).
  unfold select_correction_by_exam. simpl. fold rows. split.
  - by intros corr ->.
  - by destruct rows as [|c [|c' l]].
Qed.

Lemma getByExamId_needs_exactly_one_row_witness :
  let twice :=
    {| ui := ui fresh_screen;
       world := {| remote := {| pupils_tbl := []; reports_tbl := [];
                                exams_tbl := [algebra];
                                corrections_tbl :=
                                  [algebra_key;
                                   Correction.mk "c2" "e1" "x = 2" "t1"];
                                auth_user := Some teacher; next_row := 0;
                                clock := 10 |};
                   faults := []; calls := []; toasts := [] |} |} in
  result (database.corrections.getByExamId "e1") twice = Returned None.
Proof.
  intros twice.
  destruct (getByExamId_needs_exactly_one_row twice "e1" eq_refl)
    as (_ & Hnone).
  apply Hnone. vm_compute. discriminate.
Defined.

Lemma filter_fresh_snoc (es : list Exam.t) (row : Exam.t) :
  Forall (fun e => Exam.id e ≠ Exam.id row) es ->
  filter (fun e => Exam.id e = Exam.id row) (es ++ [row]) = [row].
Proof.
  intros Hfresh. rewrite filter_app, (filter_no_match _ _ Hfresh).
  by rewrite filter_cons_True.
Qed.

(** X15.  An exam created by a signed-in user is returned with the title and the
    content given and the user as owner, and a later [exams.get] with its
    id returns the same row (the id the store gave being new). *)
Theorem created_exam_is_fetched_back
    (s : Sys) (title content : string) (signed : User.t) :
  auth_user (remote (world s)) = Some signed ->
  all_go_through 2 (faults (world s)) = true ->
  Forall (fun e => Exam.id e ≠ row_id (next_row (remote (world s))))
    (exams_tbl (remote (world s))) ->
  exists row,
    result (database.exams.create title content) s = Returned (Some row)
    /\ Exam.title row = title /\ Exam.content row = content
    /\ Exam.teacher_id row = User.id signed
    /\ result (database.exams.get (Exam.id row))
         (after (database.exams.create title content) s)
       = Returned (Some row).
Proof.
  intros Hauth Hgo Hfresh.
  exists (Exam.mk (row_id (next_row (remote (world s)))) title content
            (User.id signed) (clock (remote (world s)))).
  unfold result, after, database.exams.create, mbind, M_bind.
  destruct (store_call_through (ExamsInsert title content)
              (insert_exam title content) s 1 Hgo) as (fs & -> & Hfs).
  unfold insert_exam, owner. rewrite Hauth. simpl.
  split_and!; try done.
  unfold database.exams.get, mbind, M_bind.
  match goal with
  | |- context [store_call ?c ?run ?st] =>
      destruct (store_call_through c run st 0 Hfs) as (fs' & -> & _)
  end.
  unfold select_exam_by_id. simpl.
  by rewrite (filter_fresh_snoc _ (Exam.mk _ _ _ _ _) Hfresh).
Qed.

Lemma created_exam_is_fetched_back_witness :
  exists row,
    result (database.exams.create "Sets" "A or B") fresh_screen
    = Returned (Some row)
    /\ Exam.id row = "row-0".
Proof.
  destruct (created_exam_is_fetched_back fresh_screen "Sets" "A or B" teacher)
    as (row & Hcreated & _); [reflexivity | reflexivity | |].
  - repeat constructor. discriminate.
  - exists row. split; [exact Hcreated|].
    vm_compute in Hcreated. by injection Hcreated as <-.
Defined.

Lemma filter_others_with_content (id content : string) (es : list Exam.t) :
  filter (fun e => Exam.id e ≠ id) (exams_with_content id content es)
  = filter (fun e => Exam.id e ≠ id) es.
Proof.
  unfold exams_with_content. induction es as [|e es IH]; [done|].
  rewrite fmap_cons. destruct (decide (Exam.id e = id)) as [Heq|Hne].
  - rewrite !filter_cons_False by (simpl; tauto). exact IH.
  - rewrite !filter_cons_True by done. by rewrite IH.
Qed.

(** X16.  An update that reaches the one row of an id returns that row with the
    new content, a later [exams.get] returns the same, and the rows of the
    other ids are the rows they were. *)
Theorem updated_exam_is_fetched_back
    (s : Sys) (id content : string) (row : Exam.t) :
  all_go_through 2 (faults (world s)) = true ->
  filter (fun e => Exam.id e = id) (exams_tbl (remote (world s))) = [row] ->
  let s' := after (database.exams.update id content) s in
  result (database.exams.update id content) s
  = Returned (Some (Exam.with_content content row))
  /\ result (database.exams.get id) s'
     = Returned (Some (Exam.with_content content row))
  /\ filter (fun e => Exam.id e ≠ id) (exams_tbl (remote (world s')))
     = filter (fun e => Exam.id e ≠ id) (exams_tbl (remote (world s))).
Proof.
  intros Hgo Hrow.
  unfold result, after, database.exams.update, mbind, M_bind.
  destruct (store_call_through (ExamsUpdateContent id content)
              (update_exam_content id content) s 1 Hgo) as (fs & -> & Hfs).
  unfold update_exam_content. simpl.
  rewrite filter_exams_with_content, Hrow. simpl.
  split; [done|]. split.
  - unfold database.exams.get, mbind, M_bind.
    match goal with
    | |- context [store_call ?c ?run ?st] =>
        destruct (store_call_through c run st 0 Hfs) as (fs' & -> & _)
    end.
    unfold select_exam_by_id. simpl.
    by rewrite filter_exams_with_content, Hrow.
  - apply filter_others_with_content.
Qed.

Lemma updated_exam_is_fetched_back_witness :
  result (database.exams.get "e1")
    (after (database.exams.update "e1" "x + 1 = 3") fresh_screen)
  = Returned (Some (Exam.mk "e1" "Algebra" "x + 1 = 3" "t1" 7)).
Proof.
  apply (updated_exam_is_fetched_back fresh_screen "e1" "x + 1 = 3" algebra);
    reflexivity.
Defined.

(** X17.  A correction created for an exam that had none is found by
    [getByExamId]; created for an exam that already had exactly one, it
    makes [getByExamId] return [null] from then on. *)
Theorem created_correction_and_lookup
    (s : Sys) (content examId : string) (signed : User.t) :
  auth_user (remote (world s)) = Some signed ->
  all_go_through 2 (faults (world s)) = true ->
  let s' := after (database.corrections.create content examId) s in
  let created := Correction.mk (row_id (next_row (remote (world s)))) examId
                   content (User.id signed) in
  result (database.corrections.create content examId) s
  = Returned (Some created)
  /\ (Forall (fun c => Correction.exam_id c ≠ examId)
        (corrections_tbl (remote (world s))) ->
      result (database.corrections.getByExamId examId) s'
      = Returned (Some created))
  /\ (forall old,
        filter (fun c => Correction.exam_id c = examId)
          (corrections_tbl (remote (world s))) = [old] ->
        result (database.corrections.getByExamId examId) s'
        = Returned None).
Proof.
  intros Hauth Hgo.
  unfold result, after, database.corrections.create, mbind, M_bind.
  destruct (store_call_through (CorrectionsInsert content examId)
              (insert_correction content examId) s 1 Hgo)
    as (fs & -> & Hfs).
  unfold insert_correction, owner. rewrite Hauth. simpl.
  split; [done|].
  unfold database.corrections.getByExamId, mbind, M_bind.
  match goal with
  | |- context [store_call ?c ?run ?st] =>
      destruct (store_call_through c run st 0 Hfs) as (fs' & -> & _)
  end.
  unfold select_correction_by_exam. simpl. rewrite filter_app.
  rewrite (filter_cons_True _ (Correction.mk _ _ _ _)) by done.
  split.
  - intros Hnone. by rewrite (filter_no_match _ _ Hnone).
  - intros old Hold.
    pose proof (eq_trans (eq_sym Hold) eq_refl) as Heq.
    by rewrite <- Heq.
Qed.

Lemma created_correction_and_lookup_witness :
  result (database.corrections.getByExamId "e1")
    (after (database.corrections.create "x = 1" "e1") fresh_screen)
  = Returned (Some (Correction.mk "row-0" "e1" "x = 1" "t1")).
Proof.
  destruct (created_correction_and_lookup fresh_screen "x = 1" "e1" teacher
              eq_refl eq_refl) as (_ & Hfound & _).
  apply Hfound. constructor.
Defined.

(** ** The report dashboard *)

Lemma dash_call_through {A} (c : DashCall)
    (run : Remote -> Remote * Response A) (s : DashSys) (n : nat) :
  all_go_through (S n) (d_faults (dworld s)) = true ->
  exists fs',
    dash_call c run s =
      ({| dash := dash s;
          dworld := {| d_remote := (run (d_remote (dworld s))).1;
                       d_faults := fs';
                       d_calls := d_calls (dworld s) ++ [c];
                       d_toasts := d_toasts (dworld s) |} |},
       Returned (run (d_remote (dworld s))).2)
    /\ all_go_through n fs' = true.
Proof.
  unfold dash_call.
  destruct (d_faults (dworld s)) as [|[| |] fs]; simpl; try discriminate.
  - intros _. exists []. split; [reflexivity | by destruct n].
  - intros Hfs. by exists fs.
Qed.

Lemma summaries_sorted (l : list Report.t) :
  StronglySorted (fun a b => Report.requested_at b <= Report.requested_at a)
    l ->
  StronglySorted
    (fun a b => ReportSummary.requested_at b <= ReportSummary.requested_at a)
    (ReportSummary.of_report <$> l).
Proof.
  induction 1 as [|x l Hl IH Hall]; [constructor|].
  rewrite fmap_cons. constructor; [done|].
  apply Forall_fmap. eapply Forall_impl; [exact Hall|]. by intros y.
Qed.

(** X18.  [fetchReports]: nothing without a pupil; when the query goes through
    the list holds the reports of the pupil, each once, most recent first,
    and the current report becomes the first of them only when no report
    was current, so a current report survives a change of pupil; when
    the store fails, list and current report are kept and the failure is
    notified. *)
Theorem fetchReports_outcomes (s : DashSys) (pupilId : string) :
  let s' := d_after (d_dispatch (fun snap => fetchReports snap pupilId)) s in
  let stored := filter (fun x => Report.pupil_id x = pupilId)
                  (reports_tbl (d_remote (dworld s))) in
  (pupilId = "" -> s' = s)
  /\ (pupilId ≠ "" -> all_go_through 1 (d_faults (dworld s)) = true ->
      availableReports (dash s') ≡ₚ ReportSummary.of_report <$> stored
      /\ StronglySorted
           (fun a b => ReportSummary.requested_at b
                       <= ReportSummary.requested_at a)
           (availableReports (dash s'))
      /\ currentReportId (dash s')
         = (if truthy (currentReportId (dash s))
            then currentReportId (dash s)
            else match availableReports (dash s') with
                 | first :: _ => Some (ReportSummary.id first)
                 | [] => currentReportId (dash s)
                 end)
      /\ d_toasts (dworld s') = d_toasts (dworld s))
  /\ (pupilId ≠ "" -> all_go_through 1 (d_faults (dworld s)) = false ->
      dash s' = dash s
      /\ d_toasts (dworld s')
         = d_toasts (dworld s)
           ++ [ToastError "Failed to load reports. Please try again."]).
Proof.
  unfold d_after, d_dispatch, fetchReports. split_and!.
  - intros ->. by destruct s.
  - intros Hid Hgo.
    replace (String.eqb pupilId "") with false
      by (symmetry; by apply String.eqb_neq).
    unfold d_try_catch, mbind, DM_bind.
    destruct (dash_call_through (ReportsSelect pupilId)
                (select_report_summaries pupilId) s 0 Hgo) as (fs & -> & _).
    unfold select_report_summaries. simpl.
    set (sorted := order_desc Report.requested_at _).
    assert (sorted ≡ₚ filter (fun x => Report.pupil_id x = pupilId)
                        (reports_tbl (d_remote (dworld s)))) as Hperm
      by apply order_desc_perm.
    assert (StronglySorted
              (fun a b => ReportSummary.requested_at b
                          <= ReportSummary.requested_at a)
              (ReportSummary.of_report <$> sorted)) as Hsorted
      by apply summaries_sorted, order_desc_sorted.
    clearbody sorted.
    destruct sorted as [|x l]; simpl;
      destruct (truthy (currentReportId (dash s))); simpl;
      split_and!; try done; by rewrite <- Hperm.
  - intros Hid Hrefused.
    replace (String.eqb pupilId "") with false
      by (symmetry; by apply String.eqb_neq).
    unfold d_try_catch, dash_call, mbind, DM_bind.
    destruct s as [d [r fs cs ts]]. simpl in *.
    destruct fs as [|[|e|] fs]; try discriminate Hrefused; by simpl.
Qed.

Lemma fetchReports_outcomes_witness :
  let s' := d_after (d_dispatch (fun snap => fetchReports snap "p1"))
              fresh_dashboard in
  currentReportId (dash s') = Some "r2"
  /\ length (availableReports (dash s')) = 2.
Proof.
  intros s'.
  destruct (fetchReports_outcomes fresh_dashboard "p1") as (_ & Hok & _).
  destruct Hok as (Hperm & _ & Hcurrent & _); [discriminate|reflexivity|].
  split.
  - subst s'. rewrite Hcurrent. reflexivity.
  - subst s'. by rewrite Hperm.
Defined.

(** X19.  Choosing a pupil who has no report shows "No reports available",
    whatever the report hook says: no spinner, even with a report of an
    earlier pupil still current. *)
Theorem pupil_without_reports_shows_no_reports (s : DashSys) (pupil : string) :
  pupil ≠ "" ->
  all_go_through 1 (d_faults (dworld s)) = true ->
  Forall (fun x => Report.pupil_id x ≠ pupil)
    (reports_tbl (d_remote (dworld s))) ->
  let s' := d_after (handlePupilChange pupil) s in
  availableReports (dash s') = []
  /\ selectedPupilId (dash s') = pupil
  /\ forall loading error has_report,
       renderReportContent (dash s') loading error has_report = NoReports.
Proof.
  intros Hid Hgo Hnone.
  unfold d_after, handlePupilChange, d_dispatch, fetchReports, mbind, DM_bind.
  simpl.
  replace (String.eqb pupil "") with false
    by (symmetry; by apply String.eqb_neq).
  unfold d_try_catch, mbind, DM_bind.
  match goal with
  | |- context [dash_call ?c ?run ?st] =>
      destruct (dash_call_through c run st 0 Hgo) as (fs & -> & _)
  end.
  unfold select_report_summaries. simpl.
  rewrite (filter_no_match _ _ Hnone). simpl.
  split; [done|]. split; [done|].
  intros loading error has_report. unfold renderReportContent. simpl.
  replace (String.eqb pupil "") with false
    by (symmetry; by apply String.eqb_neq).
  by rewrite orb_true_r.
Qed.

Lemma pupil_without_reports_shows_no_reports_witness :
  renderReportContent (dash (d_after (handlePupilChange "p2")
                               (d_after (handlePupilChange "p1")
                                  fresh_dashboard)))
    true false false
  = NoReports.
Proof.
  apply (pupil_without_reports_shows_no_reports
           (d_after (handlePupilChange "p1") fresh_dashboard) "p2");
    [discriminate | reflexivity |].
  repeat constructor; discriminate.
Defined.

(** X20.  Changing the title of the current report: when the store takes it, the
    entry of the report in the list gets the new title, the other entries,
    the ids and the order are kept, and the stored row holds the new title;
    when the store refuses, the list and the store are unchanged and the
    failure is notified.  (The store's answer is looked at, unlike in the
    title change of the exam screen.) *)
Theorem report_title_follows_the_store
    (s : DashSys) (current newTitle : string) :
  currentReportId (dash s) = Some current ->
  current ≠ "" ->
  let s' := d_after (d_dispatch (fun snap => handleUpdateTitle snap newTitle))
              s in
  (all_go_through 1 (d_faults (dworld s)) = true ->
   availableReports (dash s')
   = (fun report => if decide (ReportSummary.id report = current)
                    then ReportSummary.with_title newTitle report
                    else report) <$> availableReports (dash s)
   /\ ReportSummary.id <$> availableReports (dash s')
      = ReportSummary.id <$> availableReports (dash s)
   /\ Forall (fun x => Report.id x = current ->
                       Report.report_title x = newTitle)
        (reports_tbl (d_remote (dworld s')))
   /\ d_toasts (dworld s')
      = d_toasts (dworld s) ++ [ToastSuccess "Report title updated"])
  /\ (all_go_through 1 (d_faults (dworld s)) = false ->
      dash s' = dash s
      /\ d_remote (dworld s') = d_remote (dworld s)
      /\ d_toasts (dworld s')
         = d_toasts (dworld s)
           ++ [ToastError "Failed to update report title"]).
Proof.
  intros Hcurrent Hid.
  unfold d_after, d_dispatch, handleUpdateTitle. rewrite Hcurrent.
  replace (String.eqb current "") with false
    by (symmetry; by apply String.eqb_neq).
  unfold d_try_catch, mbind, DM_bind. split.
  - intros Hgo.
    destruct (dash_call_through (ReportsUpdateTitle current newTitle)
                (update_report_title current newTitle) s 0 Hgo)
      as (fs & -> & _).
    simpl. split_and!; try done.
    + rewrite <- list_fmap_compose. apply list_fmap_ext.
      intros _ report _. simpl.
      by destruct (decide (ReportSummary.id report = current)).
    + apply Forall_fmap, Forall_true. intros x. simpl.
      destruct (decide (Report.id x = current)); [done|]. by intros ?.
  - intros Hrefused. unfold dash_call.
    destruct s as [d [r fs cs ts]]. simpl in *.
    destruct fs as [|[|e|] fs]; try discriminate Hrefused; by simpl.
Qed.

Lemma report_title_follows_the_store_witness :
  let shown := d_after (handlePupilChange "p1") fresh_dashboard in
  ReportSummary.report_title
  <$> availableReports
        (dash (d_after (d_dispatch (fun snap =>
                                      handleUpdateTitle snap "Limits"))
                 shown))
  = ["Limits"; "Fractions"].
Proof.
  intros shown.
  destruct (report_title_follows_the_store shown "r2" "Limits" eq_refl)
    as (Hok & _); [discriminate|].
  destruct (Hok eq_refl) as (-> & _). reflexivity.
Defined.

(** X21.  Leaving the title input ends the editing; a title that is blank, or
    the one on display, is not sent to the store and changes nothing else;
    any other title is sent trimmed, for the current report. *)
Theorem title_blur_sends_real_changes_only
    (s : DashSys) (reportTitle : string) :
  let s' := d_after (d_dispatch (fun snap => title_onBlur snap reportTitle))
              s in
  let typed := editedTitle (dash s) in
  isEditingTitle (dash s') = false
  /\ (trim typed = "" \/ typed = reportTitle ->
      dworld s' = dworld s
      /\ availableReports (dash s') = availableReports (dash s))
  /\ (forall current,
        trim typed ≠ "" -> typed ≠ reportTitle ->
        currentReportId (dash s) = Some current -> current ≠ "" ->
        d_calls (dworld s')
        = d_calls (dworld s) ++ [ReportsUpdateTitle current (trim typed)]).
Proof.
  unfold d_after, d_dispatch, title_onBlur, mbind, DM_bind. simpl.
  split_and!.
  - destruct (negb _ && negb _); [|done].
    unfold handleUpdateTitle.
    destruct (currentReportId (dash s)) as [current|]; [|done].
    destruct (String.eqb current ""); [done|].
    unfold d_try_catch, dash_call, mbind, DM_bind. simpl.
    destruct (d_faults (dworld s)) as [|[|e|] fs]; by simpl.
  - intros Hsame.
    replace (negb (String.eqb (trim (editedTitle (dash s))) "")
             && negb (String.eqb (editedTitle (dash s)) reportTitle))
      with false; [done|].
    symmetry. apply andb_false_iff.
    destruct Hsame as [Hblank|Hsame]; [left|right];
      apply negb_false_iff, String.eqb_eq; done.
  - intros current Htyped Hnew Hcurrent Hid.
    replace (negb (String.eqb (trim (editedTitle (dash s))) "")
             && negb (String.eqb (editedTitle (dash s)) reportTitle))
      with true.
    2:{ symmetry. apply andb_true_iff.
        split; apply negb_true_iff, String.eqb_neq; done. }
    unfold handleUpdateTitle. rewrite Hcurrent.
    replace (String.eqb current "") with false
      by (symmetry; by apply String.eqb_neq).
    unfold d_try_catch, dash_call, mbind, DM_bind. simpl.
    destruct (d_faults (dworld s)) as [|[|e|] fs]; by simpl.
Qed.

Lemma title_blur_sends_real_changes_only_witness :
  let editing :=
    {| dash := {| activeTab := "reports"; selectedPupilId := "p1";
                  currentReportId := Some "r1";
                  availableReports :=
                    ReportSummary.of_report <$> [second_report; first_report];
                  isEditingTitle := true; editedTitle := "  Fractions 2 " |};
       dworld := dworld fresh_dashboard |} in
  let blanked :=
    {| dash := {| activeTab := "reports"; selectedPupilId := "p1";
                  currentReportId := Some "r1";
                  availableReports :=
                    ReportSummary.of_report <$> [second_report; first_report];
                  isEditingTitle := true;
                  editedTitle := " " +:+ no_break_space |};
       dworld := dworld fresh_dashboard |} in
  d_calls (dworld (d_after (d_dispatch (fun snap =>
                                          title_onBlur snap "Fractions"))
                     editing))
  = [ReportsUpdateTitle "r1" "Fractions 2"]
  /\ dworld (d_after (d_dispatch (fun snap => title_onBlur snap "Fractions"))
               blanked)
     = dworld fresh_dashboard.
Proof.
  intros editing blanked. split.
  - destruct (title_blur_sends_real_changes_only editing "Fractions")
      as (_ & _ & Hsent).
    apply (Hsent "r1"); [vm_compute|..]; discriminate || reflexivity.
  - destruct (title_blur_sends_real_changes_only blanked "Fractions")
      as (_ & Hblank & _).
    apply Hblank. left. reflexivity.
Defined.

(** X22.  Deleting the current report.  Declined, or with no report current,
    nothing happens.  Accepted and taken by the store: the row is removed,
    the success is notified and the list is fetched again, so it no longer
    holds the report; but the deleted report stays the current one.
    Refused by the store: nothing changes and the failure is notified. *)
Theorem deleted_report_stays_current (s : DashSys) :
  let run confirmed :=
    d_after (d_dispatch (fun snap => handleDeleteReport snap confirmed)) s in
  run false = s
  /\ (truthy (currentReportId (dash s)) = false -> run true = s)
  /\ (forall current,
      currentReportId (dash s) = Some current ->
      current ≠ "" ->
      selectedPupilId (dash s) ≠ "" ->
      (all_go_through 2 (d_faults (dworld s)) = true ->
       reports_tbl (d_remote (dworld (run true)))
       = filter (fun x => Report.id x ≠ current)
           (reports_tbl (d_remote (dworld s)))
       /\ Forall (fun r => ReportSummary.id r ≠ current)
            (availableReports (dash (run true)))
       /\ currentReportId (dash (run true)) = Some current
       /\ List.find (fun r => bool_decide (Some (ReportSummary.id r)
                                           = currentReportId (dash (run true))))
            (availableReports (dash (run true))) = None
       /\ d_toasts (dworld (run true))
          = d_toasts (dworld s)
            ++ [ToastSuccess "Report deleted successfully"])
      /\ (all_go_through 1 (d_faults (dworld s)) = false ->
          dash (run true) = dash s
          /\ d_remote (dworld (run true)) = d_remote (dworld s)
          /\ d_toasts (dworld (run true))
             = d_toasts (dworld s) ++ [ToastError "Failed to delete report"])).
Proof.
  intros run. subst run. cbv beta.
  unfold d_after, d_dispatch, handleDeleteReport. split_and!.
  - destruct (currentReportId (dash s)) as [current|]; [|by destruct s].
    rewrite orb_true_r. by destruct s.
  - intros Hnone.
    destruct (currentReportId (dash s)) as [current|]; [|by destruct s].
    simpl in Hnone. apply negb_false_iff in Hnone. rewrite Hnone.
    by destruct s.
  - intros current Hcurrent Hid Hpupil. rewrite Hcurrent.
    replace (String.eqb current "") with false
      by (symmetry; by apply String.eqb_neq).
    cbn [orb negb]. split.
    + intros Hgo. unfold d_try_catch, mbind, DM_bind.
      destruct (dash_call_through (ReportsDelete current)
                  (delete_report current) s 1 Hgo) as (fs & -> & Hfs).
      cbn [delete_report fst snd error d_toast].
      unfold fetchReports.
      replace (String.eqb (selectedPupilId (dash s)) "") with false
        by (symmetry; by apply String.eqb_neq).
      unfold d_try_catch, mbind, DM_bind.
      match goal with
      | |- context [dash_call ?c ?run ?st] =>
          destruct (dash_call_through c run st 0 Hfs) as (fs' & -> & _)
      end.
      unfold select_report_summaries. cbn -[order_desc filter].
      rewrite Hcurrent.
      replace (truthy (Some current)) with true
        by (simpl; symmetry; apply negb_true_iff; by apply String.eqb_neq).
      set (left_over := order_desc Report.requested_at _).
      assert (Forall (fun r => ReportSummary.id r ≠ current)
                (ReportSummary.of_report <$> left_over)) as Hgone.
      { apply Forall_fmap, Forall_forall. intros x Hx. simpl.
        subst left_over. rewrite order_desc_perm in Hx.
        apply list_elem_of_filter in Hx as (_ & Hx).
        by apply list_elem_of_filter in Hx as (Hx & _). }
      clearbody left_over.
      assert (List.find (fun r => bool_decide (Some (ReportSummary.id r)
                                               = Some current))
                (ReportSummary.of_report <$> left_over) = None) as Hfind.
      { induction Hgone as [|r l Hr _ IH]; [done|]. simpl.
        rewrite bool_decide_eq_false_2 by congruence. exact IH. }
      destruct left_over as [|x l]; cbn; rewrite ?Hcurrent;
        split_and!; try done.
    + intros Hrefused. unfold d_try_catch, dash_call, mbind, DM_bind.
      destruct s as [d [r fs cs ts]]. simpl in *.
      destruct fs as [|[|e|] fs]; try discriminate Hrefused; by simpl.
Qed.

Lemma deleted_report_stays_current_witness :
  let shown := d_after (handlePupilChange "p1") fresh_dashboard in
  let s' := d_after (d_dispatch (fun snap => handleDeleteReport snap true))
              shown in
  currentReportId (dash s') = Some "r2"
  /\ ReportSummary.id <$> availableReports (dash s') = ["r1"]
  /\ d_after (d_dispatch (fun snap => handleDeleteReport snap true))
       fresh_dashboard = fresh_dashboard.
Proof.
  intros shown s'.
  destruct (deleted_report_stays_current shown) as (_ & _ & Hcurrent).
  destruct (Hcurrent "r2" eq_refl) as (Hok & _); [discriminate..|].
  destruct (Hok eq_refl) as (_ & _ & Hkept & _).
  split; [exact Hkept|]. split; [vm_compute; reflexivity|].
  by apply (deleted_report_stays_current fresh_dashboard).
Defined.

(** ** The tooltip of the exam list *)

(** The two forms of [trim] agree on what white space is: each of the 25
    white-space characters is one code unit that [is_white_space] accepts,
    and [trim] strips its bytes at both ends of a text. *)
Lemma trim_strips_white_space :
  length white_space_texts = 25
  /\ Forall (fun w => trim (w +:+ "x" +:+ w) = "x"
                      /\ exists u, code_units w = [u]
                                   /\ is_white_space u = true)
       white_space_texts.
Proof.
  split; [done|].
  repeat (constructor; [split; [by vm_compute | eexists; by vm_compute]|]).
  constructor.
Qed.

Lemma trim_front_spec (l : CodeUnits) :
  exists front,
    l = front ++ trim_front l
    /\ Forall (fun u => is_white_space u = true) front
    /\ (forall u, head (trim_front l) = Some u -> is_white_space u = false).
Proof.
  induction l as [|u l (front & Hl & Hfront & Hhead)]; [by exists []|].
  simpl. destruct (is_white_space u) eqn:Hu.
  - exists (u :: front). split; [by rewrite Hl at 1|].
    split; [by constructor|done].
  - exists []. split; [done|]. split; [constructor|].
    simpl. by intros ? [= <-].
Qed.

(** What [trim] keeps is the text between the white space at its two ends,
    and neither starts nor ends with white space. *)
Lemma trim_units_spec (l : CodeUnits) :
  exists front back,
    l = front ++ trim_units l ++ back
    /\ Forall (fun u => is_white_space u = true) front
    /\ Forall (fun u => is_white_space u = true) back
    /\ (forall u, head (trim_units l) = Some u -> is_white_space u = false)
    /\ (forall u, last (trim_units l) = Some u -> is_white_space u = false).
Proof.
  destruct (trim_front_spec l) as (front & Hl & Hfront & Hhead).
  destruct (trim_front_spec (reverse (trim_front l)))
    as (back & Hm & Hback & Hlast).
  unfold trim_units.
  set (middle := trim_front l) in *.
  set (kept := trim_front (reverse middle)) in *.
  assert (middle = reverse kept ++ reverse back) as Hmiddle.
  { rewrite <- reverse_app, <- Hm. by rewrite reverse_involutive. }
  exists front, (reverse back). split_and!.
  - by rewrite <- Hmiddle.
  - done.
  - by apply Forall_reverse.
  - intros u Hu. apply Hhead. rewrite Hmiddle.
    destruct (reverse kept) as [|v k]; [done|]. by simpl in *.
  - intros u Hu. apply Hlast. by rewrite <- last_reverse, Hu.
Qed.

(** X23.  The tooltip shows a content of at most 150 code units as it is.
    Of a longer one it shows three dots after what [trim] keeps of the
    first 150 code units: that part without the white space at its two
    ends, so that the text before the dots neither starts nor ends with
    white space.  It never shows more than 153 code units. *)
Theorem contentPreview_is_short (content : CodeUnits) :
  (length content <= 150 -> contentPreview content = content)
  /\ (150 < length content ->
      exists front kept back,
        contentPreview content = kept ++ three_dots
        /\ take 150 content = front ++ kept ++ back
        /\ Forall (fun u => is_white_space u = true) front
        /\ Forall (fun u => is_white_space u = true) back
        /\ (forall u, head kept = Some u -> is_white_space u = false)
        /\ (forall u, last kept = Some u -> is_white_space u = false))
  /\ length (contentPreview content) <= 153.
Proof.
  unfold contentPreview.
  destruct (trim_units_spec (take 150 content))
    as (front & back & Hcut & Hfront & Hback & Hhead & Hlast).
  assert (length (trim_units (take 150 content)) <= 150) as Hkept.
  { apply (f_equal length) in Hcut. rewrite !length_app in Hcut.
    rewrite length_take in Hcut. lia. }
  destruct (150 <? length content) eqn:Hlong.
  - apply Nat.ltb_lt in Hlong. split_and!.
    + lia.
    + intros _. exists front, (trim_units (take 150 content)), back.
      by split_and!.
    + rewrite length_app. simpl. lia.
  - apply Nat.ltb_ge in Hlong. split_and!; [done|lia|lia].
Qed.

Lemma contentPreview_is_short_witness :
  contentPreview (code_units (repeated 100 e_acute))
  = code_units (repeated 100 e_acute)
  /\ length (contentPreview (code_units (repeated 200 e_acute))) <= 153.
Proof.
  split.
  - apply (contentPreview_is_short (code_units (repeated 100 e_acute))).
    vm_compute. lia.
  - apply (contentPreview_is_short (code_units (repeated 200 e_acute))).
Defined.

(** ** Loading once *)

Lemma loadExams_returns (isConnected : bool) (s : Sys) :
  (loadExams isConnected s).2 = Returned tt
  /\ initialLoadComplete (ui (loadExams isConnected s).1)
     = initialLoadComplete (ui s)
  /\ calls (world (loadExams isConnected s).1)
     = calls (world s) ++ (if isConnected then [ExamsSelectAll] else []).
Proof.
  unfold loadExams, finally, try_catch, store_call, mbind, M_bind.
  destruct s as [u [r fs cs ts]].
  destruct isConnected; simpl; [|by rewrite app_nil_r].
  destruct fs as [|[|e|] fs]; by simpl.
Qed.

Lemma initial_loads_when_done (connections : list bool) (s : Sys) :
  initialLoadComplete (ui s) = true -> after (initial_loads connections) s = s.
Proof.
  intros Hdone. unfold after.
  induction connections as [|c connections IH]; [done|].
  simpl. unfold mbind, M_bind, initial_load. by rewrite Hdone.
Qed.

(** X24.  However often the effect runs, the exam list is asked for by its first
    run only; when that run found no connection, later runs do not load
    the list either. *)
Theorem exams_are_loaded_by_the_first_run_only
    (s : Sys) (first : bool) (later : list bool) :
  initialLoadComplete (ui s) = false ->
  let s' := after (initial_loads (first :: later)) s in
  s' = after (initial_loads [first]) s
  /\ initialLoadComplete (ui s') = true
  /\ calls (world s')
     = calls (world s) ++ (if first then [ExamsSelectAll] else [])
  /\ (first = false -> exams (ui s') = exams (ui s)).
Proof.
  intros Hfresh.
  destruct (loadExams_returns first s) as (Hret & Hflag & Hcalls).
  assert (after (initial_loads [first]) s
          = {| ui := put_initialLoadComplete true
                       (ui (loadExams first s).1);
               world := world (loadExams first s).1 |}) as Hone.
  { unfold after. simpl. unfold mbind, M_bind, initial_load.
    rewrite Hfresh. unfold mbind, M_bind.
    destruct (loadExams first s) as [s1 r1]. simpl in *. by rewrite Hret. }
  assert (after (initial_loads (first :: later)) s
          = after (initial_loads [first]) s) as Hsame.
  { rewrite Hone. unfold after. simpl. unfold mbind, M_bind.
    unfold initial_load at 1. rewrite Hfresh. unfold mbind, M_bind.
    destruct (loadExams first s) as [s1 r1]. simpl in *. rewrite Hret.
    simpl. by apply (initial_loads_when_done later). }
  cbv zeta. rewrite Hsame, Hone. simpl. split_and!; try done.
  intros ->. unfold loadExams, finally, try_catch, mbind, M_bind.
  by simpl.
Qed.

Lemma exams_are_loaded_by_the_first_run_only_witness :
  calls (world (after (initial_loads [true; true; true]) fresh_screen))
  = [ExamsSelectAll]
  /\ exams (ui (after (initial_loads [false; true]) fresh_screen)) = [].
Proof.
  split.
  - apply (exams_are_loaded_by_the_first_run_only fresh_screen true
             [true; true] eq_refl).
  - destruct (exams_are_loaded_by_the_first_run_only fresh_screen false
                [true] eq_refl) as (_ & _ & _ & Hkept).
    by rewrite Hkept.
Defined.

(** ** More on the chat *)

(** X25.  A chat form that is not accepted (blank message, no user, or neither an
    exam selected nor creating mode) does nothing at all.  An accepted one
    answered without exam or correction id (or with ids the mode does not
    use) only extends the chat with the message and the answer and empties
    the input: selection, contents, buffer, list, notifications and store
    tables are as before, and the call to the webhook is the only call
    made. *)
Theorem plain_answer_only_extends_the_chat (s : Sys) (answer : WebhookData) :
  let s' := after (send (FetchResolved true (Some answer))) s in
  (can_send (ui s) = false -> s' = s)
  /\ (can_send (ui s) = true ->
      isCreatingNew (ui s) && truthy (examId answer) = false ->
      bool_decide (mode (ui s) = correction_mode)
      && truthy (correctionId answer) = false ->
      chatMessages (ui s')
      = without_typing (chatMessages (ui s))
        ++ [{| msg_content := message (ui s); isUser := true;
               msg_id := None |};
            {| msg_content := output answer; isUser := false;
               msg_id := None |}]
      /\ message (ui s') = "" /\ isSendingMessage (ui s') = false
      /\ selectedExam (ui s') = selectedExam (ui s)
      /\ examContent (ui s') = examContent (ui s)
      /\ editableContent (ui s') = editableContent (ui s)
      /\ correction (ui s') = correction (ui s)
      /\ exams (ui s') = exams (ui s)
      /\ mode (ui s') = mode (ui s)
      /\ toasts (world s') = toasts (world s)
      /\ remote (world s') = remote (world s)
      /\ length (calls (world s')) = S (length (calls (world s)))).
Proof.
  unfold after, send, dispatch, handleSendMessage, can_send. split.
  - intros Hno. destruct (user (ui s)) as [usr|]; [|by destruct s].
    rewrite bool_decide_eq_true_2 in Hno by eauto. simpl in Hno.
    destruct (String.eqb (trim (message (ui s))) ""); simpl in *;
      [by destruct s|].
    destruct (bool_decide (is_Some (selectedExam (ui s)))),
      (isCreatingNew (ui s)); simpl in *; try discriminate Hno.
    by destruct s.
  - intros Hcan Hexam Hcorr.
    apply andb_prop in Hcan as [Hcan Hopen].
    apply andb_prop in Hcan as [Huser Htext].
    apply bool_decide_eq_true_1 in Huser as [usr Husr]. rewrite Husr.
    replace (String.eqb (trim (message (ui s))) "") with false
      by (by destruct (String.eqb _ _)).
    replace (negb (bool_decide (is_Some (selectedExam (ui s))))
             && negb (isCreatingNew (ui s))) with false
      by (by destruct (bool_decide _), (isCreatingNew (ui s))).
    cbn [orb].
    unfold finally, try_catch, fetch_webhook, mbind, M_bind. simpl.
    rewrite Hcorr.
    destruct (examId answer) as [newId|]; [rewrite Hexam|]; simpl;
      rewrite sent_then_failed, <- app_assoc, ?length_app; simpl;
      split_and!; try done; lia.
Qed.

Lemma plain_answer_only_extends_the_chat_witness :
  let asked := {| ui := put_message "make it harder" (ui algebra_selected);
                  world := world algebra_selected |} in
  let answer := {| output := "Here it is"; examId := None;
                   correctionId := Some "c1" |} in
  let blank := {| ui := put_message (no_break_space +:+ " ")
                             (ui algebra_selected);
                  world := world algebra_selected |} in
  after (send (FetchResolved true (Some answer))) blank = blank
  /\ chatMessages (ui (after (send (FetchResolved true (Some answer))) asked))
     = [{| msg_content := "make it harder"; isUser := true;
           msg_id := None |};
        {| msg_content := "Here it is"; isUser := false; msg_id := None |}].
Proof.
  intros asked answer blank. split.
  - by apply (plain_answer_only_extends_the_chat blank answer).
  - destruct (plain_answer_only_extends_the_chat asked answer) as (_ & Hsent).
    destruct (Hsent eq_refl eq_refl eq_refl) as (-> & _). reflexivity.
Defined.

(** X26.  In correction mode an answer that carries a correction id makes the
    handler load the correction again: the lookup is by the id of the
    selected exam (the id in the answer is only tested for being there),
    and the row found replaces the correction object, the correction slot
    and the buffer, so unsaved changes to the correction are overwritten;
    the chat ends with the message and the answer. *)
Theorem answer_with_correction_id_reloads_the_correction
    (s : Sys) (answer : WebhookData) (sel : Exam.t) (corr : Correction.t) :
  can_send (ui s) = true ->
  mode (ui s) = correction_mode ->
  isCreatingNew (ui s) = false ->
  truthy (correctionId answer) = true ->
  selectedExam (ui s) = Some sel ->
  all_go_through 1 (faults (world s)) = true ->
  filter (fun c => Correction.exam_id c = Exam.id sel)
    (corrections_tbl (remote (world s))) = [corr] ->
  let s' := after (send (FetchResolved true (Some answer))) s in
  correction (ui s') = Some corr
  /\ correctionContent (ui s') = Correction.content corr
  /\ editableContent (ui s') = Correction.content corr
  /\ last (calls (world s')) = Some (CorrectionsSelectByExam (Exam.id sel))
  /\ chatMessages (ui s')
     = without_typing (chatMessages (ui s))
       ++ [{| msg_content := message (ui s); isUser := true;
              msg_id := None |};
           {| msg_content := output answer; isUser := false;
              msg_id := None |}]
  /\ isSendingMessage (ui s') = false
  /\ toasts (world s') = toasts (world s).
Proof.
  intros Hcan Hmode Hold Hid Hsel Hfaults Hone.
  unfold can_send in Hcan.
  apply andb_prop in Hcan as [Hcan Hopen].
  apply andb_prop in Hcan as [Huser Htext].
  apply bool_decide_eq_true_1 in Huser as [usr Husr].
  unfold after, send, dispatch, handleSendMessage. rewrite Husr.
  replace (String.eqb (trim (message (ui s))) "") with false
    by (by destruct (String.eqb _ _)).
  rewrite Hold, Hsel, Hmode.
  rewrite bool_decide_eq_true_2 by eauto.
  cbn [orb andb negb].
  destruct s as [u [r fs cs ts]].
  unfold finally, try_catch, fetch_webhook, loadCorrection, mbind, M_bind.
  simpl in *. rewrite Hsel, Hid. simpl.
  unfold finally, try_catch, database.corrections.getByExamId, store_call,
    mbind, M_bind. simpl.
  destruct (examId answer) as [newId|]; simpl;
    (destruct fs as [|[|e|] fs]; simpl in *; try discriminate Hfaults;
     rewrite Hone; simpl;
     rewrite sent_then_failed; split_and!;
     first [done | by rewrite last_snoc | by rewrite <- app_assoc]).
Qed.

Lemma answer_with_correction_id_reloads_the_correction_witness :
  let answer := {| output := "Harder now"; examId := None;
                   correctionId := Some "c9" |} in
  let s' := after (send (FetchResolved true (Some answer)))
              (after (type_message "make it harder")
                 (after (type_texts ["x = 1, checked"])
                    (after (toggle correction_mode)
                       (after (select_exam (Some "e1"))
                          {| ui := initial_state (Some teacher);
                             world := store_with_correction |})))) in
  correction (ui s') = Some algebra_key
  /\ editableContent (ui s') = Correction.content algebra_key.
Proof.
  intros answer s'.
  destruct (answer_with_correction_id_reloads_the_correction
              (after (type_message "make it harder")
                 (after (type_texts ["x = 1, checked"])
                    (after (toggle correction_mode)
                       (after (select_exam (Some "e1"))
                          {| ui := initial_state (Some teacher);
                             world := store_with_correction |}))))
              answer algebra algebra_key
              eq_refl eq_refl eq_refl eq_refl eq_refl eq_refl eq_refl)
    as (Hcorr & _ & Hbuffer & _).
  by split.
Defined.
